(** * Raster acquisition pipeline of [src/utilities/GEE_utilities.py]

    A shallow embedding of [download_gee_data_single_collection] and of the
    functions it calls ([merge_rasters], [download_file], and the closures
    [process_region], [download_for_bbox], [process_image]).

    The Python code talks to the file system, to the Earth Engine client,
    to [requests] and to [rasterio].  Every such call is an [op]; what the
    outside world answers is given by an [oracle], a function of the history
    of the run so far and of the call.  All theorems quantify over the
    oracle.  The file system is a finite map from paths to nodes, the log
    and the calls are kept in one append-only [history]. *)

From Stdlib Require Import QArith Ascii String.
From stdpp Require Import base strings list gmap pretty.

Local Open Scope string_scope.
Local Open Scope list_scope.

(** ** Strings, paths and file names *)

Module Py.

(** [b.startswith("/")] *)
Definition startswith_sep (b : string) : bool :=
  match b with
  | String c _ => bool_decide (c = "/"%char)
  | EmptyString => false
  end.

(** [a.endswith("/")] *)
Fixpoint endswith_sep (a : string) : bool :=
  match a with
  | EmptyString => false
  | String c EmptyString => bool_decide (c = "/"%char)
  | String _ a' => endswith_sep a'
  end.

(** [os.path.join(a, b)] of [posixpath]: an absolute [b] replaces [a]; a
    separator is inserted unless [a] is empty or already ends with one. *)
Definition os_path_join (a b : string) : string :=
  if startswith_sep b then b
  else if bool_decide (a = "") || endswith_sep a then a +:+ b
  else a +:+ "/" +:+ b.

(** [s.split(sep)] for a one-character separator: never the empty list. *)
Fixpoint split (sep : ascii) (s : string) : list string :=
  match s with
  | EmptyString => [""]
  | String c s' =>
      if bool_decide (c = sep) then "" :: split sep s'
      else match split sep s' with
           | x :: xs => String c x :: xs
           | [] => [String c ""]
           end
  end.

(** [l[-1]] on a list of strings that is known not to be empty. *)
Definition last_item (l : list string) : string := default "" (last l).

(** [f"{n:02d}"] for a natural number. *)
Definition fmt_02d (n : nat) : string :=
  if decide (n < 10) then "0" +:+ pretty n else pretty n.

(** [f"{z}"] / [str(z)] for an [int]. *)
Definition str (z : Z) : string := pretty z.

(** Truth value of an [Optional[str]]: [None] and [""] are false. *)
Definition truthy (o : option string) : bool :=
  match o with
  | Some s => negb (bool_decide (s = ""))
  | None => false
  end.

(** [calendar.isleap] and the day count [calendar.monthrange(y, m)[1]]. *)
Definition isleap (year : Z) : bool :=
  bool_decide (year mod 4 = 0)%Z &&
  (negb (bool_decide (year mod 100 = 0)%Z) || bool_decide (year mod 400 = 0)%Z).

Definition mdays (month : nat) : nat :=
  match month with
  | 1 => 31 | 2 => 28 | 3 => 31 | 4 => 30 | 5 => 31 | 6 => 30
  | 7 => 31 | 8 => 31 | 9 => 30 | 10 => 31 | 11 => 30 | 12 => 31
  | _ => 0
  end.

Definition monthrange_days (year : Z) (month : nat) : nat :=
  mdays month + (if bool_decide (month = 2) && isleap year then 1 else 0).

End Py.

(** The names the module binds at top level (lines 1-23 of the file, plus
    its [def]s): the imports, [logger] and the functions. *)
Definition module_globals : list string :=
  [ "os"; "calendar"; "logging"; "ThreadPoolExecutor"; "as_completed";
    "Path"; "List"; "Optional"; "Any"; "ee"; "gpd"; "service_account";
    "Polygon"; "MultiPolygon"; "rasterio"; "merge"; "download_file";
    "get_filename_from_cd"; "logger"; "merge_rasters"; "initialize_gee";
    "download_gee_data_single_collection"; "download_gee_data_single_image";
    "merge_tifs_in_directory" ].

(** The names bound in the closures of [download_gee_data_single_collection]
    that enclose [download_for_bbox]: parameters and local variables. *)
Definition enclosing_locals : list string :=
  [ "gdf"; "column_name"; "collection"; "band"; "years"; "output_folder";
    "scale"; "crs"; "max_workers"; "frequency"; "process_region"; "tasks";
    "executor"; "region_code"; "region_geometry"; "year"; "image_collection";
    "start_date"; "end_date"; "region_folder"; "get_bbox_from_polygon";
    "download_for_bbox"; "process_image"; "img"; "time_suffix"; "month";
    "monthly_collection"; "monthly_images"; "monthly_img"; "mosaic_img";
    "bbox"; "filename"; "filepath"; "params"; "max_attempts"; "attempt";
    "download_url"; "exc"; "wait_time" ].

Definition name_bound (name : string) : bool :=
  bool_decide (name ∈ enclosing_locals ++ module_globals).

(** ** File names of the artifacts *)

Definition collection_leaf (collection : string) : string :=
  Py.last_item (Py.split "/" collection).

(** [f"{collection.split('/')[-1]}_{band}_{time_suffix}_{region_code}"] *)
Definition name_stem (collection band time_suffix region_code : string) : string :=
  collection_leaf collection +:+ "_" +:+ band +:+ "_" +:+ time_suffix
    +:+ "_" +:+ region_code.

Definition final_filename (collection band time_suffix region_code : string) : string :=
  name_stem collection band time_suffix region_code +:+ ".tif".

Definition part_filename (collection band time_suffix region_code : string)
    (idx : nat) : string :=
  name_stem collection band time_suffix region_code
    +:+ "_part" +:+ pretty idx +:+ ".tif".

(** ** Geometry and Earth Engine objects *)

(** [poly.bounds] of a shapely polygon: [(minx, miny, maxx, maxy)]. *)
Record Polygon := { minx : Q; miny : Q; maxx : Q; maxy : Q }.

(** The geometry of a region.  [process_image] only asks whether
    [geom_type] is ["MultiPolygon"]; every other geometry takes the
    single-polygon branch and is used through its bounds. *)
Inductive Geometry :=
  | SinglePolygon (poly : Polygon)
  | MultiPolygon (geoms : list Polygon).

Definition get_bbox_from_polygon (poly : Polygon) : list (Q * Q) :=
  [ (minx poly, miny poly); (maxx poly, miny poly);
    (maxx poly, maxy poly); (minx poly, maxy poly) ].

(** Client-side Earth Engine values, as the expressions that build them. *)
Inductive ImageCollection :=
  | ee_ImageCollection (collection : string)
  | ee_ImageCollection_of (images : list Image)
  | ic_select (ic : ImageCollection) (band : string)
  | ic_filterDate (ic : ImageCollection) (start_date end_date : string)
with Image :=
  | ic_mosaic (ic : ImageCollection)
  | img_reproject (img : Image) (crs : string) (scale : Z).

(** The [params] dictionary of [getDownloadURL]; ["format"] is always
    ["GeoTIFF"]. *)
Record DownloadParams := {
  p_scale : Z;
  p_region : list (Q * Q);
  p_format : string;
  p_crs : string
}.

(** ** Exceptions, log records, external calls *)

(** Subclasses of Python's [Exception] that the pipeline can meet. *)
Inductive exn :=
  | NameError (name : string)
  | ValueError (msg : string)
  | IndexError
  | FileNotFoundError (path : string)
  | FileExistsError (path : string)
  | IsADirectoryError (path : string)
  | EEException (msg : string)
  | RequestException (msg : string)
  | OSError (msg : string)
  | RasterioIOError (msg : string).

Inductive result (A : Type) :=
  | Ok (a : A)
  | Raise (e : exn).
Arguments Ok {A} a.
Arguments Raise {A} e.

Inductive level := INFO | WARNING | ERROR.

(** One constructor per [logger] call of the file, with the values that the
    f-string interpolates. *)
Inductive message :=
  | MergedRasterSaved (output_path : string)
  | ErrorDuringMerging (exc : exn)
  | FileAlreadyExists (filepath : string)
  | DownloadedFile (filepath : string)
  | ErrorDownloading (filename : string) (attempt max_attempts : nat)
      (exc : exn) (wait_time : Q)
  | FailedToDownload (filename : string) (max_attempts : nat)
  | NoValidDownloads (region_code time_suffix : string)
  | RemovedTemporaryFile (fp : string)
  | CouldNotRemove (fp : string) (e : exn)
  | YearIsRequired (frequency region_code : string)
  | UnexpectedError (region_code : string) (year : option Z) (exc : exn)
  | ErrorInThreadExecution (exc : exn)
  | ProcessingComplete.

(** Calls that leave the program.  The first group builds Earth Engine
    objects in the client, the second group goes over the network. *)
Inductive op :=
  | ee_new_collection (collection : string)
  | ee_collection_of (images : list Image)
  | ee_select (ic : ImageCollection) (band : string)
  | ee_filterDate (ic : ImageCollection) (start_date end_date : string)
  | ee_mosaic (ic : ImageCollection)
  | ee_reproject (img : Image) (crs : string) (scale : Z)
  | ee_getDownloadURL (img : Image) (params : DownloadParams)
  | requests_get (url : string)
  | raise_for_status (url : string)
  | iter_content_write (filepath : string)
  | open_wb (filepath : string)
  | os_makedirs (path : string)
  | os_remove (path : string)
  | rasterio_open (fp : string)
  | rasterio_merge (src_files : list string)
  | rasterio_open_w (output_path : string)
  | dataset_write (output_path : string).

(** What a call answers: a value (a URL for [ee_getDownloadURL], unused
    otherwise) or an exception. *)
Inductive answer :=
  | Returns (payload : string)
  | Raises (e : exn).

Inductive event :=
  | EvCall (o : op) (a : answer)
  | EvClose (name : string)
  | EvSleep (seconds : Q)
  | EvPrint (filepath : string)
  | EvLog (lvl : level) (msg : message).

(** ** The world *)

Inductive node :=
  | Dir
  | File (complete : bool).

Record World := {
  fs : gmap string node;
  history : list event
}.

Definition Oracle := list event -> op -> answer.

(** ** The monad of the pipeline: state and exceptions *)

Definition M (A : Type) : Type := World -> result A * World.

Definition ret {A} (a : A) : M A := fun w => (Ok a, w).

Definition raise {A} (e : exn) : M A := fun w => (Raise e, w).

Definition bind {A B} (m : M A) (k : A -> M B) : M B :=
  fun w =>
    match m w with
    | (Ok a, w') => k a w'
    | (Raise e, w') => (Raise e, w')
    end.

(** [try: m  except Exception as exc: h exc] *)
Definition try_except {A} (m : M A) (h : exn -> M A) : M A :=
  fun w =>
    match m w with
    | (Ok a, w') => (Ok a, w')
    | (Raise e, w') => h e w'
    end.

(** [try: m  finally: fin] *)
Definition try_finally {A} (m : M A) (fin : M unit) : M A :=
  fun w =>
    match m w with
    | (r, w') =>
        match fin w' with
        | (Ok _, w'') => (r, w'')
        | (Raise e, w'') => (Raise e, w'')
        end
    end.

(** Runs [m] and hands its outcome back as a value. *)
Definition attempt {A} (m : M A) : M (result A) :=
  fun w => match m w with (r, w') => (Ok r, w') end.

Declare Scope py_scope.
Delimit Scope py_scope with py.
Notation "x <- m ;; k" := (bind m (fun x => k))
  (at level 100, m at next level, right associativity) : py_scope.
Notation "m ;; k" := (bind m (fun _ => k))
  (at level 100, right associativity) : py_scope.
Local Open Scope py_scope.

(** [for x in xs: body x] *)
Fixpoint for_each {A} (xs : list A) (body : A -> M unit) : M unit :=
  match xs with
  | [] => ret tt
  | x :: xs' => body x ;; for_each xs' body
  end.

(** [for x in xs: body x] where the body may [return v] from the enclosing
    function ([Some v]); [None] when the loop runs to its end. *)
Fixpoint for_return {A R} (xs : list A) (body : A -> M (option R)) : M (option R) :=
  match xs with
  | [] => ret None
  | x :: xs' =>
      r <- body x ;;
      match r with
      | Some v => ret (Some v)
      | None => for_return xs' body
      end
  end.

(** A loop that appends to a list: [acc] is the list so far. *)
Fixpoint for_collect {A R} (xs : list A) (body : A -> M (option R))
    (acc : list R) : M (list R) :=
  match xs with
  | [] => ret acc
  | x :: xs' =>
      r <- body x ;;
      for_collect xs' body (match r with Some v => acc ++ [v] | None => acc end)
  end.

Definition emit (ev : event) : M unit :=
  fun w => (Ok tt, {| fs := fs w; history := history w ++ [ev] |}).

Definition set_node (path : string) (n : node) : M unit :=
  fun w => (Ok tt, {| fs := <[path := n]> (fs w); history := history w |}).

Definition del_node (path : string) : M unit :=
  fun w => (Ok tt, {| fs := delete path (fs w); history := history w |}).

Definition get_node (path : string) : M (option node) :=
  fun w => (Ok (fs w !! path), w).

Definition logger_info (msg : message) : M unit := emit (EvLog INFO msg).
Definition logger_warning (msg : message) : M unit := emit (EvLog WARNING msg).
Definition logger_error (msg : message) : M unit := emit (EvLog ERROR msg).

Section Pipeline.

(** How the outside world answers. *)
Variable oracle : Oracle.

(** An external call: the oracle answers from the history so far, the call
    and its answer are appended to the history. *)
Definition ext (o : op) : M string :=
  fun w =>
    let a := oracle (history w) o in
    let w' := {| fs := fs w; history := history w ++ [EvCall o a] |} in
    match a with
    | Returns v => (Ok v, w')
    | Raises e => (Raise e, w')
    end.

(** *** File system *)

(** [os.path.exists(path)]: true of files and of directories. *)
Definition os_path_exists (path : string) : M bool :=
  n <- get_node path ;; ret (bool_decide (is_Some n)).

(** [os.makedirs(path, exist_ok=True)].  Parent directories are not
    tracked: the missing ancestors that the call creates along with [path]
    are not entered in the map, and no function of the pipeline looks at
    them. *)
Definition makedirs (path : string) : M unit :=
  n <- get_node path ;;
  match n with
  | Some Dir => ret tt
  | Some (File _) => raise (FileExistsError path)
  | None => ext (os_makedirs path) ;; set_node path Dir
  end.

(** [os.remove(path)] *)
Definition remove (path : string) : M unit :=
  n <- get_node path ;;
  match n with
  | Some (File _) => ext (os_remove path) ;; del_node path
  | Some Dir => raise (IsADirectoryError path)
  | None => raise (FileNotFoundError path)
  end.

(** [open(path, "wb")] or [rasterio.open(path, "w")]: the file exists, empty,
    as soon as the call returns. *)
Definition create_file (o : op) (path : string) : M unit :=
  n <- get_node path ;;
  match n with
  | Some Dir => raise (IsADirectoryError path)
  | _ => ext o ;; set_node path (File false)
  end.

(** *** [time.sleep] *)

(** Evaluating the name [time] in [download_for_bbox]: a [NameError] unless
    some scope binds it. *)
Definition time_sleep (seconds : Q) : M unit :=
  if name_bound "time" then emit (EvSleep seconds)
  else raise (NameError "time").

(** *** [download_utilities.download_file], called with a [filename] *)

(** The pipeline always passes [filename]; the branches for
    [filename is None] are left out.  The loop over [iter_content] is one
    call: when it raises, the file stays on disk as far as it was written. *)
Definition download_file (url directory filename : string) : M string :=
  let filepath := Py.os_path_join directory filename in
  e <- os_path_exists filepath ;;
  if e : bool then emit (EvPrint filepath) ;; ret filename
  else
    ext (requests_get url) ;;
    let filepath := Py.os_path_join directory filename in
    e <- os_path_exists filepath ;;
    if e : bool then emit (EvPrint filepath) ;; ret filename
    else
      ext (raise_for_status url) ;;
      create_file (open_wb filepath) filepath ;;
      ext (iter_content_write filepath) ;;
      set_node filepath (File true) ;;
      ret filename.

(** *** [merge_rasters] *)

(** The loop [for fp in file_list: src_files.append(rasterio.open(fp))].
    [src_files] is read by the [finally] clause also when the loop is left
    by an exception, so the loop returns the list together with the
    exception that left it, if any. *)
Fixpoint open_sources (file_list : list string) (src_files : list string)
    : M (list string * option exn) :=
  match file_list with
  | [] => ret (src_files, None)
  | fp :: rest =>
      r <- attempt (ext (rasterio_open fp)) ;;
      match r with
      | Ok _ => open_sources rest (src_files ++ [fp])
      | Raise e => ret (src_files, Some e)
      end
  end.

(** [with rasterio.open(output_path, "w", **out_meta) as dest:
    dest.write(mosaic)]; leaving the block closes [dest]. *)
Definition write_mosaic (output_path : string) : M unit :=
  create_file (rasterio_open_w output_path) output_path ;;
  try_finally
    (ext (dataset_write output_path) ;; set_node output_path (File true))
    (emit (EvClose output_path)).

(** A dataset is named by the path it was opened on.  [src.close()] on a
    dataset opened for reading does not raise. *)
Definition merge_rasters (file_list : list string) (output_path : string) : M unit :=
  opened <- open_sources file_list [] ;;
  let src_files := fst opened in
  try_finally
    (try_except
       (match snd opened with
        | Some e => raise e
        | None =>
            ext (rasterio_merge src_files) ;;
            match src_files with
            | [] => raise IndexError
            | _ :: _ =>
                write_mosaic output_path ;;
                logger_info (MergedRasterSaved output_path)
            end
        end)
       (fun exc => logger_error (ErrorDuringMerging exc)))
    (for_each src_files (fun src => emit (EvClose src))).

(** *** [download_gee_data_single_collection] and its closures *)

Section Call.

(** The arguments of the call.  [gdf] is the list of rows, each the value
    of [row[column_name]] with [row.geometry]. *)
Variable gdf : list (string * Geometry).
Variable collection band : string.
Variable years : option (list Z).
Variable output_folder : string.
Variable scale : Z.
Variable crs : string.
Variable max_workers : Z.
Variable frequency : string.

Definition backoff (attempt : nat) : Q := (32 # 100) * inject_Z (Z.of_nat attempt).

Section Region.

Variable region_code : string.
Variable region_geometry : Geometry.
Variable year : option Z.

Definition region_folder : string := Py.os_path_join output_folder region_code.

Definition max_attempts : nat := 5.

(** One pass of the [for attempt in range(1, max_attempts + 1)] loop. *)
Definition download_attempt (params : DownloadParams) (filename filepath : string)
    (img : Image) (attempt : nat) : M (option string) :=
  try_except
    (download_url <- ext (ee_getDownloadURL img params) ;;
     download_file download_url region_folder filename ;;
     logger_info (DownloadedFile filepath) ;;
     ret (Some filepath))
    (fun exc =>
       let wait_time := backoff attempt in
       logger_warning (ErrorDownloading filename attempt max_attempts exc wait_time) ;;
       time_sleep wait_time ;;
       ret None).

Definition download_for_bbox (bbox : list (Q * Q)) (filename : string) (img : Image)
    : M (option string) :=
  let filepath := Py.os_path_join region_folder filename in
  e <- os_path_exists filepath ;;
  if e : bool then logger_info (FileAlreadyExists filepath) ;; ret (Some filepath)
  else
    let params := {| p_scale := scale; p_region := bbox;
                     p_format := "GeoTIFF"; p_crs := crs |} in
    r <- for_return (seq 1 max_attempts)
           (download_attempt params filename filepath img) ;;
    match r with
    | Some fp => ret (Some fp)
    | None => logger_error (FailedToDownload filename max_attempts) ;; ret None
    end.

(** The loop over [enumerate(region_geometry.geoms)]. *)
Definition download_part (img : Image) (time_suffix : string)
    (part : nat * Polygon) : M (option string) :=
  let bbox := get_bbox_from_polygon (snd part) in
  let part_filename := part_filename collection band time_suffix region_code (fst part) in
  temp_filepath <- download_for_bbox bbox part_filename img ;;
  ret (if Py.truthy temp_filepath then temp_filepath else None).

Definition remove_temp (fp : string) : M unit :=
  try_except
    (remove fp ;; logger_info (RemovedTemporaryFile fp))
    (fun e => logger_warning (CouldNotRemove fp e)).

(** Lines 192-205: what [process_image] does with [temp_files] once the
    parts are downloaded. *)
Definition merge_parts (time_suffix : string) (temp_files : list string) : M unit :=
  match temp_files with
  | [] => logger_warning (NoValidDownloads region_code time_suffix)
  | _ :: _ =>
      let merged_filename := final_filename collection band time_suffix region_code in
      let merged_filepath := Py.os_path_join region_folder merged_filename in
      merge_rasters temp_files merged_filepath ;;
      for_each temp_files remove_temp
  end.

Definition process_image (img : Image) (time_suffix : string) : M unit :=
  match region_geometry with
  | MultiPolygon geoms =>
      temp_files <- for_collect (imap pair geoms) (download_part img time_suffix) [] ;;
      merge_parts time_suffix temp_files
  | SinglePolygon poly =>
      let bbox := get_bbox_from_polygon poly in
      let final_filename := final_filename collection band time_suffix region_code in
      download_for_bbox bbox final_filename img ;;
      ret tt
  end.

(** The Earth Engine client calls of the image resolution. *)
Definition ImageCollection_new (c : string) : M ImageCollection :=
  ext (ee_new_collection c) ;; ret (ee_ImageCollection c).
Definition ImageCollection_of (images : list Image) : M ImageCollection :=
  ext (ee_collection_of images) ;; ret (ee_ImageCollection_of images).
Definition select (ic : ImageCollection) (b : string) : M ImageCollection :=
  ext (ee_select ic b) ;; ret (ic_select ic b).
Definition filterDate (ic : ImageCollection) (start_date end_date : string)
    : M ImageCollection :=
  ext (ee_filterDate ic start_date end_date) ;; ret (ic_filterDate ic start_date end_date).
Definition mosaic (ic : ImageCollection) : M Image :=
  ext (ee_mosaic ic) ;; ret (ic_mosaic ic).
Definition reproject (img : Image) : M Image :=
  ext (ee_reproject img crs scale) ;; ret (img_reproject img crs scale).

(** [f"{year}-{month:02d}-01"] and
    [f"{year}-{month:02d}-{calendar.monthrange(year, month)[1]}"] *)
Definition month_start (y : Z) (month : nat) : string :=
  Py.str y +:+ "-" +:+ Py.fmt_02d month +:+ "-01".
Definition month_end (y : Z) (month : nat) : string :=
  Py.str y +:+ "-" +:+ Py.fmt_02d month +:+ "-" +:+ pretty (Py.monthrange_days y month).

(** [f"{year}_{month:02d}"] and [f"{year}_monthly_mosaic"] *)
Definition month_suffix (y : Z) (month : nat) : string :=
  Py.str y +:+ "_" +:+ Py.fmt_02d month.
Definition mosaic_suffix (y : Z) : string := Py.str y +:+ "_monthly_mosaic".

(** The monthly composite of [image_collection], lines 223-227 and 236-240. *)
Definition monthly_image (image_collection : ImageCollection) (y : Z) (month : nat)
    : M Image :=
  monthly_collection <- filterDate image_collection (month_start y month) (month_end y month) ;;
  img <- mosaic monthly_collection ;;
  reproject img.

(** The body of the [try] of [process_region]. *)
Definition process_region_body : M unit :=
  ic <- ImageCollection_new collection ;;
  ic <- select ic band ;;
  image_collection <-
    match year with
    | Some y => filterDate ic (Py.str y +:+ "-01-01") (Py.str y +:+ "-12-31")
    | None => ret ic
    end ;;
  makedirs region_folder ;;
  if decide (frequency = "yearly") then
    img <- mosaic image_collection ;;
    img <- reproject img ;;
    process_image img (match year with Some y => Py.str y | None => "" end)
  else if decide (frequency = "monthly") then
    match year with
    | None => logger_warning (YearIsRequired "monthly" region_code)
    | Some y =>
        for_each (seq 1 12) (fun month =>
          img <- monthly_image image_collection y month ;;
          process_image img (month_suffix y month))
    end
  else if decide (frequency = "monthly_mosaic") then
    match year with
    | None => logger_warning (YearIsRequired "monthly_mosaic" region_code)
    | Some y =>
        monthly_images <-
          for_collect (seq 1 12)
            (fun month => img <- monthly_image image_collection y month ;; ret (Some img))
            [] ;;
        ic <- ImageCollection_of monthly_images ;;
        mosaic_img <- mosaic ic ;;
        process_image mosaic_img (mosaic_suffix y)
    end
  else ret tt.

Definition process_region : M unit :=
  try_except process_region_body
    (fun exc => logger_error (UnexpectedError region_code year exc)).

End Region.

(** The tasks in the order of submission: for every row, one per year when
    [years] is a non-empty list, else one without a year. *)
Definition tasks : list (string * Geometry * option Z) :=
  flat_map
    (fun row : string * Geometry =>
       match years with
       | Some ((_ :: _) as ys) => map (fun yr => (fst row, snd row, Some yr)) ys
       | _ => [(fst row, snd row, None)]
       end)
    gdf.

(** [future.result()] of a task inside the [try] of lines 261-264. *)
Definition run_task (t : string * Geometry * option Z) : M unit :=
  try_except (process_region (fst (fst t)) (snd (fst t)) (snd t))
    (fun exc => logger_error (ErrorInThreadExecution exc)).

(** The tasks run one after the other in the order of submission, which is
    one of the schedules of the pool.  [ThreadPoolExecutor] refuses
    [max_workers <= 0] with a [ValueError]. *)
Definition download_gee_data_single_collection : M unit :=
  if bool_decide (frequency ∈ ["yearly"; "monthly"; "monthly_mosaic"]) then
    makedirs output_folder ;;
    (if decide (max_workers <= 0)%Z
     then raise (ValueError "max_workers must be greater than 0")
     else ret tt) ;;
    for_each tasks run_task ;;
    logger_info ProcessingComplete
  else raise (ValueError ("Unsupported frequency: " +:+ frequency)).

End Call.
End Pipeline.

(** ** Reading a run *)

(** The calls of a history that go over the network: asking for a download
    reference and the HTTP transfer. *)
Definition is_network_call (ev : event) : bool :=
  match ev with
  | EvCall (ee_getDownloadURL _ _) _ => true
  | EvCall (requests_get _) _ => true
  | EvCall (raise_for_status _) _ => true
  | EvCall (iter_content_write _) _ => true
  | _ => false
  end.

Definition network_calls (h : list event) : list event := filter is_network_call h.

(** The download references requested. *)
Definition is_download_request (ev : event) : bool :=
  match ev with
  | EvCall (ee_getDownloadURL _ _) _ => true
  | _ => false
  end.

Definition sleeps (h : list event) : list Q :=
  omap (fun ev => match ev with EvSleep s => Some s | _ => None end) h.

(** The file that an event opens for writing: [open(.., "wb")] of a
    download, [rasterio.open(.., "w")] of the merge. *)
Definition written_path (ev : event) : option string :=
  match ev with
  | EvCall (open_wb p) _ | EvCall (rasterio_open_w p) _ => Some p
  | _ => None
  end.

Definition is_download_write (ev : event) : bool :=
  match ev with
  | EvCall (open_wb _) _ => true
  | _ => false
  end.

Definition is_multi (g : Geometry) : bool :=
  match g with
  | MultiPolygon _ => true
  | SinglePolygon _ => false
  end.

Definition opened_for_reading (h : list event) : list string :=
  omap (fun ev => match ev with
                  | EvCall (rasterio_open fp) (Returns _) => Some fp
                  | _ => None end) h.

Definition opened_for_writing (h : list event) : list string :=
  omap (fun ev => match ev with
                  | EvCall (rasterio_open_w fp) (Returns _) => Some fp
                  | _ => None end) h.

Definition closed (h : list event) : list string :=
  omap (fun ev => match ev with EvClose n => Some n | _ => None end) h.

Definition is_problem (ev : event) : bool :=
  match ev with
  | EvLog WARNING _ | EvLog ERROR _ => true
  | _ => false
  end.

(** The error record of [merge_rasters]. *)
Definition is_merge_error (ev : event) : bool :=
  match ev with
  | EvLog ERROR (ErrorDuringMerging _) => true
  | _ => false
  end.

(** No warning and no error, the error record of [merge_rasters] apart. *)
Definition merge_error_at_most (ev : event) : bool :=
  negb (is_problem ev) || is_merge_error ev.

(** The file that a download opens or streams into. *)
Definition downloaded_into (ev : event) : option string :=
  match ev with
  | EvCall (open_wb p) _ | EvCall (iter_content_write p) _ => Some p
  | _ => None
  end.

(** The log records of a part that the download step hands back: found on
    disk, or downloaded. *)
Definition is_download_success (ev : event) : bool :=
  match ev with
  | EvLog INFO (FileAlreadyExists _) | EvLog INFO (DownloadedFile _) => true
  | _ => false
  end.

(** The calls that raised. *)
Definition is_raised (ev : event) : bool :=
  match ev with
  | EvCall _ (Raises _) => true
  | _ => false
  end.

Definition is_merge_call (ev : event) : bool :=
  match ev with
  | EvCall (rasterio_open _) _ | EvCall (rasterio_merge _) _
  | EvCall (rasterio_open_w _) _ | EvCall (dataset_write _) _ => true
  | _ => false
  end.

(** Concrete oracles for the examples. *)
Definition all_fine : Oracle := fun _ _ => Returns "https://ee/download".

Definition downloads_refused : Oracle :=
  fun _ o =>
    match o with
    | ee_getDownloadURL _ _ => Raises (EEException "quota")
    | _ => Returns "https://ee/download"
    end.

Definition transfer_breaks : Oracle :=
  fun _ o =>
    match o with
    | iter_content_write _ => Raises (RequestException "connection broken")
    | _ => Returns "https://ee/download"
    end.

Definition merge_breaks : Oracle :=
  fun _ o =>
    match o with
    | rasterio_merge _ => Raises (RasterioIOError "merge")
    | _ => Returns "https://ee/download"
    end.

Definition empty_world : World := {| fs := ∅; history := [] |}.

Definition unit_square : Polygon := {| minx := 0; miny := 0; maxx := 1; maxy := 1 |}.

(** ** Properties of runs *)

(** [I] is kept by [m], however [m] ends. *)
Definition inv {A} (I : World -> Prop) (m : M A) : Prop :=
  forall w, I w -> I (snd (m w)).

(** The history is [h0] followed by events that all satisfy [P]. *)
Definition extends (P : event -> Prop) (h0 : list event) (w : World) : Prop :=
  exists evs, history w = h0 ++ evs /\ Forall P evs.

(** The part of the history of [w'] that was added since [w]. *)
Definition added (w w' : World) : list event :=
  drop (length (history w)) (history w').


(** ** The events each function can add to the history *)

(** [download_file] on [filepath]. *)
Definition transfer_event (filepath : string) (ev : event) : Prop :=
  match ev with
  | EvPrint p => p = filepath
  | EvCall (requests_get _) _ | EvCall (raise_for_status _) _ => True
  | EvCall (open_wb p) _ | EvCall (iter_content_write p) _ => p = filepath
  | _ => False
  end.

(** [download_for_bbox] of [img] to [filepath]. *)
Definition download_event (img : Image) (filepath : string) (ev : event) : Prop :=
  match ev with
  | EvCall (ee_getDownloadURL img' _) _ => img' = img
  | EvLog INFO (FileAlreadyExists p) | EvLog INFO (DownloadedFile p) => p = filepath
  | EvLog WARNING (ErrorDownloading _ _ _ _ _) => True
  | EvLog ERROR (FailedToDownload _ _) => True
  | EvSleep _ => True
  | _ => transfer_event filepath ev
  end.

(** [merge_rasters file_list output_path]. *)
Definition merge_event (output_path : string) (ev : event) : Prop :=
  match ev with
  | EvCall (rasterio_open _) _ | EvCall (rasterio_merge _) _ => True
  | EvCall (rasterio_open_w p) _ | EvCall (dataset_write p) _ => p = output_path
  | EvClose _ => True
  | EvLog INFO (MergedRasterSaved p) => p = output_path
  | EvLog ERROR (ErrorDuringMerging _) => True
  | _ => False
  end.

(** The cleanup loop of [process_image]. *)
Definition cleanup_event (ev : event) : Prop :=
  match ev with
  | EvCall (os_remove _) _ => True
  | EvLog INFO (RemovedTemporaryFile _) | EvLog WARNING (CouldNotRemove _ _) => True
  | _ => False
  end.

(** The path of an artifact of a region: the final file, or part [i]. *)
Definition artifact_filename (collection band time_suffix region_code : string)
    (part : option nat) : string :=
  match part with
  | None => final_filename collection band time_suffix region_code
  | Some i => part_filename collection band time_suffix region_code i
  end.

Definition artifact_path (output_folder collection band time_suffix region_code : string)
    (part : option nat) : string :=
  Py.os_path_join (Py.os_path_join output_folder region_code)
    (artifact_filename collection band time_suffix region_code part).

(** [process_image img time_suffix] for a region. *)
Definition image_event (output_folder collection band region_code : string)
    (region_geometry : Geometry) (img : Image) (time_suffix : string)
    (ev : event) : Prop :=
  let path := artifact_path output_folder collection band time_suffix region_code in
  match region_geometry with
  | SinglePolygon _ => download_event img (path None) ev
  | MultiPolygon geoms =>
      (exists i, i < length geoms /\ download_event img (path (Some i)) ev)
      \/ merge_event (path None) ev
      \/ cleanup_event ev
      \/ ev = EvLog WARNING (NoValidDownloads region_code time_suffix)
  end.

(** With a relative second component, [os.path.join] puts a prefix that
    only depends on the first component in front of it. *)
Definition join_prefix (a : string) : string :=
  if bool_decide (a = "") || Py.endswith_sep a then a else a +:+ "/".

(** [I] is kept by [m], and a value that [m] returns satisfies [Q]. *)
Definition post {A} (I : World -> Prop) (Q : A -> Prop) (m : M A) : Prop :=
  forall w, I w -> I (snd (m w)) /\ forall a, fst (m w) = Ok a -> Q a.

(** The images that [process_region] resolves, as Earth Engine expressions. *)
Definition base_collection (collection band : string) (year : option Z)
    : ImageCollection :=
  let ic := ic_select (ee_ImageCollection collection) band in
  match year with
  | Some y => ic_filterDate ic (Py.str y +:+ "-01-01") (Py.str y +:+ "-12-31")
  | None => ic
  end.

Definition yearly_composite (collection band crs : string) (scale : Z)
    (year : option Z) : Image :=
  img_reproject (ic_mosaic (base_collection collection band year)) crs scale.

Definition monthly_composite (collection band crs : string) (scale : Z)
    (y : Z) (month : nat) : Image :=
  img_reproject
    (ic_mosaic (ic_filterDate (base_collection collection band (Some y))
                  (month_start y month) (month_end y month)))
    crs scale.

Definition mosaic_composite (collection band crs : string) (scale : Z) (y : Z) : Image :=
  ic_mosaic (ee_ImageCollection_of
               (map (monthly_composite collection band crs scale y) (seq 1 12))).

(** The images a task hands to [process_image], each with its time suffix. *)
Definition planned_images (collection band crs : string) (scale : Z)
    (frequency : string) (year : option Z) : list (Image * string) :=
  if decide (frequency = "yearly") then
    [(yearly_composite collection band crs scale year,
      match year with Some y => Py.str y | None => "" end)]
  else if decide (frequency = "monthly") then
    match year with
    | Some y => map (fun month => (monthly_composite collection band crs scale y month,
                                   month_suffix y month)) (seq 1 12)
    | None => []
    end
  else if decide (frequency = "monthly_mosaic") then
    match year with
    | Some y => [(mosaic_composite collection band crs scale y, mosaic_suffix y)]
    | None => []
    end
  else [].

(** Building Earth Engine objects in the client. *)
Definition resolution_event (ev : event) : Prop :=
  match ev with
  | EvCall (ee_new_collection _) _ | EvCall (ee_collection_of _) _
  | EvCall (ee_select _ _) _ | EvCall (ee_filterDate _ _ _) _
  | EvCall (ee_mosaic _) _ | EvCall (ee_reproject _ _ _) _ => True
  | _ => False
  end.

(** One task: [process_region region_code region_geometry year]. *)
Definition region_event (output_folder collection band crs : string) (scale : Z)
    (frequency : string) (region_code : string) (region_geometry : Geometry)
    (year : option Z) (ev : event) : Prop :=
  resolution_event ev
  \/ (exists a, ev = EvCall (os_makedirs (Py.os_path_join output_folder region_code)) a)
  \/ (exists img time_suffix,
        (img, time_suffix) ∈ planned_images collection band crs scale frequency year
        /\ image_event output_folder collection band region_code region_geometry
             img time_suffix ev)
  \/ (exists f, ev = EvLog WARNING (YearIsRequired f region_code))
  \/ (exists exc, ev = EvLog ERROR (UnexpectedError region_code year exc)).

(** The whole call. *)
Definition run_event (gdf : list (string * Geometry)) (collection band : string)
    (years : option (list Z)) (output_folder : string) (scale : Z) (crs : string)
    (frequency : string) (ev : event) : Prop :=
  (exists a, ev = EvCall (os_makedirs output_folder) a)
  \/ (exists t, t ∈ tasks gdf years
        /\ region_event output_folder collection band crs scale frequency
             (fst (fst t)) (snd (fst t)) (snd t) ev)
  \/ (exists exc, ev = EvLog ERROR (ErrorInThreadExecution exc))
  \/ ev = EvLog INFO ProcessingComplete.

(** Inputs of the examples: a region of two parts and a region of one
    polygon, and a first run of the yearly mode on the two-part region in
    which every call succeeds. *)
Definition two_part_gdf : list (string * Geometry) :=
  [("ES", MultiPolygon [unit_square; unit_square])].

Definition one_polygon_gdf : list (string * Geometry) :=
  [("ES", SinglePolygon unit_square)].

Definition yearly_run (oracle : Oracle) (gdf : list (string * Geometry)) : M unit :=
  download_gee_data_single_collection oracle gdf "MODIS/061/MCD12Q1" "LC_Type1"
    (Some [2021%Z]) "out" 500 "EPSG:4326" 5 "yearly".

Definition after_first_run : World := snd (yearly_run all_fine two_part_gdf empty_world).

(** The file name as the layout of the specification spells it:
    [<collection_leaf>_<band>_<time_suffix>_<region_id>[_part<i>].tif]. *)
Definition layout_name (leaf band time_suffix region_id : string)
    (part : option nat) : string :=
  leaf +:+ "_" +:+ band +:+ "_" +:+ time_suffix +:+ "_" +:+ region_id
    +:+ match part with Some i => "_part" +:+ pretty i | None => "" end
    +:+ ".tif".

(** The pieces of the layout, spelled out character by character and
    without the formatting functions of the code.  [decimal z] is the
    decimal numeral of an integer: its digits, most significant first, after
    a minus sign when it is negative. *)
Definition digit (d : N) : ascii := ascii_of_N (48 + d).

Fixpoint decimal_go (fuel : nat) (n : N) (acc : string) : string :=
  match fuel with
  | 0 => acc
  | S fuel =>
      let acc := String (digit (n mod 10)) acc in
      if (n / 10 =? 0)%N then acc else decimal_go fuel (n / 10) acc
  end.

Definition decimal_N (n : N) : string := decimal_go (S (N.to_nat (N.size n))) n "".

Definition decimal (z : Z) : string :=
  if (z <? 0)%Z then "-" +:+ decimal_N (Z.to_N (- z)) else decimal_N (Z.to_N z).

(** The twelve [MM] of the layout. *)
Definition months_MM : list string :=
  ["01"; "02"; "03"; "04"; "05"; "06"; "07"; "08"; "09"; "10"; "11"; "12"].

(** The time suffixes of the layout: none, [YYYY], [YYYY_MM],
    [YYYY_monthly_mosaic]. *)
Inductive time_suffix_form : string -> Prop :=
  | suffix_none : time_suffix_form ""
  | suffix_year (y : Z) : time_suffix_form (decimal y)
  | suffix_month (y : Z) (mm : string) :
      mm ∈ months_MM -> time_suffix_form (decimal y +:+ "_" +:+ mm)
  | suffix_mosaic (y : Z) : time_suffix_form (decimal y +:+ "_monthly_mosaic").

(** [leaf] is the final ['/']-separated segment of [collection]. *)
Fixpoint has_sep (s : string) : bool :=
  match s with
  | EmptyString => false
  | String c s' => bool_decide (c = "/"%char) || has_sep s'
  end.

Definition last_segment (collection leaf : string) : Prop :=
  has_sep leaf = false
  /\ (collection = leaf \/ exists prefix, collection = prefix +:+ "/" +:+ leaf).

(** A path component that [os.path.join] joins with a plain ['/']: it is
    not empty and does not end with the separator. *)
Definition plain_folder (a : string) : Prop :=
  a <> "" /\ forall s, a <> s +:+ "/".

(** A relative component: it does not start with the separator. *)
Definition relative (b : string) : Prop := forall s, b <> "/" +:+ s.


(** The final artifacts that a call targets: one for every task and every
    image planned for it. *)
Definition target_path (gdf : list (string * Geometry)) (collection band : string)
    (years : option (list Z)) (output_folder : string) (scale : Z) (crs : string)
    (frequency : string) (p : string) : Prop :=
  exists t img time_suffix,
    t ∈ tasks gdf years
    /\ (img, time_suffix) ∈ planned_images collection band crs scale frequency (snd t)
    /\ p = artifact_path output_folder collection band time_suffix (fst (fst t)) None.

(** Every path of [T] is on disk, and no network call was made since [h0]. *)
Definition settled (T : string -> Prop) (h0 : list event) (w : World) : Prop :=
  (forall p, T p -> is_Some (fs w !! p))
  /\ extends (fun ev => is_network_call ev = false) h0 w.

(** * The rest of [download_utilities.py] *)

(** ** [get_filename_from_cd] *)

Module Re.

(** [s.startswith(p)], with what follows [p] in [s]. *)
Fixpoint strip_prefix (p s : string) : option string :=
  match p, s with
  | EmptyString, _ => Some s
  | String a p', String b s' =>
      if bool_decide (a = b) then strip_prefix p' s' else None
  | String _ _, EmptyString => None
  end.

(** Does [p] occur in [s]? *)
Fixpoint occurs (p s : string) : bool :=
  match strip_prefix p s with
  | Some _ => true
  | None =>
      match s with
      | EmptyString => false
      | String _ s' => occurs p s'
      end
  end.

Definition line_feed : ascii := "010"%char.

Fixpoint has_line_feed (s : string) : bool :=
  match s with
  | EmptyString => false
  | String c s' => bool_decide (c = line_feed) || has_line_feed s'
  end.

(** What [.+] takes of [s]: the characters before the first line feed ([.]
    matches every character but the line feed, and [+] is greedy). *)
Fixpoint upto_line_feed (s : string) : string :=
  match s with
  | EmptyString => EmptyString
  | String c s' =>
      if bool_decide (c = line_feed) then EmptyString
      else String c (upto_line_feed s')
  end.

(** [re.findall("filename=(.+)", s)]: the scan tries every position from
    the left; a match is the marker followed by at least one character of
    the line, the group is the rest of the line, and the scan goes on
    behind the match.  [skip] counts the characters of the last match that
    are still ahead. *)
Fixpoint findall_filename (skip : nat) (s : string) : list string :=
  match s with
  | EmptyString => []
  | String _ s' =>
      match skip with
      | S k => findall_filename k s'
      | O =>
          match strip_prefix "filename=" s with
          | Some rest =>
              let name := upto_line_feed rest in
              if bool_decide (name = "") then findall_filename 0 s'
              else name :: findall_filename (8 + String.length name) s'
          | None => findall_filename 0 s'
          end
      end
  end.

End Re.

Definition get_filename_from_cd (content_disp : string) : option string :=
  if bool_decide (content_disp = "") then None
  else
    match Re.findall_filename 0 content_disp with
    | [] => None
    | filename :: _ => Some filename
    end.

(** ** [download_file], with or without a [filename] *)

Section DownloadFile.
Variable oracle : Oracle.

(** Lines 27-44, from [requests.get] on.  What the call to [requests.get]
    returns stands for the response; its payload is read as
    [r.headers.get("content-disposition", "")]. *)
Definition fetch (url directory : string) (filename : option string) : M string :=
  content_disp <- ext oracle (requests_get url) ;;
  filename <-
    match filename with
    | Some f => ret f
    | None =>
        let inferred := get_filename_from_cd content_disp in
        if Py.truthy inferred then ret (default "" inferred)
        else raise (ValueError
               "filename not provided and cannot infer from content-disposition")
    end ;;
  let filepath := Py.os_path_join directory filename in
  e <- os_path_exists filepath ;;
  if e : bool then emit (EvPrint filepath) ;; ret filename
  else
    ext oracle (raise_for_status url) ;;
    create_file oracle (open_wb filepath) filepath ;;
    ext oracle (iter_content_write filepath) ;;
    set_node filepath (File true) ;;
    ret filename.

Definition download_file_any (url directory : string) (filename : option string)
    : M string :=
  match filename with
  | Some f =>
      let filepath := Py.os_path_join directory f in
      e <- os_path_exists filepath ;;
      if e : bool then emit (EvPrint filepath) ;; ret f
      else fetch url directory filename
  | None => fetch url directory filename
  end.

End DownloadFile.

(** A server whose responses carry the header [content_disp]. *)
Definition serves_header (content_disp : string) : Oracle :=
  fun _ o =>
    match o with
    | requests_get _ => Returns content_disp
    | _ => Returns "ok"
    end.

(** * The modules beside the pipeline *)

(** The other functions call services that the pipeline does not use
    ([aiohttp], [zipfile], [ee.Image], [cdsapi]), print messages of their own
    and raise exceptions of their own.  They run in a second monad of the
    same shape, over the calls, values, messages and exceptions of the
    function at hand; code of the first part runs inside it with [lift]. *)
Module Eff.
Section Eff.
Context {call value note error : Type}.

Inductive reply :=
  | Returned (v : value)
  | Failed (e : error).

Inductive occurrence :=
  | Inner (ev : event)
  | Call (c : call) (r : reply)
  | Sleep (seconds : Q)
  | Note (n : note).

Record state := {
  files : gmap string node;
  trace : list occurrence
}.

(** The outside world answers the calls of the function and the calls of
    the code of the first part, both from everything that happened so far. *)
Record outside := {
  replies : list occurrence -> call -> reply;
  inner_replies : list occurrence -> op -> answer
}.

Inductive outcome (A : Type) :=
  | Done (a : A)
  | Thrown (e : error).
#[global] Arguments Done {A} a.
#[global] Arguments Thrown {A} e.

Definition E (A : Type) : Type := state -> outcome A * state.

Definition ret {A} (a : A) : E A := fun s => (Done a, s).

Definition throw {A} (e : error) : E A := fun s => (Thrown e, s).

Definition bind {A B} (m : E A) (k : A -> E B) : E B :=
  fun s =>
    match m s with
    | (Done a, s') => k a s'
    | (Thrown e, s') => (Thrown e, s')
    end.

(** [try: m  except Exception as exc: h exc] *)
Definition try_except {A} (m : E A) (h : error -> E A) : E A :=
  fun s =>
    match m s with
    | (Done a, s') => (Done a, s')
    | (Thrown e, s') => h e s'
    end.

(** [with ... : m], the exit [fin] of the context manager runs in all cases. *)
Definition try_finally {A} (m : E A) (fin : E unit) : E A :=
  fun s =>
    match m s with
    | (r, s') =>
        match fin s' with
        | (Done _, s'') => (r, s'')
        | (Thrown e, s'') => (Thrown e, s'')
        end
    end.

Definition occur (o : occurrence) : E unit :=
  fun s => (Done tt, {| files := files s; trace := trace s ++ [o] |}).

Definition note_ (n : note) : E unit := occur (Note n).

Definition sleep (seconds : Q) : E unit := occur (Sleep seconds).

Variable out : outside.

Definition call_ (c : call) : E value :=
  fun s =>
    let r := replies out (trace s) c in
    let s' := {| files := files s; trace := trace s ++ [Call c r] |} in
    match r with
    | Returned v => (Done v, s')
    | Failed e => (Thrown e, s')
    end.

(** Code of the first part, run on the file system of the state; its events
    go to the trace, and its calls are answered from the whole trace. *)
Definition lift {A} (inject : exn -> error) (m : Oracle -> M A) : E A :=
  fun s =>
    let oracle : Oracle :=
      fun h o => inner_replies out (trace s ++ map Inner h) o in
    match m oracle {| fs := files s; history := [] |} with
    | (r, w) =>
        (match r with Ok a => Done a | Raise e => Thrown (inject e) end,
         {| files := fs w; trace := trace s ++ map Inner (history w) |})
    end.

(** [for x in xs: body x] where the body may [return v] from the enclosing
    function ([Some v]); [None] when the loop runs to its end. *)
Fixpoint for_return {A R} (xs : list A) (body : A -> E (option R)) : E (option R) :=
  match xs with
  | [] => ret None
  | x :: xs' =>
      bind (body x) (fun r =>
        match r with
        | Some v => ret (Some v)
        | None => for_return xs' body
        end)
  end.

Fixpoint for_each {A} (xs : list A) (body : A -> E unit) : E unit :=
  match xs with
  | [] => ret tt
  | x :: xs' => bind (body x) (fun _ => for_each xs' body)
  end.

(** *** What a computation does to the state *)

(** What a stretch [tr] of the trace and the files [fs'] after it are with
    respect to the state [s] before: at most [n] occurrences of [tr] are
    [counted], every node of [s] is still there, and the new paths are
    [allowed]. *)
Definition grows (counted : occurrence -> bool) (allowed : string -> Prop)
    (n : nat) (s : state) (tr : list occurrence) (fs' : gmap string node) : Prop :=
  length (filter counted tr) <= n
  /\ files s ⊆ fs'
  /\ forall p, files s !! p = None -> is_Some (fs' !! p) -> allowed p.

(** [m] only adds to the trace, and the state grows as above. *)
Definition bounded {A} (counted : occurrence -> bool) (allowed : string -> Prop)
    (n : nat) (m : E A) : Prop :=
  forall s, exists tr fs' r,
    m s = (r, {| files := fs'; trace := trace s ++ tr |})
    /\ grows counted allowed n s tr fs'.

(** [m] does not raise. *)
Definition safe {A} (m : E A) : Prop :=
  forall s, exists a s', m s = (Done a, s').

(** [m] only adds to the trace, and what it adds satisfies [P]. *)
Definition emits {A} (P : occurrence -> Prop) (m : E A) : Prop :=
  forall s, exists tr s' r,
    m s = (r, s') /\ trace s' = trace s ++ tr /\ Forall P tr.

(** [m] only adds to the trace, and [R] relates how [m] ends to what it
    adds. *)
Definition yields {A} (R : outcome A -> list occurrence -> Prop) (m : E A) : Prop :=
  forall s, exists tr s' r,
    m s = (r, s') /\ trace s' = trace s ++ tr /\ R r tr.

End Eff.

#[global] Arguments reply : clear implicits.
#[global] Arguments occurrence : clear implicits.
#[global] Arguments state : clear implicits.
#[global] Arguments outside : clear implicits.
#[global] Arguments outcome : clear implicits.
#[global] Arguments E : clear implicits.

End Eff.

Declare Scope eff_scope.
Delimit Scope eff_scope with eff.
Notation "x <- m ;; k" := (Eff.bind m (fun x => k))
  (at level 100, m at next level, right associativity) : eff_scope.
Notation "m ;; k" := (Eff.bind m (fun _ => k))
  (at level 100, right associativity) : eff_scope.

(** ** [download_file_async] *)

Module Async.
Local Open Scope eff_scope.
Import Eff.

(** The calls of [aiohttp].  [session_head] and [session_get] stand for
    entering [async with session.head(url)] and [async with
    session.get(url)]; what [session_head] returns is read as
    [head_response.headers.get("content-disposition", "")].
    [content_read_write] is the loop that reads the chunks of the response
    and writes them to the open file. *)
Inductive call :=
  | ClientSession_new
  | ClientSession_exit (session : string)
  | session_head (session url : string)
  | head_raise_for_status (url : string)
  | session_get (session url : string)
  | response_raise_for_status (url : string)
  | content_read_write (filepath : string).

Definition occurrence := Eff.occurrence call string Empty_set exn.
Definition state := Eff.state call string Empty_set exn.
Definition outside := Eff.outside call string Empty_set exn.
Definition E := Eff.E call string Empty_set exn.

(** [range(1, max_attempts + 1)] *)
Definition attempts (max_attempts : Z) : list nat := seq 1 (Z.to_nat max_attempts).

Section Async.
Variable out : outside.

(** Lines 140-146: [filename is None]. *)
Definition head_filename (session url : string) : E string :=
  content_disp <- call_ out (session_head session url) ;;
  call_ out (head_raise_for_status url) ;;
  let filename := get_filename_from_cd content_disp in
  if Py.truthy filename then ret (default "" filename)
  else throw (ValueError
         "filename not provided and cannot infer from content-disposition").

(** Lines 153-161: the body of the [try] of one attempt. *)
Definition get_and_write (session url filepath filename : string) : E (option string) :=
  call_ out (session_get session url) ;;
  call_ out (response_raise_for_status url) ;;
  lift out id (fun oracle => create_file oracle (open_wb filepath) filepath) ;;
  call_ out (content_read_write filepath) ;;
  lift out id (fun _ => set_node filepath (File true)) ;;
  ret (Some filename).

(** Lines 152-164: the loop over the attempts. *)
Definition retry (session url filepath filename : string) (attempts : list nat)
    : E (option string) :=
  for_return attempts (fun attempt =>
    try_except (get_and_write session url filepath filename)
      (fun exc =>
         let wait_time := backoff attempt in
         sleep wait_time ;; ret None)).

(** Lines 140-165: the function called with a session. *)
Definition download_in_session (url directory : string) (filename : option string)
    (session : string) (max_attempts : Z) : E (option string) :=
  filename <- match filename with
              | Some f => ret f
              | None => head_filename session url
              end ;;
  let filepath := Py.os_path_join directory filename in
  e <- lift out id (fun _ => os_path_exists filepath) ;;
  if e : bool then ret (Some filename)
  else retry session url filepath filename (attempts max_attempts).

(** With [session=None] the function opens a session and calls itself with
    it; the session is left when that call is over. *)
Definition download_file_async (url directory : string) (filename : option string)
    (session : option string) (max_attempts : Z) : E (option string) :=
  match session with
  | None =>
      new_session <- call_ out ClientSession_new ;;
      try_finally
        (download_in_session url directory filename new_session max_attempts)
        (call_ out (ClientSession_exit new_session) ;; ret tt)
  | Some session => download_in_session url directory filename session max_attempts
  end.

End Async.

(** What a trace shows. *)
Definition is_get (o : occurrence) : bool :=
  match o with
  | Call (session_get _ _) _ => true
  | _ => false
  end.

Definition slept (o : occurrence) : option Q :=
  match o with
  | Sleep seconds => Some seconds
  | _ => None
  end.

Definition requests_sent (t : list occurrence) : nat := length (filter is_get t).
Definition waits (t : list occurrence) : list Q := omap slept t.

(** Outside worlds: one where every call returns, one where the server
    refuses every [GET], one where the first [k] [GET]s fail. *)
Definition fine : outside :=
  {| replies := fun _ _ => Returned "attachment; filename=a.tif";
     inner_replies := fun _ _ => Returns "ok" |}.

Definition refusing : outside :=
  {| replies := fun _ c =>
       match c with
       | session_get _ _ => Failed (RequestException "refused")
       | _ => Returned "attachment; filename=a.tif"
       end;
     inner_replies := fun _ _ => Returns "ok" |}.

Definition failing_first (k : nat) : outside :=
  {| replies := fun t c =>
       match c with
       | session_get _ _ =>
           if bool_decide (requests_sent t < k) then Failed (RequestException "reset")
           else Returned "body"
       | _ => Returned "attachment; filename=a.tif"
       end;
     inner_replies := fun _ _ => Returns "ok" |}.

Definition head_fails : outside :=
  {| replies := fun _ c =>
       match c with
       | head_raise_for_status _ => Failed (RequestException "404")
       | _ => Returned "attachment; filename=a.tif"
       end;
     inner_replies := fun _ _ => Returns "ok" |}.

Definition nothing : state := {| files := ∅; trace := [] |}.

End Async.

(** * The rest of [GEE_utilities.py] *)

(** ** [download_gee_data_single_image] *)

Module SingleImage.
Local Open Scope eff_scope.
Import Eff.

(** The image, as the expression that builds it. *)
Inductive image :=
  | ee_Image (image_id : string)
  | select (img : image) (band : string)
  | reproject (img : image) (crs : string) (scale : Z).

Inductive call :=
  | Image_new (image_id : string)
  | Image_select (img : image) (band : string)
  | Image_reproject (img : image) (crs : string) (scale : Z)
  | getDownloadURL (img : image) (params : DownloadParams).

(** The [print] calls of the function. *)
Inductive note :=
  | FileExistsSkipping (filepath : string)
  | ErrorRetrievingImage (image_id region_code : string) (e : exn)
  | ErrorProcessingRegion (region_code : string) (e : exn)
  | Error (e : exn)
  | ProcessingComplete.

Definition occurrence := Eff.occurrence call string note exn.
Definition state := Eff.state call string note exn.
Definition outside := Eff.outside call string note exn.
Definition E := Eff.E call string note exn.

Section SingleImage.
Variable out : outside.

(** A row of [gdf]: [row[column_name]] and [row.geometry], of which the
    function reads the [bounds] only. *)
Variable gdf : list (string * Polygon).
Variables (image_id band output_folder : string) (scale : Z) (crs : string)
  (max_workers : Z).

Definition filename_of (region_code : string) : string :=
  Py.last_item (Py.split "/" image_id) +:+ "_" +:+ band +:+ "_" +:+ region_code
    +:+ ".tif".

(** Line 314: [ee.Image(image_id).select(band).reproject(crs=crs, scale=scale)] *)
Definition retrieve_image : E image :=
  call_ out (Image_new image_id) ;;
  let img := ee_Image image_id in
  call_ out (Image_select img band) ;;
  let img := select img band in
  call_ out (Image_reproject img crs scale) ;;
  ret (reproject img crs scale).

(** Lines 320-340: the body of the second [try]. *)
Definition download_region (image : image) (bounds : Polygon)
    (region_folder filename : string) : E unit :=
  let region_bbox :=
    [ (minx bounds, miny bounds); (maxx bounds, miny bounds);
      (maxx bounds, maxy bounds); (minx bounds, maxy bounds) ] in
  download_url <- call_ out (getDownloadURL image
                    {| p_scale := scale; p_region := region_bbox;
                       p_format := "GeoTIFF"; p_crs := crs |}) ;;
  lift out id (fun oracle => download_file oracle download_url region_folder filename) ;;
  ret tt.

Definition process_region (region_code : string) (region_geometry : Polygon) : E unit :=
  let filename := filename_of region_code in
  let region_folder := Py.os_path_join output_folder region_code in
  lift out id (fun oracle => makedirs oracle region_folder) ;;
  let filepath := Py.os_path_join region_folder filename in
  e <- lift out id (fun _ => os_path_exists filepath) ;;
  if e : bool then note_ (FileExistsSkipping filepath)
  else
    r <- try_except (img <- retrieve_image ;; ret (Some img))
           (fun e => note_ (ErrorRetrievingImage image_id region_code e) ;; ret None) ;;
    match r with
    | None => ret tt
    | Some image =>
        try_except (download_region image region_geometry region_folder filename)
          (fun e => note_ (ErrorProcessingRegion region_code e))
    end.

(** [future.result()] of a task inside the [try] of lines 353-356. *)
Definition run_task (row : string * Polygon) : E unit :=
  try_except (process_region (fst row) (snd row)) (fun e => note_ (Error e)).

(** The tasks run one after the other in the order of the rows, which is
    one of the schedules of the pool.  [ThreadPoolExecutor] refuses
    [max_workers <= 0] with a [ValueError]. *)
Definition download_gee_data_single_image : E unit :=
  lift out id (fun oracle => makedirs oracle output_folder) ;;
  (if decide (max_workers <= 0)%Z
   then throw (ValueError "max_workers must be greater than 0")
   else ret tt) ;;
  for_each gdf run_task ;;
  note_ ProcessingComplete.

End SingleImage.






(** What a trace shows: the calls to Earth Engine and to the network. *)
Definition is_remote (o : occurrence) : bool :=
  match o with
  | Call _ _ => true
  | Inner ev => is_network_call ev
  | _ => false
  end.

Definition remote_calls (t : list occurrence) : list occurrence := filter is_remote t.

Definition is_url_request (o : occurrence) : bool :=
  match o with
  | Call (getDownloadURL _ _) _ => true
  | _ => false
  end.

(** Outside worlds. *)
Definition fine : outside :=
  {| replies := fun _ _ => Returned "https://ee/download";
     inner_replies := fun _ _ => Returns "ok" |}.

Definition no_such_image : outside :=
  {| replies := fun _ c =>
       match c with
       | Image_reproject _ _ _ => Failed (EEException "not found")
       | _ => Returned "https://ee/download"
       end;
     inner_replies := fun _ _ => Returns "ok" |}.

Definition nothing : state := {| files := ∅; trace := [] |}.

Definition two_regions : list (string * Polygon) :=
  [("ES11", unit_square); ("ES12", unit_square)].

End SingleImage.

(** * [download_and_extract_archive] *)

(** ** [os.path] and [str] functions it uses *)

Module Posix.

(** [c in s] *)
Fixpoint has_char (c : ascii) (s : string) : bool :=
  match s with
  | EmptyString => false
  | String c' s' => bool_decide (c' = c) || has_char c s'
  end.

(** [p[:i], p[i:]] with [i = p.rfind("/") + 1]. *)
Fixpoint rsplit_sep (p : string) : string * string :=
  match p with
  | EmptyString => ("", "")
  | String c p' =>
      let '(head, tail) := rsplit_sep p' in
      if bool_decide (head = "") then
        if bool_decide (c = "/"%char) then (String c "", tail)
        else ("", String c tail)
      else (String c head, tail)
  end.

(** [os.path.basename(p)] *)
Definition basename (p : string) : string := (rsplit_sep p).2.

(** [s[:i], s[i:]] with [i = s.rfind(".")], if there is a dot. *)
Fixpoint rsplit_dot (s : string) : option (string * string) :=
  match s with
  | EmptyString => None
  | String c s' =>
      match rsplit_dot s' with
      | Some (a, b) => Some (String c a, b)
      | None =>
          if bool_decide (c = "."%char) then Some ("", String c s') else None
      end
  end.

Fixpoint all_dots (s : string) : bool :=
  match s with
  | EmptyString => true
  | String c s' => bool_decide (c = "."%char) && all_dots s'
  end.

(** [os.path.splitext(p)]: the extension starts at the last dot of the last
    component, unless only dots stand before it in that component. *)
Definition splitext (p : string) : string * string :=
  let '(head, tail) := rsplit_sep p in
  match rsplit_dot tail with
  | Some (a, ext) => if all_dots a then (p, "") else (head +:+ a, ext)
  | None => (p, "")
  end.

(** [s.endswith(suffix)] *)
Fixpoint endswith (s suffix : string) : bool :=
  bool_decide (s = suffix)
  || match s with
     | EmptyString => false
     | String _ s' => endswith s' suffix
     end.

End Posix.

(** ** The function *)

Module Archive.
Local Open Scope eff_scope.
Import Eff.

(** The exceptions of the first part, and the [RuntimeError] that the
    function raises when the archive cannot be removed. *)
Inductive error :=
  | Py (e : exn)
  | RuntimeError (archive_path : string) (e : exn).

(** [ZipFile] opens the archive and reads its directory: it returns
    [zip_ref.namelist()].  [extract] is [zip_ref.extract(file, output_dir)]. *)
Inductive call :=
  | ZipFile (archive_path : string)
  | extract (archive_path file output_dir : string).

(** [files_to_extract]: [None], a string or a list. *)
Inductive selection :=
  | NoFiles
  | OneFile (file : string)
  | Files (files : list string).

Definition occurrence := Eff.occurrence call (list string) Empty_set error.
Definition state := Eff.state call (list string) Empty_set error.
Definition outside := Eff.outside call (list string) Empty_set error.
Definition E := Eff.E call (list string) Empty_set error.

(** The exceptions of the first part that are subclasses of [OSError]. *)
Definition is_OSError (e : exn) : bool :=
  match e with
  | NameError _ | ValueError _ | IndexError | EEException _ => false
  | _ => true
  end.

(** [try: m  except OSError as e: h e] *)
Definition except_OSError {A} (m : E A) (h : exn -> E A) : E A :=
  fun s =>
    match m s with
    | (Thrown (Py e), s') => if is_OSError e then h e s' else (Thrown (Py e), s')
    | other => other
    end.

(** Lines 86-98: the files to extract, given the names in the archive. *)
Definition select_files (available_files : list string) (files_to_extract : selection)
    (extract_by_name extract_by_extension : option string) : list string :=
  let files_to_extract :=
    if Py.truthy extract_by_name then
      Files (filter (fun file =>
                       (Posix.splitext file).1 = default "" extract_by_name)
               available_files)
    else if Py.truthy extract_by_extension then
      Files (filter (fun file : string =>
                       Is_true (Posix.endswith file (default "" extract_by_extension)))
               available_files)
    else files_to_extract in
  match files_to_extract with
  | NoFiles => []
  | OneFile file => [file]
  | Files files => files
  end.

Section Archive.
Variable out : outside.

(** [urllib.parse.urlparse(url).path], and the path at which
    [zip_ref.extract(file, output_dir)] puts the member [file]. *)
Variable urlparse_path : string -> string.
Variable member_path : string -> string -> string.

(** Lines 69-80: the archive to open, downloaded if need be. *)
Definition locate_archive (url output_dir : string) (overwrite : bool) : E string :=
  e <- lift out Py (fun _ => os_path_exists url) ;;
  if e : bool then ret url
  else
    let filename := Posix.basename (urlparse_path url) in
    let archive_path := Py.os_path_join output_dir filename in
    e <- (if negb overwrite then lift out Py (fun _ => os_path_exists archive_path)
          else ret false) ;;
    (if negb overwrite && e then ret tt
     else lift out Py (fun oracle => download_file oracle url output_dir filename) ;;
          ret tt) ;;
    ret archive_path.

(** [zip_ref.extract(file, output_dir)].  A member whose name ends with a
    slash is a directory, made unless something is at its path.  A file
    replaces the file at its path, and cannot be written where a directory
    is. *)
Definition extract_member (archive_path output_dir file : string) : E unit :=
  let path := member_path file output_dir in
  n <- lift out Py (fun _ => get_node path) ;;
  if Posix.endswith file "/" then
    call_ out (extract archive_path file output_dir) ;;
    match n with
    | None => lift out Py (fun _ => set_node path Dir)
    | Some _ => ret tt
    end
  else
    match n with
    | Some Dir => throw (Py (IsADirectoryError path))
    | _ =>
        call_ out (extract archive_path file output_dir) ;;
        lift out Py (fun _ => set_node path (File true))
    end.

Definition download_and_extract_archive (url output_dir : string)
    (files_to_extract : selection) (extract_by_name extract_by_extension : option string)
    (overwrite : bool) : E unit :=
  lift out Py (fun oracle => makedirs oracle output_dir) ;;
  archive_path <- locate_archive url output_dir overwrite ;;
  available_files <- call_ out (ZipFile archive_path) ;;
  (let files_to_extract :=
     select_files available_files files_to_extract extract_by_name
       extract_by_extension in
   if bool_decide (files_to_extract = []) then
     throw (Py (ValueError
       "No se encontraron archivos que coincidan con el criterio de extracción."))
   else for_each files_to_extract (extract_member archive_path output_dir)) ;;
  except_OSError (lift out Py (fun oracle => remove oracle archive_path))
    (fun e => throw (RuntimeError archive_path e)).

End Archive.

(** A request of [download_file] in the trace. *)
Definition is_transfer (o : occurrence) : bool :=
  match o with
  | Inner ev => is_network_call ev
  | _ => false
  end.

(** An outside world: the archive holds [names]. *)
Definition holding (names : list string) : outside :=
  {| replies := fun _ _ => Returned names;
     inner_replies := fun _ _ => Returns "ok" |}.

Definition nothing : state := {| files := ∅; trace := [] |}.

Definition url_path (url : string) : string := "/files/data.zip".

Definition under (file output_dir : string) : string := Py.os_path_join output_dir file.

(** A state in which the archive is in the output folder. *)
Definition with_archive : state :=
  {| files := {[ "out" := Dir; "out/data.zip" := File true ]}; trace := [] |}.

End Archive.

(** * [merge_tifs_in_directory] *)

Module MergeTifs.
Local Open Scope eff_scope.
Import Eff.

Inductive call :=
  | glob_glob (pathname : string).

Inductive note :=
  | SearchingForTifs (input_dir : string).

Definition occurrence := Eff.occurrence call (list string) note exn.
Definition state := Eff.state call (list string) note exn.
Definition outside := Eff.outside call (list string) note exn.
Definition E := Eff.E call (list string) note exn.

(** The parameters of the function and the names it assigns. *)
Definition function_locals : list string :=
  [ "input_dir"; "output_filepath"; "filter_gdf"; "filter_crs"; "target_epsg";
    "delete_after_merge"; "nodata"; "tif_files"; "filtered_files"; "tif_file";
    "src"; "bounds"; "bounds_gdf"; "e"; "datasets"; "merged_data";
    "merged_transform"; "dataset"; "out_meta"; "dst_transform"; "dst_width";
    "dst_height"; "reprojected_data"; "dest" ].

(** Evaluating a name in the body of the function. *)
Definition bound (name : string) : bool :=
  bool_decide (name ∈ function_locals ++ module_globals).

Section MergeTifs.
Variable out : outside.

(** What the function does from line 390 on with the files found. *)
Variable rest : list string -> E unit.

(** Lines 387-388, followed by the rest. *)
Definition merge_tifs_in_directory (input_dir : string) : E unit :=
  note_ (SearchingForTifs input_dir) ;;
  tif_files <-
    (if bound "glob" then
       call_ out (glob_glob
         (Py.os_path_join (Py.os_path_join input_dir "**") "*.tif"))
     else throw (NameError "glob")) ;;
  rest tif_files.

End MergeTifs.
End MergeTifs.

(** * [GEE_download.py] *)

Module GeeDownload.
Local Open Scope eff_scope.
Import Eff.

(** [image_collection.first()] *)
Inductive image :=
  | first (ic : ImageCollection).

Inductive call :=
  | collection_first (ic : ImageCollection)
  | image_getDownloadURL (img : image) (params : DownloadParams)
  | rasterio_mask (raster_path : string).

(** The records of [logger], but for those of [logger.debug], which are
    below the level [INFO] that line 16 sets. *)
Inductive record :=
  | OutputFolderSet (output_folder : string)
  | FileExistsSkipping (filepath : string)
  | ErrorProcessingPolygon (index : nat) (region_code : string) (e : exn)
  | NoValidRasters
  | MergedRasterSaved (output_path : string)
  | ErrorMergingRasters (e : exn)
  | RasterDoesNotExist (raster_path : string)
  | MaskedRasterSaved (output_path_masked : string)
  | ErrorMaskingRaster (raster_path : string) (e : exn)
  | NoRastersDownloaded (region_code : string)
  | MaskedRasterNotCreated (region_code : string)
  | FailedToDeleteIntermediate (rp : string) (e : exn)
  | FailedToDeleteMerged (merged_raster_path : string) (e : exn)
  | CompletedProcessing (region_code : string)
  | ErrorInTask (e : exn)
  | DownloadCompleted.

Definition note : Type := level * record.

Definition occurrence := Eff.occurrence call string note exn.
Definition state := Eff.state call string note exn.
Definition outside := Eff.outside call string note exn.
Definition E := Eff.E call string note exn.

Definition logger_info (r : record) : E unit := note_ (INFO, r).
Definition logger_warning (r : record) : E unit := note_ (WARNING, r).
Definition logger_error (r : record) : E unit := note_ (ERROR, r).

(** The subclasses of [OSError] among the exceptions. *)
Definition is_OSError (e : exn) : bool :=
  match e with
  | NameError _ | ValueError _ | IndexError | EEException _ => false
  | _ => true
  end.

(** [try: m  except OSError as e: h e] *)
Definition except_OSError {A} (m : E A) (h : exn -> E A) : E A :=
  fun s =>
    match m s with
    | (Thrown e, s') => if is_OSError e then h e s' else (Thrown e, s')
    | other => other
    end.

(** Lines 89-94 and 262-267: the part of the file names for the dates. *)
Definition date_str (start_date end_date : option string) : string :=
  if Py.truthy start_date && Py.truthy end_date then
    default "" start_date +:+ "_" +:+ default "" end_date
  else if Py.truthy start_date then default "" start_date +:+ "_NOEND"
  else "NO_DATE".

Section GeeDownload.
Variable out : outside.
Variable gdf : list (string * Geometry).
Variables (collection band output_folder : string).
Variables (start_date end_date : option string) (scale : Z) (max_workers : Z).

(** [gdf.crs.to_string()] *)
Variable gdf_crs : string.

Definition polygon_filename (region_code : string) (index : nat) : string :=
  Py.last_item (Py.split "/" collection) +:+ "_" +:+ band +:+ "_"
    +:+ date_str start_date end_date +:+ "_" +:+ region_code
    +:+ "_poly" +:+ pretty index +:+ ".tif".

(** Lines 106-137: the body of the [try] of [process_polygon].  An
    [ee.Image] is never [None], so lines 117-119 are left out. *)
Definition download_polygon (polygon : Polygon) (region_folder filename filepath : string)
    : E (option string) :=
  ic <- lift out id (fun oracle => ImageCollection_new oracle collection) ;;
  image_collection <- lift out id (fun oracle => select oracle ic band) ;;
  image_collection <-
    (if Py.truthy start_date && Py.truthy end_date then
       lift out id (fun oracle =>
         filterDate oracle image_collection (default "" start_date)
           (default "" end_date))
     else if Py.truthy start_date then
       lift out id (fun oracle =>
         filterDate oracle image_collection (default "" start_date) "2099-12-31")
     else ret image_collection) ;;
  call_ out (collection_first image_collection) ;;
  let image := first image_collection in
  let region_bbox := get_bbox_from_polygon polygon in
  download_url <- call_ out (image_getDownloadURL image
                    {| p_scale := scale; p_region := region_bbox;
                       p_format := "GeoTIFF"; p_crs := gdf_crs |}) ;;
  lift out id (fun oracle => download_file oracle download_url region_folder filename) ;;
  ret (Some filepath).

Definition process_polygon (region_code : string) (polygon : Polygon) (index : nat)
    : E (option string) :=
  let region_folder := Py.os_path_join output_folder region_code in
  lift out id (fun oracle => makedirs oracle region_folder) ;;
  let filename := polygon_filename region_code index in
  let filepath := Py.os_path_join region_folder filename in
  e <- lift out id (fun _ => os_path_exists filepath) ;;
  if e : bool then logger_info (FileExistsSkipping filepath) ;; ret (Some filepath)
  else
    try_except (download_polygon polygon region_folder filename filepath)
      (fun e => logger_error (ErrorProcessingPolygon index region_code e) ;; ret None).

(** [[rasterio.open(rp) for rp in valid_rasters]] *)
Fixpoint open_all (valid_rasters : list string) : E (list string) :=
  match valid_rasters with
  | [] => ret []
  | rp :: rest =>
      lift out id (fun oracle => ext oracle (rasterio_open rp)) ;;
      opened <- open_all rest ;;
      ret (rp :: opened)
  end.

(** [[rp for rp in raster_paths if rp and os.path.exists(rp)]] *)
Definition existing_rasters (raster_paths : list string) : E (list string) :=
  fun s =>
    (Done (filter (fun rp => rp <> "" /\ is_Some (files s !! rp)) raster_paths), s).

Definition merge_rasters (raster_paths : list string) (output_path : string)
    : E (option string) :=
  valid_rasters <- existing_rasters raster_paths ;;
  if bool_decide (valid_rasters = []) then logger_warning NoValidRasters ;; ret None
  else
    try_except
      (src_files_to_mosaic <- open_all valid_rasters ;;
       lift out id (fun oracle => ext oracle (rasterio_merge src_files_to_mosaic)) ;;
       lift out id (fun oracle => write_mosaic oracle output_path) ;;
       for_each src_files_to_mosaic
         (fun src => lift out id (fun _ => emit (EvClose src))) ;;
       logger_info (MergedRasterSaved output_path) ;;
       ret (Some output_path))
      (fun e => logger_error (ErrorMergingRasters e) ;; ret None).

Definition mask_raster_with_shapefile (raster_path : string) (shape_geometry : Geometry)
    (output_path_masked : string) : E (option string) :=
  e <- lift out id (fun _ => os_path_exists raster_path) ;;
  if negb e then logger_error (RasterDoesNotExist raster_path) ;; ret None
  else
    try_except
      (lift out id (fun oracle => ext oracle (rasterio_open raster_path)) ;;
       try_finally (call_ out (rasterio_mask raster_path) ;; ret tt)
         (lift out id (fun _ => emit (EvClose raster_path))) ;;
       lift out id (fun oracle => write_mosaic oracle output_path_masked) ;;
       logger_info (MaskedRasterSaved output_path_masked) ;;
       ret (Some output_path_masked))
      (fun e => logger_error (ErrorMaskingRaster raster_path e) ;; ret None).

(** The loop of lines 249-253 over [enumerate(exploded_polygons)]. *)
Fixpoint download_polygons (region_code : string) (polygons : list (nat * Polygon))
    (downloaded_rasters : list string) : E (list string) :=
  match polygons with
  | [] => ret downloaded_rasters
  | (i, poly) :: rest =>
      raster_path <- process_polygon region_code poly i ;;
      download_polygons region_code rest
        (if Py.truthy raster_path
         then downloaded_rasters ++ [default "" raster_path]
         else downloaded_rasters)
  end.

(** Lines 283-296: the intermediate files are deleted. *)
Definition delete_intermediate (downloaded_rasters : list string)
    (merged_raster_path : string) : E unit :=
  for_each downloaded_rasters (fun rp =>
    except_OSError (lift out id (fun oracle => remove oracle rp))
      (fun e => logger_error (FailedToDeleteIntermediate rp e))) ;;
  except_OSError (lift out id (fun oracle => remove oracle merged_raster_path))
    (fun e => logger_error (FailedToDeleteMerged merged_raster_path e)).

Definition process_region (region_code : string) (region_geometry : Geometry) : E unit :=
  let exploded_polygons :=
    match region_geometry with
    | MultiPolygon geoms => geoms
    | SinglePolygon poly => [poly]
    end in
  downloaded_rasters <-
    download_polygons region_code (imap (fun i poly => (i, poly)) exploded_polygons) [] ;;
  if bool_decide (downloaded_rasters = []) then
    logger_warning (NoRastersDownloaded region_code)
  else
    let stem := Py.last_item (Py.split "/" collection) +:+ "_" +:+ band +:+ "_"
                  +:+ date_str start_date end_date +:+ "_" +:+ region_code in
    let merged_filename := stem +:+ "_merged.tif" in
    let merged_raster_path :=
      Py.os_path_join (Py.os_path_join output_folder region_code) merged_filename in
    merged_raster_path <- merge_rasters downloaded_rasters merged_raster_path ;;
    if negb (Py.truthy merged_raster_path) then ret tt
    else
      let merged_raster_path := default "" merged_raster_path in
      let masked_filename := stem +:+ "_masked.tif" in
      let masked_raster_path :=
        Py.os_path_join (Py.os_path_join output_folder region_code) masked_filename in
      final_mask <- mask_raster_with_shapefile merged_raster_path region_geometry
                      masked_raster_path ;;
      if negb (Py.truthy final_mask) then
        logger_warning (MaskedRasterNotCreated region_code)
      else
        delete_intermediate downloaded_rasters merged_raster_path ;;
        logger_info (CompletedProcessing region_code).

(** [future.result()] of a task inside the [try] of lines 308-311. *)
Definition run_task (row : string * Geometry) : E unit :=
  try_except (process_region (fst row) (snd row))
    (fun e => logger_error (ErrorInTask e)).

(** The tasks run one after the other in the order of the rows, which is
    one of the schedules of the pool.  [ThreadPoolExecutor] refuses
    [max_workers <= 0] with a [ValueError]. *)
Definition download_gee_data_by_gdf : E unit :=
  lift out id (fun oracle => makedirs oracle output_folder) ;;
  logger_info (OutputFolderSet output_folder) ;;
  (if decide (max_workers <= 0)%Z
   then throw (ValueError "max_workers must be greater than 0")
   else ret tt) ;;
  for_each gdf run_task ;;
  logger_info DownloadCompleted.

End GeeDownload.

(** What a trace shows. *)
Definition is_removal (o : occurrence) : bool :=
  match o with
  | Inner (EvCall (os_remove _) _) => true
  | _ => false
  end.

Definition closed_dataset (o : occurrence) : option string :=
  match o with
  | Inner (EvClose name) => Some name
  | _ => None
  end.

Definition is_masked_saved (o : occurrence) : bool :=
  match o with
  | Note (_, MaskedRasterSaved _) => true
  | _ => false
  end.

(** Outside worlds. *)
Definition fine : outside :=
  {| replies := fun _ _ => Returned "https://ee/download";
     inner_replies := fun _ _ => Returns "ok" |}.

Definition merge_fails : outside :=
  {| replies := fun _ _ => Returned "https://ee/download";
     inner_replies := fun _ o =>
       match o with
       | rasterio_merge _ => Raises (RasterioIOError "merge")
       | _ => Returns "ok"
       end |}.

Definition nothing : state := {| files := ∅; trace := [] |}.

End GeeDownload.

(** * [copernicus_data_store_utilities.py] *)

(** ** [download_cds_dataset] *)

Module Cds.
Local Open Scope eff_scope.
Import Eff.

(** The calls of [download_and_extract_archive], which the function calls,
    and the two steps of [client.retrieve(dataset, request).download(target)]. *)
Inductive call :=
  | archive (c : Archive.call)
  | retrieve (dataset : string)
  | download (target : string).

Inductive record :=
  | ArchivoYaExiste (archive_path : string)
  | Descargando (archive_name : string) (attempt : nat)
  | DescargaCompletada (archive_path : string)
  | ErrorEnDescarga (archive_name : string) (e : Archive.error)
  | Reintentando (retry_delay : Z)
  | FalloEnDescarga (archive_name : string) (max_retries : Z)
  | ErrorAlDescargarOProcesar (archive_name : string) (e : Archive.error).

Definition note : Type := level * record.

Definition occurrence := Eff.occurrence call (list string) note Archive.error.
Definition state := Eff.state call (list string) note Archive.error.
Definition outside := Eff.outside call (list string) note Archive.error.
Definition E := Eff.E call (list string) note Archive.error.

Definition logger_info (r : record) : E unit := note_ (INFO, r).
Definition logger_warning (r : record) : E unit := note_ (WARNING, r).
Definition logger_error (r : record) : E unit := note_ (ERROR, r).

(** What [download_and_extract_archive] does, seen from this function. *)
Definition up (o : Archive.occurrence) : occurrence :=
  match o with
  | Inner ev => Inner ev
  | Call c r => Call (archive c) r
  | Sleep seconds => Sleep seconds
  | Note n => match n with end
  end.

Section Cds.
Variable out : outside.

(** [download_and_extract_archive] runs on the file system of the state;
    its calls are answered from the whole trace. *)
Definition embed {A} (m : Archive.outside -> Archive.E A) : E A :=
  fun s =>
    let inner : Archive.outside :=
      {| replies := fun t c => replies out (trace s ++ map up t) (archive c);
         inner_replies := fun t o => inner_replies out (trace s ++ map up t) o |} in
    match m inner {| files := files s; trace := [] |} with
    | (r, s') => (r, {| files := files s'; trace := trace s ++ map up (trace s') |})
    end.

(** [urllib.parse.urlparse(url).path] and the path of an extracted member,
    as in [download_and_extract_archive]; [joinpath] is [str(output_dir /
    name)] of [pathlib]. *)
Variable urlparse_path : string -> string.
Variable member_path : string -> string -> string.
Variable joinpath : string -> string -> string.

(** [time.sleep(secs)] refuses a negative length. *)
Definition time_sleep (secs : Z) : E unit :=
  if decide (secs < 0)%Z
  then throw (Archive.Py (ValueError "sleep length must be non-negative"))
  else sleep (inject_Z secs).

(** Line 71.  The archive is on disk when [download] returns. *)
Definition retrieve_and_download (dataset archive_path : string) : E unit :=
  call_ out (retrieve dataset) ;;
  n <- lift out Archive.Py (fun _ => get_node archive_path) ;;
  match n with
  | Some Dir => throw (Archive.Py (IsADirectoryError archive_path))
  | _ =>
      call_ out (download archive_path) ;;
      lift out Archive.Py (fun _ => set_node archive_path (File true))
  end.

(** Lines 68-81: one turn of the loop; [Some tt] stands for [break]. *)
Definition attempt_download (dataset archive_name archive_path : string)
    (max_retries retry_delay : Z) (attempt : nat) : E (option unit) :=
  try_except
    (logger_info (Descargando archive_name attempt) ;;
     retrieve_and_download dataset archive_path ;;
     logger_info (DescargaCompletada archive_path) ;;
     ret (Some tt))
    (fun e =>
       logger_warning (ErrorEnDescarga archive_name e) ;;
       if decide (Z.of_nat attempt < max_retries)%Z then
         logger_info (Reintentando retry_delay) ;;
         time_sleep retry_delay ;;
         ret None
       else
         logger_error (FalloEnDescarga archive_name max_retries) ;;
         throw e).

(** Lines 61-93, once [archive_name] is bound. *)
Definition download_and_extract (dataset archive_name output_dir : string)
    (files_to_extract : Archive.selection)
    (extract_by_name extract_by_extension : option string) (overwrite : bool)
    (max_retries retry_delay : Z) : E unit :=
  let archive_path := joinpath output_dir (archive_name +:+ ".zip") in
  e <- (if negb overwrite
        then lift out Archive.Py (fun _ => os_path_exists archive_path)
        else ret false) ;;
  (if negb overwrite && e then logger_info (ArchivoYaExiste archive_path)
   else
     for_return (seq 1 (Z.to_nat max_retries))
       (attempt_download dataset archive_name archive_path max_retries retry_delay) ;;
     ret tt) ;;
  if Py.truthy extract_by_extension then
    embed (fun inner =>
      Archive.download_and_extract_archive inner urlparse_path member_path
        archive_path output_dir files_to_extract extract_by_name
        extract_by_extension overwrite)
  else ret tt.

(** [named] is the f-string of lines 57-59 evaluated: the name, or the
    exception that the evaluation raises, as [KeyError] does for a
    [request] without one of the four keys.  In that case [archive_name]
    is not bound when the handler of line 95 formats its message. *)
Definition download_cds_dataset (dataset : string) (named : result string)
    (output_dir : string) (files_to_extract : Archive.selection)
    (extract_by_name extract_by_extension : option string) (overwrite : bool)
    (max_retries retry_delay : Z) : E unit :=
  try_except
    (archive_name <- match named with
                     | Ok name => ret name
                     | Raise e => throw (Archive.Py e)
                     end ;;
     download_and_extract dataset archive_name output_dir files_to_extract
       extract_by_name extract_by_extension overwrite max_retries retry_delay)
    (fun e =>
       match named with
       | Ok archive_name =>
           logger_error (ErrorAlDescargarOProcesar archive_name e) ;;
           throw e
       | Raise _ => throw (Archive.Py (NameError "archive_name"))
       end).

End Cds.

(** What a trace shows. *)
Definition is_retrieve (o : occurrence) : bool :=
  match o with
  | Call (retrieve _) _ => true
  | _ => false
  end.

Definition slept (o : occurrence) : option Q :=
  match o with
  | Sleep seconds => Some seconds
  | _ => None
  end.

(** What a failed attempt adds to the trace when [retrieve] raises [e]: no
    wait follows the last attempt. *)
Definition failed_attempt (dataset archive_name : string) (max_retries retry_delay : Z)
    (e : Archive.error) (attempt : nat) : list occurrence :=
  [ Note (INFO, Descargando archive_name attempt);
    Call (retrieve dataset) (Failed e);
    Note (WARNING, ErrorEnDescarga archive_name e) ]
  ++ (if decide (Z.of_nat attempt < max_retries)%Z
      then [ Note (INFO, Reintentando retry_delay); Sleep (inject_Z retry_delay) ]
      else [ Note (ERROR, FalloEnDescarga archive_name max_retries) ]).

(** Outside worlds. *)
Definition fine : outside :=
  {| replies := fun _ _ => Returned ["data.nc"];
     inner_replies := fun _ _ => Returns "ok" |}.

Definition unreachable : outside :=
  {| replies := fun _ c =>
       match c with
       | retrieve _ => Failed (Archive.Py (RequestException "timeout"))
       | _ => Returned ["data.nc"]
       end;
     inner_replies := fun _ _ => Returns "ok" |}.

Definition nothing : state := {| files := ∅; trace := [] |}.

End Cds.
(** * Lemmas *)

(** ** The definitions on small inputs *)

Example final_filename_ex :
  final_filename "MODIS/061/MCD12Q1" "LC_Type1" "2021" "ES"
  = "MCD12Q1_LC_Type1_2021_ES.tif".
Proof. reflexivity. Qed.

Example part_filename_ex :
  part_filename "MODIS/061/MCD12Q1" "LC_Type1" "2021_03" "ES" 1
  = "MCD12Q1_LC_Type1_2021_03_ES_part1.tif".
Proof. reflexivity. Qed.

Example final_filename_no_year_ex :
  final_filename "USGS/SRTMGL1_003" "elevation" "" "PT" = "SRTMGL1_003_elevation__PT.tif".
Proof. reflexivity. Qed.

Example os_path_join_ex :
  Py.os_path_join (Py.os_path_join "out" "ES") "a.tif" = "out/ES/a.tif"
  /\ Py.os_path_join "out/" "ES" = "out/ES"
  /\ Py.os_path_join "out" "/abs" = "/abs"
  /\ Py.os_path_join "" "ES" = "ES".
Proof. repeat split; reflexivity. Qed.

Example split_ex :
  Py.split "/" "MODIS/061/MCD12Q1" = ["MODIS"; "061"; "MCD12Q1"]
  /\ Py.split "/" "a/" = ["a"; ""] /\ Py.split "/" "" = [""].
Proof. repeat split; reflexivity. Qed.

Example month_end_ex :
  month_end 2021 2 = "2021-02-28" /\ month_end 2020 2 = "2020-02-29"
  /\ month_end 1900 2 = "1900-02-28" /\ month_end 2021 12 = "2021-12-31"
  /\ month_start 2021 7 = "2021-07-01" /\ month_suffix 2021 11 = "2021_11".
Proof. repeat split; reflexivity. Qed.

Example backoff_ex : (backoff 1 == 32 # 100)%Q /\ (backoff 3 == 96 # 100)%Q.
Proof. split; reflexivity. Qed.

(** A first run of the yearly mode on the two-part region, every call
    succeeding: the merged file is the only file left. *)
Example first_run_ex :
  map_to_list (fs after_first_run)
  = [("out/ES/MCD12Q1_LC_Type1_2021_ES.tif", File true); ("out/ES", Dir); ("out", Dir)]
  /\ filter is_problem (history after_first_run) = [].
Proof. split; vm_compute; reflexivity. Qed.


(** ** The combinators keep invariants *)

Section Inv.
Context (I : World -> Prop).

Lemma inv_ret {A} (a : A) : inv I (ret a).
Proof. by intros w Hw. Qed.

Lemma inv_raise {A} e : inv I (@raise A e).
Proof. by intros w Hw. Qed.

Lemma inv_bind {A B} (m : M A) (k : A -> M B) :
  inv I m -> (forall a, inv I (k a)) -> inv I (bind m k).
Proof.
  intros Hm Hk w Hw. unfold bind. specialize (Hm w Hw).
  destruct (m w) as [[a|e] w1]; simpl in *; [by apply Hk | done].
Qed.

Lemma inv_try_except {A} (m : M A) h :
  inv I m -> (forall e, inv I (h e)) -> inv I (try_except m h).
Proof.
  intros Hm Hh w Hw. unfold try_except. specialize (Hm w Hw).
  destruct (m w) as [[a|e] w1]; simpl in *; [done | by apply Hh].
Qed.

Lemma inv_try_finally {A} (m : M A) fin :
  inv I m -> inv I fin -> inv I (try_finally m fin).
Proof.
  intros Hm Hf w Hw. unfold try_finally. specialize (Hm w Hw).
  destruct (m w) as [r w1]; simpl in *. specialize (Hf w1 Hm).
  by destruct (fin w1) as [[[]|e] w2].
Qed.

Lemma inv_attempt {A} (m : M A) : inv I m -> inv I (attempt m).
Proof.
  intros Hm w Hw. unfold attempt. specialize (Hm w Hw). by destruct (m w).
Qed.

Lemma inv_for_each {A} (xs : list A) body :
  (forall x, x ∈ xs -> inv I (body x)) -> inv I (for_each xs body).
Proof.
  induction xs as [|x xs IH]; intros Hb; simpl; [apply inv_ret|].
  apply inv_bind; [apply Hb; by left|].
  intros _. apply IH. intros y Hy. apply Hb. by right.
Qed.

Lemma inv_for_return {A R} (xs : list A) (body : A -> M (option R)) :
  (forall x, x ∈ xs -> inv I (body x)) -> inv I (for_return xs body).
Proof.
  induction xs as [|x xs IH]; intros Hb; simpl; [apply inv_ret|].
  apply inv_bind; [apply Hb; by left|].
  intros [v|]; [apply inv_ret|]. apply IH. intros y Hy. apply Hb. by right.
Qed.

Lemma inv_for_collect {A R} (xs : list A) (body : A -> M (option R)) acc :
  (forall x, x ∈ xs -> inv I (body x)) -> inv I (for_collect xs body acc).
Proof.
  revert acc. induction xs as [|x xs IH]; intros acc Hb; simpl; [apply inv_ret|].
  apply inv_bind; [apply Hb; by left|].
  intros r. apply IH. intros y Hy. apply Hb. by right.
Qed.

Lemma inv_get_node p : inv I (get_node p).
Proof. by intros w Hw. Qed.

End Inv.

(** ** Histories only grow *)

Section Extends.
Context (P : event -> Prop) (h0 : list event).

Lemma extends_emit ev : P ev -> inv (extends P h0) (emit ev).
Proof.
  intros Hev w (evs & Hh & HP). exists (evs ++ [ev]). simpl. split.
  - by rewrite Hh, app_assoc.
  - apply Forall_app. split; [done|]. by constructor.
Qed.

Lemma extends_set_node p n : inv (extends P h0) (set_node p n).
Proof. by intros w Hw. Qed.

Lemma extends_del_node p : inv (extends P h0) (del_node p).
Proof. by intros w Hw. Qed.

Lemma extends_ext oracle o :
  (forall a, P (EvCall o a)) -> inv (extends P h0) (ext oracle o).
Proof.
  intros Ho w (evs & Hh & HP). unfold ext.
  assert (extends P h0
    {| fs := fs w; history := history w ++ [EvCall o (oracle (history w) o)] |}).
  { exists (evs ++ [EvCall o (oracle (history w) o)]). simpl. split.
    - by rewrite Hh, app_assoc.
    - apply Forall_app. split; [done|]. by constructor. }
  by destruct (oracle (history w) o).
Qed.

End Extends.

Lemma extends_refl P w : extends P (history w) w.
Proof. exists []. by rewrite app_nil_r. Qed.

Lemma extends_added P w w' :
  extends P (history w) w' -> history w' = history w ++ added w w' /\ Forall P (added w w').
Proof.
  intros (evs & Hh & HP). unfold added. rewrite Hh, drop_app_length. done.
Qed.

(** ** Values returned under an invariant *)

Lemma post_ret {A} I (Q : A -> Prop) a : Q a -> post I Q (ret a).
Proof. intros Ha w Hw. split; [done|]. by intros ? [= <-]. Qed.

Lemma post_bind {A B} I (Q : A -> Prop) (R : B -> Prop) (m : M A) (k : A -> M B) :
  post I Q m -> (forall a, Q a -> post I R (k a)) -> post I R (bind m k).
Proof.
  intros Hm Hk w Hw. unfold bind. destruct (Hm w Hw) as [Hi Hq].
  destruct (m w) as [[a|e] w1]; simpl in *; [apply Hk; auto | done].
Qed.

Lemma post_bind_inv {A B} I (Q : A -> Prop) (m : M A) (k : A -> M B) :
  post I Q m -> (forall a, Q a -> inv I (k a)) -> inv I (bind m k).
Proof.
  intros Hm Hk w Hw. unfold bind. destruct (Hm w Hw) as [Hi Hq].
  destruct (m w) as [[a|e] w1]; simpl in *; [apply Hk; auto | done].
Qed.

Lemma post_ext_ret {A} I oracle o (v : A) :
  inv I (ext oracle o) -> post I (eq v) (ext oracle o ;; ret v)%py.
Proof.
  intros Ho w Hw. split.
  - revert w Hw. apply inv_bind; [done|]. intros _. apply inv_ret.
  - unfold bind, ext, ret. destruct (oracle (history w) o); simpl; congruence.
Qed.

Lemma post_for_collect {A R} I (f : A -> R) (xs : list A) (body : A -> M (option R)) acc :
  (forall x, x ∈ xs -> post I (eq (Some (f x))) (body x)) ->
  post I (eq (acc ++ map f xs)) (for_collect xs body acc).
Proof.
  revert acc. induction xs as [|x xs IH]; intros acc Hb; simpl.
  - apply post_ret. by rewrite app_nil_r.
  - eapply post_bind; [apply Hb; by left|]. intros r <-.
    rewrite cons_middle, app_assoc. apply IH. intros y Hy. apply Hb. by right.
Qed.

(** ** Tactics for invariants of the history *)

Ltac inv_step :=
  match goal with
  | |- inv _ (bind _ _) => apply inv_bind; [|intros ?]
  | |- inv _ (ret _) => apply inv_ret
  | |- inv _ (raise _) => apply inv_raise
  | |- inv _ (try_except _ _) => apply inv_try_except; [|intros ?]
  | |- inv _ (try_finally _ _) => apply inv_try_finally
  | |- inv _ (attempt _) => apply inv_attempt
  | |- inv _ (for_each _ _) => apply inv_for_each; intros ? ?
  | |- inv _ (for_return _ _) => apply inv_for_return; intros ? ?
  | |- inv _ (for_collect _ _ _) => apply inv_for_collect; intros ? ?
  | |- inv _ (get_node _) => apply inv_get_node
  | |- inv (extends _ _) (emit _) => apply extends_emit
  | |- inv (extends _ _) (set_node _ _) => apply extends_set_node
  | |- inv (extends _ _) (del_node _) => apply extends_del_node
  | |- inv (extends _ _) (ext _ _) => apply extends_ext; intros ?
  | |- inv _ (match ?x with _ => _ end) => destruct x
  end.

Ltac inv_steps := repeat inv_step.

Lemma extends_mono (P Q : event -> Prop) h0 {A} (m : M A) :
  (forall ev, P ev -> Q ev) ->
  (forall h, inv (extends P h) m) -> inv (extends Q h0) m.
Proof.
  intros HPQ Hm w (evs & Hh & HQ).
  destruct (Hm (history w) w (extends_refl P w)) as (evs' & Hh' & HP).
  exists (evs ++ evs'). split.
  - by rewrite Hh', Hh, app_assoc.
  - apply Forall_app. split; [done|]. eapply Forall_impl; eauto.
Qed.

Section Events.
Context (oracle : Oracle).

Lemma download_file_events h0 url directory filename :
  inv (extends (transfer_event (Py.os_path_join directory filename)) h0)
      (download_file oracle url directory filename).
Proof.
  unfold download_file, os_path_exists, create_file.
  inv_steps; simpl; done.
Qed.

Lemma merge_rasters_events h0 file_list output_path :
  inv (extends (merge_event output_path) h0)
      (merge_rasters oracle file_list output_path).
Proof.
  assert (Hopen : forall fl acc, inv (extends (merge_event output_path) h0)
                                     (open_sources oracle fl acc)).
  { induction fl as [|fp fl IH]; intros acc; simpl; inv_steps; simpl; auto. }
  unfold merge_rasters, write_mosaic, create_file, logger_info, logger_error.
  apply inv_bind; [apply Hopen|]. intros [src_files pending]. simpl.
  inv_steps; simpl; done.
Qed.

Context (gdf : list (string * Geometry)) (collection band : string)
  (years : option (list Z)) (output_folder : string) (scale : Z) (crs : string)
  (max_workers : Z) (frequency : string).

Lemma download_for_bbox_events h0 region_code bbox filename img :
  inv (extends (download_event img
          (Py.os_path_join (region_folder output_folder region_code) filename)) h0)
      (download_for_bbox oracle output_folder scale crs region_code bbox filename img).
Proof.
  unfold download_for_bbox, download_attempt, os_path_exists, time_sleep,
    logger_info, logger_warning, logger_error.
  inv_steps; simpl; try done.
  eapply extends_mono; [|intros h; apply download_file_events].
  intros [[]| | | |] Hev; simpl in *; done.
Qed.

Lemma remove_temp_events h0 fp :
  inv (extends cleanup_event h0) (remove_temp oracle fp).
Proof.
  unfold remove_temp, remove, logger_info, logger_warning.
  inv_steps; simpl; auto.
Qed.

Lemma download_part_events h0 region_code img time_suffix part :
  inv (extends (download_event img
          (artifact_path output_folder collection band time_suffix region_code
             (Some (fst part)))) h0)
      (download_part oracle collection band output_folder scale crs region_code
         img time_suffix part).
Proof.
  unfold download_part. apply inv_bind; [|intros; apply inv_ret].
  apply download_for_bbox_events.
Qed.

Lemma merge_parts_events h0 region_code geoms img time_suffix temp_files :
  inv (extends (image_event output_folder collection band region_code
                  (MultiPolygon geoms) img time_suffix) h0)
      (merge_parts oracle collection band output_folder region_code
         time_suffix temp_files).
Proof.
  unfold merge_parts. destruct temp_files as [|fp fps].
  - apply extends_emit. simpl. auto.
  - apply inv_bind.
    { eapply extends_mono; [|intros h; apply merge_rasters_events].
      intros ev Hev. right. left. apply Hev. }
    intros _. apply inv_for_each. intros x _.
    eapply extends_mono; [|intros h; apply remove_temp_events].
    intros ev Hev. right; right; left. apply Hev.
Qed.

Lemma process_image_events h0 region_code region_geometry img time_suffix :
  inv (extends (image_event output_folder collection band region_code
                  region_geometry img time_suffix) h0)
      (process_image oracle collection band output_folder scale crs
         region_code region_geometry img time_suffix).
Proof.
  unfold process_image. destruct region_geometry as [poly|geoms].
  - inv_steps. apply download_for_bbox_events.
  - apply inv_bind; [|intros; apply merge_parts_events].
    apply inv_for_collect. intros [i poly] Hx.
    apply elem_of_lookup_imap in Hx as (i' & poly' & [= -> ->] & Hi).
    apply lookup_lt_Some in Hi.
    eapply extends_mono; [|intros h; apply download_part_events].
    intros ev Hev. left. exists i'. split; [done|]. apply Hev.
Qed.

(** The structure of a task, for any invariant: it is kept by the task when
    it is kept by the calls of the image resolution, by the creation of the
    region folder, by [process_image] on each planned image, and by the
    log records of the task. *)
Section Task.
Context (I : World -> Prop).
Context (Hres : forall o, (forall a, resolution_event (EvCall o a)) ->
                          inv I (ext oracle o)).

Lemma monthly_image_post ic y month :
  post I
    (eq (img_reproject (ic_mosaic (ic_filterDate ic (month_start y month)
                                     (month_end y month))) crs scale))
    (monthly_image oracle scale crs ic y month).
Proof.
  unfold monthly_image, filterDate, mosaic, reproject.
  eapply post_bind; [apply post_ext_ret; by apply Hres|]. intros ? <-.
  eapply post_bind; [apply post_ext_ret; by apply Hres|]. intros ? <-.
  apply post_ext_ret; by apply Hres.
Qed.

Lemma process_region_inv region_code region_geometry year :
  inv I (makedirs oracle (region_folder output_folder region_code)) ->
  (forall img time_suffix,
     (img, time_suffix) ∈ planned_images collection band crs scale frequency year ->
     inv I (process_image oracle collection band output_folder scale crs
              region_code region_geometry img time_suffix)) ->
  (forall f, inv I (logger_warning (YearIsRequired f region_code))) ->
  (forall exc, inv I (logger_error (UnexpectedError region_code year exc))) ->
  inv I (process_region oracle collection band output_folder scale crs frequency
           region_code region_geometry year).
Proof.
  intros Hmk Himg Hwarn Herr.
  unfold process_region. apply inv_try_except; [|exact Herr].
  unfold process_region_body, ImageCollection_new, select.
  eapply post_bind_inv; [apply post_ext_ret; by apply Hres|]. intros ? <-.
  eapply post_bind_inv; [apply post_ext_ret; by apply Hres|]. intros ? <-.
  eapply (post_bind_inv _ (eq (base_collection collection band year))).
  { destruct year as [y|]; [|by apply post_ret].
    apply post_ext_ret; by apply Hres. }
  intros ? <-. apply inv_bind; [exact Hmk|].
  intros _. unfold planned_images in Himg.
  destruct (decide (frequency = "yearly")) as [Hy|Hy].
  { unfold mosaic, reproject.
    eapply post_bind_inv; [apply post_ext_ret; by apply Hres|]. intros ? <-.
    eapply post_bind_inv; [apply post_ext_ret; by apply Hres|]. intros ? <-.
    apply Himg. by left. }
  destruct (decide (frequency = "monthly")) as [Hm|Hm].
  { destruct year as [y|]; [|apply Hwarn].
    apply inv_for_each. intros month Hmonth.
    eapply post_bind_inv; [by apply monthly_image_post|]. intros ? <-.
    apply Himg. apply list_elem_of_fmap. exists month. split; [reflexivity|done]. }
  destruct (decide (frequency = "monthly_mosaic")) as [Hmm|Hmm]; [|apply inv_ret].
  destruct year as [y|]; [|apply Hwarn].
  eapply post_bind_inv.
  { apply (post_for_collect _ (monthly_composite collection band crs scale y)).
    intros month _. eapply post_bind; [by apply monthly_image_post|].
    intros ? <-. by apply post_ret. }
  intros ? <-. unfold ImageCollection_of, mosaic. simpl.
  eapply post_bind_inv; [apply post_ext_ret; by apply Hres|]. intros ? <-.
  eapply post_bind_inv; [apply post_ext_ret; by apply Hres|]. intros ? <-.
  apply Himg. by left.
Qed.

End Task.

Lemma process_region_events h0 region_code region_geometry year :
  inv (extends (region_event output_folder collection band crs scale frequency
                  region_code region_geometry year) h0)
      (process_region oracle collection band output_folder scale crs frequency
         region_code region_geometry year).
Proof.
  apply process_region_inv.
  - intros o Ho. apply extends_ext. intros a. left. apply Ho.
  - unfold makedirs. inv_steps. right; left. eauto.
  - intros img sfx Hin. eapply extends_mono; [|intros h; apply process_image_events].
    intros ev Hev. right; right; left. eauto.
  - intros f. apply extends_emit. unfold region_event. eauto 10.
  - intros exc. apply extends_emit. unfold region_event. eauto 10.
Qed.

Lemma run_events h0 :
  inv (extends (run_event gdf collection band years output_folder scale crs frequency) h0)
      (download_gee_data_single_collection oracle gdf collection band years
         output_folder scale crs max_workers frequency).
Proof.
  unfold download_gee_data_single_collection.
  destruct (bool_decide _); [|apply inv_raise].
  apply inv_bind.
  { unfold makedirs. inv_steps. left. eauto. }
  intros _. apply inv_bind; [destruct (decide _); [apply inv_raise|apply inv_ret]|].
  intros _. apply inv_bind.
  - apply inv_for_each. intros t Ht. unfold run_task. apply inv_try_except.
    + eapply extends_mono; [|intros h; apply process_region_events].
      intros ev Hev. right; left. eauto.
    + intros e. apply extends_emit. right; right; left. eauto.
  - intros _. apply extends_emit. by repeat right.
Qed.

End Events.

(** ** What one download does to the file system *)

Section Download.
Context (oracle : Oracle).

Lemma exists_None (w : World) p : fs w !! p = None -> bool_decide (is_Some (fs w !! p)) = false.
Proof. intros ->. apply bool_decide_eq_false. by intros [? ?]. Qed.

Lemma name_time_unbound : name_bound "time" = false.
Proof. reflexivity. Qed.

(** A transfer to a path that does not exist either completes the file, or
    raises and leaves the file system as it was or with the file begun. *)
Lemma download_file_cases url directory filename w :
  let filepath := Py.os_path_join directory filename in
  fs w !! filepath = None ->
  exists evs fs' r,
    download_file oracle url directory filename w
    = (r, {| fs := fs'; history := history w ++ evs |})
    /\ Forall (transfer_event filepath) evs
    /\ ((r = Ok filename /\ fs' = <[filepath := File true]> (fs w))
        \/ (exists e, r = Raise e
              /\ (fs' = fs w \/ fs' = <[filepath := File false]> (fs w)))).
Proof.
  intros filepath Hnone.
  unfold download_file, os_path_exists, create_file, bind, get_node, ret, ext,
    set_node, raise. fold filepath. simpl.
  rewrite (exists_None w filepath Hnone). simpl.
  destruct (oracle (history w) (requests_get url)) as [v1|e1] eqn:E1; simpl.
  2:{ eexists _, _, _. split; [reflexivity|]. split; [|right; eauto].
      repeat constructor. }
  rewrite Hnone. simpl.
  destruct (oracle _ (raise_for_status url)) as [v2|e2] eqn:E2; simpl.
  2:{ eexists _, _, _. rewrite <- !app_assoc. split; [reflexivity|].
      split; [|right; eauto]. repeat constructor. }
  rewrite Hnone.
  destruct (oracle _ (open_wb filepath)) as [v3|e3] eqn:E3; simpl.
  2:{ eexists _, _, _. rewrite <- !app_assoc. split; [reflexivity|].
      split; [|right; eauto]. repeat constructor. }
  destruct (oracle _ (iter_content_write filepath)) as [v4|e4] eqn:E4; simpl.
  2:{ eexists _, _, _. rewrite <- !app_assoc. split; [reflexivity|].
      split; [|right; eauto]. repeat constructor. }
  eexists _, _, _. rewrite <- !app_assoc. split; [reflexivity|].
  split; [repeat constructor|]. left. split; [done|]. by rewrite insert_insert_eq.
Qed.

Context (output_folder : string) (scale : Z) (crs : string).

(** The three ways [download_for_bbox] ends: the file is there already; the
    first attempt downloads it; the first attempt fails, and evaluating
    [time.sleep] raises [NameError]. *)
Lemma download_for_bbox_cases region_code bbox filename img w :
  let filepath := Py.os_path_join (region_folder output_folder region_code) filename in
  let params := {| p_scale := scale; p_region := bbox;
                   p_format := "GeoTIFF"; p_crs := crs |} in
  exists evs fs' r,
    download_for_bbox oracle output_folder scale crs region_code bbox filename img w
    = (r, {| fs := fs'; history := history w ++ evs |})
    /\ ((is_Some (fs w !! filepath) /\ r = Ok (Some filepath) /\ fs' = fs w
         /\ evs = [EvLog INFO (FileAlreadyExists filepath)])
        \/ (fs w !! filepath = None /\ r = Ok (Some filepath)
            /\ fs' = <[filepath := File true]> (fs w)
            /\ exists url tevs,
                 evs = EvCall (ee_getDownloadURL img params) (Returns url)
                         :: tevs ++ [EvLog INFO (DownloadedFile filepath)]
                 /\ Forall (transfer_event filepath) tevs)
        \/ (fs w !! filepath = None /\ r = Raise (NameError "time")
            /\ (fs' = fs w \/ fs' = <[filepath := File false]> (fs w))
            /\ exists a tevs e,
                 evs = EvCall (ee_getDownloadURL img params) a
                         :: tevs ++ [EvLog WARNING
                              (ErrorDownloading filename 1 max_attempts e (backoff 1))]
                 /\ Forall (transfer_event filepath) tevs)).
Proof.
  intros filepath params.
  unfold download_for_bbox. fold filepath. fold params.
  unfold os_path_exists, bind at 1 2, get_node, ret at 1.
  destruct (fs w !! filepath) as [n|] eqn:Hfs.
  { rewrite bool_decide_eq_true_2 by eauto.
    eexists _, _, _. split; [reflexivity|]. left. eauto. }
  rewrite bool_decide_eq_false_2 by (by intros [? ?]).
  cbn [seq max_attempts for_return]. unfold bind at 1 2.
  unfold download_attempt at 1. unfold try_except, bind at 1, ext at 1.
  destruct (oracle (history w) (ee_getDownloadURL img params)) as [url|e] eqn:Ea.
  2:{ unfold logger_warning, emit, time_sleep, bind. rewrite name_time_unbound.
      unfold raise. simpl. eexists _, _, _. rewrite <- !app_assoc.
      split; [reflexivity|]. right; right. repeat split; auto.
      exists (Raises e), [], e. simpl. auto. }
  set (w1 := {| fs := fs w; history := history w ++ _ |}).
  destruct (download_file_cases url (region_folder output_folder region_code)
              filename w1 Hfs) as (tevs & fs' & r & Hdl & Htev & Hr).
  fold filepath in Htev, Hr. unfold bind at 1. rewrite Hdl.
  destruct Hr as [[-> ->]|(e & -> & Hfs')].
  - unfold logger_info, emit, bind, ret. simpl.
    eexists _, _, _. rewrite <- !app_assoc. split; [reflexivity|].
    right; left. repeat split; auto. eauto.
  - unfold logger_warning, emit, time_sleep, bind. rewrite name_time_unbound.
    unfold raise. simpl. eexists _, _, _. rewrite <- !app_assoc.
    split; [reflexivity|]. right; right. repeat split; auto.
    exists (Returns url), tevs, e. auto.
Qed.

End Download.

(** ** File names and paths *)

Lemma app_empty_r (s t : string) : s +:+ t = "" -> t = "".
Proof. destruct s; simpl; [done|discriminate]. Qed.

Lemma string_app_assoc (s t u : string) : (s +:+ t) +:+ u = s +:+ t +:+ u.
Proof.
  induction s as [|c s IH]; [done|].
  change (String c ((s +:+ t) +:+ u) = String c (s +:+ t +:+ u)). by rewrite IH.
Qed.

Lemma startswith_sep_app (s t : string) :
  Py.startswith_sep s = false -> Py.startswith_sep t = false ->
  Py.startswith_sep (s +:+ t) = false.
Proof. destruct s; simpl; auto. Qed.

Lemma split_startswith_sep (s : string) :
  Forall (fun x => Py.startswith_sep x = false) (Py.split "/" s).
Proof.
  induction s as [|c s IH]; simpl; [by repeat constructor|].
  case_bool_decide as Hc; [by constructor|].
  destruct (Py.split "/" s) as [|x xs].
  - constructor; [|done]. simpl. by apply bool_decide_eq_false.
  - inversion IH; subst. constructor; [|done]. simpl. by apply bool_decide_eq_false.
Qed.

Lemma collection_leaf_startswith_sep collection :
  Py.startswith_sep (collection_leaf collection) = false.
Proof.
  unfold collection_leaf, Py.last_item.
  destruct (last (Py.split "/" collection)) as [x|] eqn:Hl; [|done].
  apply last_Some_elem_of in Hl.
  by apply (proj1 (Forall_forall _ _) (split_startswith_sep collection)) in Hl.
Qed.

Lemma artifact_filename_startswith_sep collection band time_suffix region_code part :
  Py.startswith_sep (artifact_filename collection band time_suffix region_code part) = false.
Proof.
  assert (Hstem : Py.startswith_sep
            (name_stem collection band time_suffix region_code) = false).
  { unfold name_stem. apply startswith_sep_app;
      [apply collection_leaf_startswith_sep | reflexivity]. }
  destruct part; simpl; unfold part_filename, final_filename;
    (apply startswith_sep_app; [apply Hstem | reflexivity]).
Qed.

Lemma artifact_filename_nonempty collection band time_suffix region_code part :
  artifact_filename collection band time_suffix region_code part <> "".
Proof.
  destruct part; simpl; unfold part_filename, final_filename; intros H;
    repeat (apply app_empty_r in H); discriminate.
Qed.

Lemma os_path_join_relative a b :
  Py.startswith_sep b = false -> Py.os_path_join a b = join_prefix a +:+ b.
Proof.
  intros Hb. unfold Py.os_path_join, join_prefix. rewrite Hb.
  destruct (_ || _); [done|]. by rewrite string_app_assoc.
Qed.

Lemma os_path_join_inj a b1 b2 :
  Py.startswith_sep b1 = false -> Py.startswith_sep b2 = false ->
  Py.os_path_join a b1 = Py.os_path_join a b2 -> b1 = b2.
Proof.
  intros H1 H2. rewrite !os_path_join_relative by done. apply String.app_inj.
Qed.

Lemma os_path_join_nonempty a b : b <> "" -> Py.os_path_join a b <> "".
Proof.
  intros Hb. unfold Py.os_path_join.
  repeat case_match; try done; intros Hx; repeat (apply app_empty_r in Hx); done.
Qed.

Lemma artifact_path_nonempty output_folder collection band time_suffix region_code part :
  artifact_path output_folder collection band time_suffix region_code part <> "".
Proof. apply os_path_join_nonempty, artifact_filename_nonempty. Qed.

Lemma merged_path_not_a_part output_folder collection band time_suffix region_code i :
  artifact_path output_folder collection band time_suffix region_code None
  <> artifact_path output_folder collection band time_suffix region_code (Some i).
Proof.
  unfold artifact_path. intros H.
  apply os_path_join_inj in H; try apply artifact_filename_startswith_sep.
  simpl in H. unfold final_filename, part_filename in H.
  apply String.app_inj in H. discriminate.
Qed.

(** ** The tasks of a call *)

Lemma tasks_in_gdf gdf years t :
  t ∈ tasks gdf years -> (fst (fst t), snd (fst t)) ∈ gdf.
Proof.
  unfold tasks. intros Ht. apply list_elem_of_In, in_flat_map in Ht.
  destruct Ht as ([region geometry] & Hrow & Ht). apply list_elem_of_In in Hrow.
  assert (fst t = (region, geometry)) as ->; [|done].
  destruct years as [[|y ys]|]; simpl in Ht.
  - by destruct Ht as [<-|[]].
  - change (In t (map (fun yr => (region, geometry, Some yr)) (y :: ys))) in Ht.
    apply in_map_iff in Ht as (yr & <- & _). done.
  - by destruct Ht as [<-|[]].
Qed.

(** ** Quiet stretches of a history *)

Lemma network_calls_quiet h evs :
  Forall (fun ev => is_network_call ev = false) evs ->
  network_calls (h ++ evs) = network_calls h.
Proof.
  intros Hq. unfold network_calls. rewrite filter_app.
  assert (filter is_network_call evs = []) as ->; [|by rewrite app_nil_r].
  induction Hq as [|ev evs Hev _ IH]; [done|].
  rewrite filter_cons, IH. by rewrite Hev.
Qed.

Lemma merge_event_quiet out ev : merge_event out ev -> is_network_call ev = false.
Proof. by destruct ev as [[] ?| | | |[] []]. Qed.

Lemma cleanup_event_quiet ev : cleanup_event ev -> is_network_call ev = false.
Proof. by destruct ev as [[] ?| | | |[] []]. Qed.

(** * The claims *)

(** ** C5 *)

(** C5: a [frequency] outside yearly, monthly, monthly_mosaic makes
    [download_gee_data_single_collection] raise [ValueError] at once: the
    world, file system and history, is the one of before, so no directory
    or file was made and no task had started. *)
Theorem C5_unsupported_frequency_raises_first
    oracle gdf collection band years output_folder scale crs max_workers frequency w :
  frequency ∉ ["yearly"; "monthly"; "monthly_mosaic"] ->
  download_gee_data_single_collection oracle gdf collection band years
    output_folder scale crs max_workers frequency w
  = (Raise (ValueError ("Unsupported frequency: " +:+ frequency)), w).
Proof.
  intros Hf. unfold download_gee_data_single_collection.
  by rewrite bool_decide_eq_false_2.
Qed.

Lemma C5_weekly_witness :
  download_gee_data_single_collection all_fine [("ES", SinglePolygon unit_square)]
    "MODIS/061/MCD12Q1" "LC_Type1" (Some [2021%Z]) "out" 500 "EPSG:4326" 5 "weekly"
    empty_world
  = (Raise (ValueError "Unsupported frequency: weekly"), empty_world).
Proof.
  apply (C5_unsupported_frequency_raises_first all_fine
           [("ES", SinglePolygon unit_square)] "MODIS/061/MCD12Q1" "LC_Type1"
           (Some [2021%Z]) "out" 500 "EPSG:4326" 5 "weekly" empty_world).
  apply (bool_decide_unpack _). vm_compute. exact I.
Defined.

(** ** C2 *)

Lemma sleeps_app h1 h2 : sleeps (h1 ++ h2) = sleeps h1 ++ sleeps h2.
Proof. apply omap_app. Qed.

Section C2.
Context (oracle : Oracle) (output_folder : string) (scale : Z) (crs : string).

(** Whatever the outside world answers, [download_for_bbox] asks for at
    most one download reference, never sleeps, and never returns [None]. *)
Lemma download_for_bbox_single_attempt region_code bbox filename img w :
  let r := download_for_bbox oracle output_folder scale crs region_code
             bbox filename img w in
  fst r <> Ok None
  /\ sleeps (added w (snd r)) = []
  /\ length (filter is_download_request (added w (snd r))) <= 1.
Proof.
  assert (Ht : forall fp tevs, Forall (transfer_event fp) tevs ->
            sleeps tevs = [] /\ filter is_download_request tevs = []).
  { intros fp tevs. induction 1 as [|ev tevs Hev _ [IH1 IH2]]; [done|].
    unfold sleeps in *. destruct ev as [[] ?| | | |]; simpl in *; done. }
  destruct (download_for_bbox_cases oracle output_folder scale crs region_code
              bbox filename img w) as (evs & fs' & r & Heq & Hcases).
  simpl. rewrite Heq. unfold added. simpl. rewrite drop_app_length.
  destruct Hcases as [(_ & -> & _ & ->)|[(_ & -> & _ & url & tevs & -> & Htev)
                     |(_ & -> & _ & a & tevs & e & -> & Htev)]].
  - repeat split; [done..|]. rewrite filter_cons. simpl. lia.
  - destruct (Ht _ _ Htev) as [Hs Hd].
    change (?x :: tevs ++ ?l) with ([x] ++ tevs ++ l).
    rewrite !sleeps_app, !filter_app, Hs, Hd. repeat split; [done..|].
    rewrite !filter_cons. simpl. lia.
  - destruct (Ht _ _ Htev) as [Hs Hd].
    change (?x :: tevs ++ ?l) with ([x] ++ tevs ++ l).
    rewrite !sleeps_app, !filter_app, Hs, Hd. repeat split; [done..|].
    rewrite !filter_cons. simpl. lia.
Qed.

End C2.

(** C2, where the code departs from it: when the first request for a
    download reference fails, [download_for_bbox] logs the warning and then
    raises [NameError] on [time.sleep], because the module never imports
    [time].  There is no sleep, no second attempt and no [None] result. *)
Theorem C2_failed_attempt_is_not_retried
    oracle output_folder scale crs region_code bbox filename img w e :
  let filepath := Py.os_path_join (region_folder output_folder region_code) filename in
  let params := {| p_scale := scale; p_region := bbox;
                   p_format := "GeoTIFF"; p_crs := crs |} in
  fs w !! filepath = None ->
  oracle (history w) (ee_getDownloadURL img params) = Raises e ->
  download_for_bbox oracle output_folder scale crs region_code bbox filename img w
  = (Raise (NameError "time"),
     {| fs := fs w;
        history := history w ++
          [EvCall (ee_getDownloadURL img params) (Raises e);
           EvLog WARNING (ErrorDownloading filename 1 5 e (backoff 1))] |}).
Proof.
  intros filepath params Hfs He.
  unfold download_for_bbox. fold filepath. fold params.
  unfold os_path_exists, bind at 1 2, get_node, ret at 1.
  rewrite Hfs, bool_decide_eq_false_2 by (by intros [? ?]).
  cbn [seq max_attempts for_return]. unfold bind at 1 2.
  unfold download_attempt at 1. unfold try_except, bind at 1, ext at 1.
  rewrite He. unfold logger_warning, emit, time_sleep, bind.
  rewrite name_time_unbound. unfold raise. simpl. by rewrite <- app_assoc.
Qed.

Lemma C2_refused_download_witness :
  download_for_bbox downloads_refused "out" 500 "EPSG:4326" "ES"
    (get_bbox_from_polygon unit_square) "MCD12Q1_LC_Type1_2021_ES.tif"
    (yearly_composite "MODIS/061/MCD12Q1" "LC_Type1" "EPSG:4326" 500 (Some 2021%Z))
    empty_world
  = (Raise (NameError "time"),
     {| fs := ∅;
        history :=
          [EvCall (ee_getDownloadURL
                     (yearly_composite "MODIS/061/MCD12Q1" "LC_Type1" "EPSG:4326" 500
                        (Some 2021%Z))
                     {| p_scale := 500; p_region := get_bbox_from_polygon unit_square;
                        p_format := "GeoTIFF"; p_crs := "EPSG:4326" |})
                  (Raises (EEException "quota"));
           EvLog WARNING (ErrorDownloading "MCD12Q1_LC_Type1_2021_ES.tif" 1 5
                            (EEException "quota") (backoff 1))] |}).
Proof.
  apply (C2_failed_attempt_is_not_retried downloads_refused "out" 500 "EPSG:4326"
           "ES" (get_bbox_from_polygon unit_square) "MCD12Q1_LC_Type1_2021_ES.tif"
           _ empty_world (EEException "quota")); reflexivity.
Defined.

(** ** C1 *)

Lemma added_app w fs' evs :
  added w {| fs := fs'; history := history w ++ evs |} = evs.
Proof. unfold added. simpl. apply drop_app_length. Qed.

Section C1.
Context (oracle : Oracle) (collection band output_folder : string)
  (scale : Z) (crs : string) (region_code : string).

(** The download step on a file that exists: the path comes back, the only
    event is the log record. *)
Lemma download_for_bbox_existing bbox filename img w :
  let filepath := Py.os_path_join (region_folder output_folder region_code) filename in
  is_Some (fs w !! filepath) ->
  download_for_bbox oracle output_folder scale crs region_code bbox filename img w
  = (Ok (Some filepath),
     {| fs := fs w; history := history w ++ [EvLog INFO (FileAlreadyExists filepath)] |}).
Proof.
  intros filepath Hex. unfold download_for_bbox. fold filepath.
  unfold os_path_exists, bind, get_node, ret, logger_info, emit.
  by rewrite bool_decide_eq_true_2.
Qed.

(** The loop over the parts when every part file exists. *)
Lemma parts_existing img time_suffix (parts : list (nat * Polygon)) acc w :
  let path := artifact_path output_folder collection band time_suffix region_code in
  (forall x, x ∈ parts -> is_Some (fs w !! path (Some (fst x)))) ->
  exists evs,
    for_collect parts
      (download_part oracle collection band output_folder scale crs region_code
         img time_suffix) acc w
    = (Ok (acc ++ map (fun x => path (Some (fst x))) parts),
       {| fs := fs w; history := history w ++ evs |})
    /\ Forall (fun ev => is_network_call ev = false) evs.
Proof.
  intros path. revert acc w.
  induction parts as [|[i poly] parts IH]; intros acc w Hex; simpl.
  - exists []. rewrite !app_nil_r. by destruct w.
  - unfold bind at 1. unfold download_part at 1. unfold bind at 1.
    pose proof (Hex (i, poly) ltac:(by left)) as Hi.
    rewrite (download_for_bbox_existing _ _ _ _ Hi). unfold ret at 1.
    simpl Py.truthy.
    rewrite bool_decide_eq_false_2
      by exact (artifact_path_nonempty output_folder collection band time_suffix
                  region_code (Some i)).
    simpl negb.
    cbv iota.
    set (w1 := {| fs := fs w; history := _ |}).
    destruct (IH (acc ++ [path (Some i)]) w1) as (evs & Heq & Hq).
    { intros x Hx. apply Hex. by right. }
    exists (EvLog INFO (FileAlreadyExists (path (Some i))) :: evs).
    split; [|by constructor].
    etrans; [apply Heq|]. subst w1. simpl.
    by rewrite <- !app_assoc.
Qed.

Lemma transfer_event_into fp ev p :
  transfer_event fp ev -> downloaded_into ev = Some p -> p = fp.
Proof. destruct ev as [[] ?| | | |]; simpl; try done; by intros -> [= ->]. Qed.

Lemma length_filter_mono {A} (P Q : A -> Prop)
    `{!forall x, Decision (P x), !forall x, Decision (Q x)} (l : list A) :
  (forall x, P x -> Q x) -> length (filter P l) <= length (filter Q l).
Proof.
  intros HPQ. induction l as [|x l IH]; [done|]. rewrite !filter_cons.
  destruct (decide (P x)), (decide (Q x)); simpl; try lia. exfalso. auto.
Qed.

Lemma length_filter_fmap {A B} (f : A -> B) (P : B -> Prop) (Q : A -> Prop)
    `{!forall y, Decision (P y), !forall x, Decision (Q x)} (l : list A) :
  (forall x, Q x <-> P (f x)) ->
  length (filter Q l) = length (filter P (f <$> l)).
Proof.
  intros HQP. induction l as [|x l IH]; [done|]. rewrite fmap_cons, !filter_cons.
  destruct (decide (Q x)) as [Hq|Hq], (decide (P (f x))) as [Hp|Hp]; simpl;
    rewrite ?IH; try done; exfalso; apply HQP in Hq || apply HQP in Hp; done.
Qed.

(** The loop over the parts from any state of the disk: a download
    reference is requested for a missing part file only, and only files
    that were missing are opened or written by a download. *)
Lemma parts_download_only_missing img time_suffix (parts : list (nat * Polygon)) acc w :
  let path := artifact_path output_folder collection band time_suffix region_code in
  exists evs fs' r,
    for_collect parts
      (download_part oracle collection band output_folder scale crs region_code
         img time_suffix) acc w
    = (r, {| fs := fs'; history := history w ++ evs |})
    /\ (forall p, is_Some (fs w !! p) -> is_Some (fs' !! p))
    /\ length (filter is_download_request evs)
       <= length (filter (fun x => ~ is_Some (fs w !! path (Some (fst x)))) parts)
    /\ Forall (fun ev => forall p, downloaded_into ev = Some p -> fs w !! p = None)
         evs.
Proof.
  intros path. revert acc w.
  induction parts as [|[i poly] parts IH]; intros acc w.
  { exists [], (fs w), (Ok acc). simpl. rewrite app_nil_r.
    destruct w; by repeat split. }
  cbn [for_collect]. unfold bind at 1. unfold download_part at 1.
  unfold bind at 1. cbn [fst snd].
  pose proof (download_for_bbox_single_attempt oracle output_folder scale crs
                region_code (get_bbox_from_polygon poly)
                (part_filename collection band time_suffix region_code i) img w)
    as (_ & _ & Hone).
  destruct (download_for_bbox_cases oracle output_folder scale crs region_code
              (get_bbox_from_polygon poly)
              (part_filename collection band time_suffix region_code i) img w)
    as (evs & fs' & r & Heq & Hcases).
  rewrite Heq in *. cbn [snd] in Hone. rewrite added_app in Hone.
  change (Py.os_path_join (region_folder output_folder region_code)
            (part_filename collection band time_suffix region_code i))
    with (path (Some i)) in Hcases.
  assert (Hhead :
    (forall p, is_Some (fs w !! p) -> is_Some (fs' !! p))
    /\ length (filter is_download_request evs)
       <= length (filter (fun x : nat * Polygon =>
                            ~ is_Some (fs w !! path (Some (fst x)))) [(i, poly)])
    /\ Forall (fun ev => forall p, downloaded_into ev = Some p -> fs w !! p = None)
         evs).
  { assert (Hins : forall n p, is_Some (fs w !! p) ->
                     is_Some (<[path (Some i) := n]> (fs w) !! p)).
    { intros n p Hp. destruct (decide (path (Some i) = p)) as [<-|Hne].
      - rewrite lookup_insert_eq. eauto.
      - by rewrite lookup_insert_ne. }
    assert (Hmiss : fs w !! path (Some i) = None ->
              length (filter is_download_request evs)
              <= length (filter (fun x : nat * Polygon =>
                                   ~ is_Some (fs w !! path (Some (fst x))))
                           [(i, poly)])).
    { intros Hno. rewrite filter_cons_True; [exact Hone|].
      simpl. rewrite Hno. by intros [? ?]. }
    assert (Htev : forall tevs, fs w !! path (Some i) = None ->
              Forall (transfer_event (path (Some i))) tevs ->
              Forall (fun ev => forall p, downloaded_into ev = Some p ->
                                          fs w !! p = None) tevs).
    { intros tevs Hno Ht. eapply Forall_impl; [exact Ht|].
      intros ev Hev p Hp. by rewrite (transfer_event_into _ _ _ Hev Hp). }
    destruct Hcases as [(Hex & _ & -> & ->)
                       |[(Hno & _ & -> & url & tevs & -> & Ht)
                        |(Hno & _ & Hfs & a & tevs & e & -> & Ht)]].
    - split; [done|]. split; [simpl; lia|]. by repeat constructor.
    - split; [apply Hins|]. split; [by apply Hmiss|].
      constructor; [done|]. apply Forall_app. split; [by apply Htev|].
      by repeat constructor.
    - split; [destruct Hfs as [->| ->]; [done|apply Hins]|].
      split; [by apply Hmiss|].
      constructor; [done|]. apply Forall_app. split; [by apply Htev|].
      by repeat constructor. }
  destruct Hhead as (Hdom & Hcount & Hfresh).
  destruct r as [v|e].
  2:{ eexists _, _, _. split; [reflexivity|]. split; [done|]. split; [|done].
      etrans; [exact Hcount|]. rewrite (filter_cons _ (i, poly)).
      rewrite filter_cons, filter_nil. destruct (decide _); simpl; lia. }
  unfold ret at 1. cbv beta iota.
  match goal with |- context [for_collect parts _ ?acc' ?w1] =>
    destruct (IH acc' w1) as (evs2 & fs2 & r2 & Heq2 & Hdom2 & Hcount2 & Hfresh2) end.
  rewrite Heq2. cbn [fs history] in *.
  eexists _, _, _. split; [by rewrite <- app_assoc|].
  assert (Hback : forall p, fs' !! p = None -> fs w !! p = None).
  { intros p Hp. destruct (fs w !! p) as [n|] eqn:Hw; [|done].
    destruct (Hdom p) as [n' Hn']; [by eauto|]. congruence. }
  split; [by auto|]. split.
  - rewrite filter_app, length_app, (filter_cons _ (i, poly)).
    assert (length (filter (fun x : nat * Polygon =>
                              ~ is_Some (fs' !! path (Some (fst x)))) parts)
            <= length (filter (fun x : nat * Polygon =>
                                 ~ is_Some (fs w !! path (Some (fst x)))) parts)).
    { apply length_filter_mono. intros x Hx Hw. apply Hx. by apply Hdom. }
    rewrite filter_cons, filter_nil in Hcount.
    destruct (decide _); simpl in *; lia.
  - apply Forall_app. split; [done|].
    eapply Forall_impl; [exact Hfresh2|]. intros ev Hev p Hp. by apply Hback, Hev.
Qed.

End C1.

(** *** A second run over single polygons *)

Section Settled.
Context (oracle : Oracle) (T : string -> Prop) (h0 : list event).

Lemma settled_emit ev : is_network_call ev = false -> inv (settled T h0) (emit ev).
Proof.
  intros Hev w [Hfs Hh]. split; [done|]. clear Hfs. revert w Hh. by apply extends_emit.
Qed.

Lemma settled_ext o :
  (forall a, is_network_call (EvCall o a) = false) -> inv (settled T h0) (ext oracle o).
Proof.
  intros Ho w [Hfs Hh]. split.
  - unfold ext. by destruct (oracle (history w) o).
  - clear Hfs. revert w Hh. by apply extends_ext.
Qed.

Lemma settled_set_node p n : inv (settled T h0) (set_node p n).
Proof.
  intros w [Hfs Hh]. split; [|done]. intros q Hq. simpl.
  destruct (decide (p = q)) as [->|Hne].
  - rewrite lookup_insert_eq. eauto.
  - rewrite lookup_insert_ne by done. auto.
Qed.

Lemma settled_makedirs p : inv (settled T h0) (makedirs oracle p).
Proof.
  unfold makedirs. inv_steps; try done.
  - by apply settled_ext.
  - apply settled_set_node.
Qed.

End Settled.

(** When every region is a single polygon and every final artifact that the
    call targets is on disk, the whole call makes no network call. *)
Lemma rerun_of_single_polygons
    oracle gdf collection band years output_folder scale crs max_workers frequency w :
  (forall row, row ∈ gdf -> is_multi (snd row) = false) ->
  (forall p, target_path gdf collection band years output_folder scale crs
               frequency p -> is_Some (fs w !! p)) ->
  network_calls
    (history (snd (download_gee_data_single_collection oracle gdf collection band
                     years output_folder scale crs max_workers frequency w)))
  = network_calls (history w).
Proof.
  intros Hsingle Hfs.
  set (T := target_path gdf collection band years output_folder scale crs frequency).
  assert (Hinv : inv (settled T (history w))
    (download_gee_data_single_collection oracle gdf collection band years
       output_folder scale crs max_workers frequency)).
  { unfold download_gee_data_single_collection.
    destruct (bool_decide _); [|apply inv_raise].
    apply inv_bind; [apply settled_makedirs|]. intros _.
    apply inv_bind; [destruct (decide _); [apply inv_raise|apply inv_ret]|].
    intros _. apply inv_bind; [|intros _; by apply settled_emit].
    apply inv_for_each. intros [[region geometry] year] Ht.
    unfold run_task. apply inv_try_except; [|intros e; by apply settled_emit].
    cbn [fst snd]. apply process_region_inv.
    - intros o Ho. apply settled_ext. intros a. specialize (Ho a).
      by destruct o.
    - apply settled_makedirs.
    - intros img sfx Hplan.
      pose proof (Hsingle _ (tasks_in_gdf _ _ _ Ht)) as Hgeom. cbn [fst snd] in Hgeom.
      destruct geometry as [poly|geoms]; [|discriminate].
      intros w1 [Hfs1 Hh1]. unfold process_image, bind.
      rewrite (download_for_bbox_existing oracle output_folder scale crs region
                 _ _ img w1).
      2:{ apply Hfs1. exists (region, SinglePolygon poly, year), img, sfx. eauto. }
      cbn [snd ret]. split; [done|].
      revert Hh1. generalize w1. by apply extends_emit.
    - intros f. by apply settled_emit.
    - intros exc. by apply settled_emit. }
  destruct (Hinv w) as [_ (evs & -> & Hq)].
  { split; [done|]. apply extends_refl. }
  by apply network_calls_quiet.
Qed.

(** When every file the download step of a region
    and time window targets is on disk (the artifact of a single polygon,
    each part file of a multi-part region), [process_image] makes no network
    call: no download reference is requested, nothing is transferred. *)
Lemma process_image_existing_files
    oracle collection band output_folder scale crs region_code region_geometry
    img time_suffix w :
  match region_geometry with
  | SinglePolygon _ =>
      is_Some (fs w !! artifact_path output_folder collection band time_suffix
                         region_code None)
  | MultiPolygon geoms =>
      forall i, i < length geoms ->
        is_Some (fs w !! artifact_path output_folder collection band time_suffix
                           region_code (Some i))
  end ->
  network_calls
    (history (snd (process_image oracle collection band output_folder scale crs
                     region_code region_geometry img time_suffix w)))
  = network_calls (history w).
Proof.
  destruct region_geometry as [poly|geoms]; intros Hex; unfold process_image.
  - unfold bind.
    rewrite (download_for_bbox_existing oracle output_folder scale crs region_code
               _ _ img w Hex).
    simpl. by apply network_calls_quiet; repeat constructor.
  - destruct (parts_existing oracle collection band output_folder scale crs
                region_code img time_suffix (imap pair geoms) [] w)
      as (evs & Heq & Hq).
    { intros [i poly] Hx.
      apply elem_of_lookup_imap in Hx as (i' & poly' & [= -> ->] & Hi).
      apply Hex. by apply lookup_lt_Some in Hi. }
    unfold bind at 1. rewrite Heq.
    set (w1 := {| fs := fs w; history := history w ++ evs |}).
    set (quiet := fun ev => is_network_call ev = false).
    assert (H1 : extends quiet (history w) w1) by (by exists evs).
    match goal with |- network_calls (history (snd (?m w1))) = _ =>
      assert (Hinv : inv (extends quiet (history w)) m) end.
    { unfold merge_parts. destruct (_ ++ _) as [|fp fps]; [by apply extends_emit|].
      apply inv_bind.
      - eapply extends_mono; [|intros h; apply merge_rasters_events].
        apply merge_event_quiet.
      - intros _. apply inv_for_each. intros x _.
        eapply extends_mono; [|intros h; apply remove_temp_events].
        apply cleanup_event_quiet. }
    destruct (Hinv w1 H1) as (evs' & -> & Hq'). by apply network_calls_quiet.
Qed.

Lemma merge_event_no_download out ev :
  merge_event out ev -> is_download_request ev = false /\ downloaded_into ev = None.
Proof. by destruct ev as [[] ?| | | |[] []]. Qed.

Lemma cleanup_event_no_download ev :
  cleanup_event ev -> is_download_request ev = false /\ downloaded_into ev = None.
Proof. by destruct ev as [[] ?| | | |[] []]. Qed.

(** A multi-part region from any state of the disk, an interrupted run
    included: the run requests at most one download reference for each part
    file that is missing, and a download opens or writes only files that
    were missing. *)
Lemma multipart_downloads_only_missing
    oracle collection band output_folder scale crs region_code geoms img time_suffix w :
  let path := artifact_path output_folder collection band time_suffix region_code in
  exists evs fs' r,
    process_image oracle collection band output_folder scale crs
      region_code (MultiPolygon geoms) img time_suffix w
    = (r, {| fs := fs'; history := history w ++ evs |})
    /\ length (filter is_download_request evs)
       <= length (filter (fun i => ~ is_Some (fs w !! path (Some i)))
                    (seq 0 (length geoms)))
    /\ forall ev p, ev ∈ evs -> downloaded_into ev = Some p -> fs w !! p = None.
Proof.
  intros path. unfold process_image.
  destruct (parts_download_only_missing oracle collection band output_folder scale
              crs region_code img time_suffix (imap pair geoms) [] w)
    as (evs1 & fs1 & r1 & Heq1 & _ & Hcount & Hfresh).
  fold path in Hcount.
  assert (Hseq :
    length (filter (fun x : nat * Polygon => ~ is_Some (fs w !! path (Some (fst x))))
              (imap pair geoms))
    = length (filter (fun i => ~ is_Some (fs w !! path (Some i)))
                (seq 0 (length geoms)))).
  { etrans;
      [by apply (length_filter_fmap fst
                   (fun i => ~ is_Some (fs w !! path (Some i))))|].
    do 2 f_equal. rewrite fmap_imap.
    change (imap (fun n => fst ∘ pair n) geoms)
      with (imap (fun (n : nat) (_ : Polygon) => id n) geoms).
    by rewrite imap_seq_0, list_fmap_id. }
  rewrite Hseq in Hcount. clear Hseq.
  unfold bind at 1. rewrite Heq1. destruct r1 as [temp_files|e].
  2:{ eexists _, _, _. split; [reflexivity|]. split; [done|].
      intros ev p Hev. by apply (proj1 (Forall_forall _ _) Hfresh). }
  set (w1 := {| fs := fs1; history := history w ++ evs1 |}).
  set (quiet := fun ev => is_download_request ev = false /\ downloaded_into ev = None).
  match goal with |- context [?m w1] =>
    assert (Hinv : inv (extends quiet (history w1)) m) end.
  { unfold merge_parts. destruct temp_files as [|fp fps]; [by apply extends_emit|].
    apply inv_bind.
    - eapply extends_mono; [|intros h; apply merge_rasters_events].
      apply merge_event_no_download.
    - intros _. apply inv_for_each. intros x _.
      eapply extends_mono; [|intros h; apply remove_temp_events].
      apply cleanup_event_no_download. }
  destruct (Hinv w1 (extends_refl _ w1)) as (evs2 & Hh & Hq).
  match goal with |- context [?m w1] => destruct (m w1) as [r2 [fs2 h2]] end.
  cbn [snd history] in Hh. subst h2 w1. cbn [history].
  exists (evs1 ++ evs2), fs2, r2. split; [by rewrite app_assoc|]. split.
  - rewrite filter_app, length_app.
    assert (filter is_download_request evs2 = []) as ->; [|simpl; lia].
    clear -Hq. induction Hq as [|ev evs [Hev _] _ IH]; [done|].
    rewrite filter_cons, IH. by rewrite Hev.
  - intros ev p Hev Hp. apply elem_of_app in Hev as [Hev|Hev].
    + by apply (proj1 (Forall_forall _ _) Hfresh ev).
    + apply (proj1 (Forall_forall _ _) Hq) in Hev as [_ Hev]. congruence.
Qed.

(** C1, as the code has it, file by file.  The download step on a target
    that is on disk (the artifact of a single-polygon region, a part file
    of a multi-part region), in any state of the disk: it returns the path
    of the file, changes no file, and the one event it adds is the log
    record, so there is no request for a download reference and no
    transfer.  For a single-polygon region that is the whole of
    [process_image].  For a multi-part region, from any state of the disk:
    the run requests at most one download reference for each part file that
    is missing, a download opens or writes only files that were missing, and
    with every part file on disk the run makes no network call. *)
Theorem C1_existing_files_are_not_downloaded
    oracle collection band output_folder scale crs region_code img time_suffix w :
  let path := artifact_path output_folder collection band time_suffix region_code in
  let name := artifact_filename collection band time_suffix region_code in
  let found := fun p =>
    {| fs := fs w; history := history w ++ [EvLog INFO (FileAlreadyExists p)] |} in
  (forall part bbox,
     is_Some (fs w !! path part) ->
     download_for_bbox oracle output_folder scale crs region_code bbox (name part)
       img w
     = (Ok (Some (path part)), found (path part)))
  /\ (forall poly,
        is_Some (fs w !! path None) ->
        process_image oracle collection band output_folder scale crs region_code
          (SinglePolygon poly) img time_suffix w
        = (Ok tt, found (path None)))
  /\ (forall geoms,
        let w' := snd (process_image oracle collection band output_folder scale crs
                         region_code (MultiPolygon geoms) img time_suffix w) in
        length (filter is_download_request (added w w'))
        <= length (filter (fun i => ~ is_Some (fs w !! path (Some i)))
                     (seq 0 (length geoms)))
        /\ (forall ev p, ev ∈ added w w' -> downloaded_into ev = Some p ->
              fs w !! p = None)
        /\ ((forall i, i < length geoms -> is_Some (fs w !! path (Some i))) ->
            network_calls (history w') = network_calls (history w))).
Proof.
  intros path name found. split; [|split].
  - intros part bbox Hex.
    apply (download_for_bbox_existing oracle output_folder scale crs region_code
             bbox (name part) img w Hex).
  - intros poly Hex. unfold process_image, bind.
    by rewrite (download_for_bbox_existing oracle output_folder scale crs
                  region_code _ _ img w Hex).
  - intros geoms w'.
    destruct (multipart_downloads_only_missing oracle collection band output_folder
                scale crs region_code geoms img time_suffix w)
      as (evs & fs' & r & Heq & Hcount & Hfresh).
    subst w'. split; [|split].
    1,2: rewrite Heq; cbn [snd]; rewrite added_app; done.
    apply (process_image_existing_files oracle collection band output_folder scale
             crs region_code (MultiPolygon geoms) img time_suffix w).
Qed.

Lemma C1_interrupted_run_witness :
  let w := {| fs := {[ "out/ES/MCD12Q1_LC_Type1_2021_ES_part0.tif" := File true ]};
              history := [] |} in
  download_for_bbox all_fine "out" 500 "EPSG:4326" "ES"
    (get_bbox_from_polygon unit_square) "MCD12Q1_LC_Type1_2021_ES_part0.tif"
    (yearly_composite "MODIS/061/MCD12Q1" "LC_Type1" "EPSG:4326" 500 (Some 2021%Z)) w
  = (Ok (Some "out/ES/MCD12Q1_LC_Type1_2021_ES_part0.tif"),
     {| fs := fs w;
        history := [EvLog INFO (FileAlreadyExists
                                  "out/ES/MCD12Q1_LC_Type1_2021_ES_part0.tif")] |}).
Proof.
  intros w.
  apply (proj1 (C1_existing_files_are_not_downloaded all_fine "MODIS/061/MCD12Q1"
                  "LC_Type1" "out" 500 "EPSG:4326" "ES"
                  (yearly_composite "MODIS/061/MCD12Q1" "LC_Type1" "EPSG:4326" 500
                     (Some 2021%Z)) "2021" w)
           (Some 0) (get_bbox_from_polygon unit_square)).
  exists (File true). vm_compute. reflexivity.
Defined.

(** An interrupted run of the two-part region left part 0 on disk: the
    next run requests one download reference, for part 1. *)
Example interrupted_run_ex :
  let w := {| fs := {[ "out/ES/MCD12Q1_LC_Type1_2021_ES_part0.tif" := File true ]};
              history := [] |} in
  let w' := snd (yearly_run all_fine two_part_gdf w) in
  length (filter is_download_request (history w')) = 1
  /\ omap downloaded_into (history w')
     = ["out/ES/MCD12Q1_LC_Type1_2021_ES_part1.tif";
        "out/ES/MCD12Q1_LC_Type1_2021_ES_part1.tif"].
Proof. split; vm_compute; reflexivity. Qed.

(** C1 as stated fails for a multi-part region: after a first run that left
    the merged artifact of region ES on disk, a second run requests download
    references and transfers both parts again. *)
Lemma C1_merged_artifact_is_downloaded_again :
  fs after_first_run !! "out/ES/MCD12Q1_LC_Type1_2021_ES.tif" = Some (File true)
  /\ length (network_calls
       (added after_first_run
          (snd (yearly_run all_fine two_part_gdf after_first_run)))) = 8.
Proof. split; vm_compute; reflexivity. Qed.

(** ** C9 *)

(** The events between the opening of the sources and their closing. *)
Ltac events_before_closing l :=
  lazymatch l with
  | EvClose _ :: map EvClose _ => constr:(@nil event)
  | ?a :: ?l' => let m := events_before_closing l' in constr:(a :: m)
  | _ => constr:(@nil event)
  end.

Ltac in_list :=
  solve [repeat first [apply list_elem_of_here | apply list_elem_of_further]].

(** [Hin] says that a raising call is in a list of events that is given
    in full: the error record of its exception is in the list too. *)
Ltac raised_is_logged Hin :=
  repeat (apply elem_of_cons in Hin as [Hin|Hin];
          [try discriminate; injection Hin as <- <-; in_list|]);
  by apply elem_of_nil in Hin.

Ltac finish_merge H :=
  cbn [app];
  match goal with
  | |- closed (_ ++ ?l) = _ /\ _ =>
      let m := events_before_closing l in apply (H m); [done..| |]
  end.

Section C9.
Context (oracle : Oracle).

Lemma closed_app h1 h2 : closed (h1 ++ h2) = closed h1 ++ closed h2.
Proof. apply omap_app. Qed.

Lemma opened_for_reading_app h1 h2 :
  opened_for_reading (h1 ++ h2) = opened_for_reading h1 ++ opened_for_reading h2.
Proof. apply omap_app. Qed.

Lemma opened_for_writing_app h1 h2 :
  opened_for_writing (h1 ++ h2) = opened_for_writing h1 ++ opened_for_writing h2.
Proof. apply omap_app. Qed.

Lemma closes_only src_files :
  closed (map EvClose src_files) = src_files
  /\ opened_for_reading (map EvClose src_files) = []
  /\ opened_for_writing (map EvClose src_files) = []
  /\ Forall (fun ev => forall o e, ev <> EvCall o (Raises e)) (map EvClose src_files).
Proof.
  induction src_files as [|s l (IH1 & IH2 & IH3 & IH4)]; [by repeat split|].
  repeat split; simpl; [by f_equal|done..|]. by constructor.
Qed.

(** The [finally] clause: every dataset of [src_files] is closed. *)
Lemma close_all src_files w :
  for_each src_files (fun src => emit (EvClose src)) w
  = (Ok tt, {| fs := fs w; history := history w ++ map EvClose src_files |}).
Proof.
  revert w. induction src_files as [|s l IH]; intros w; simpl.
  - rewrite app_nil_r. by destruct w.
  - unfold bind, emit at 1. rewrite IH. simpl. by rewrite <- app_assoc.
Qed.

(** The loop that opens the sources: [src_files] grows by the files that
    were opened, in order; the loop stops at the first failure. *)
Lemma open_sources_spec file_list src_files w :
  exists evs pending,
    open_sources oracle file_list src_files w
    = (Ok (src_files ++ opened_for_reading evs, pending),
       {| fs := fs w; history := history w ++ evs |})
    /\ closed evs = [] /\ opened_for_writing evs = []
    /\ (forall o e, EvCall o (Raises e) ∈ evs -> pending = Some e)
    /\ Forall (fun ev => is_problem ev = false) evs.
Proof.
  revert src_files w. induction file_list as [|fp fl IH]; intros src_files w; simpl.
  - exists [], None. rewrite !app_nil_r. destruct w. repeat split; try done.
    intros o e H. by apply elem_of_nil in H.
  - unfold bind at 1, attempt, ext.
    destruct (oracle (history w) (rasterio_open fp)) as [v|e] eqn:Ho.
    + set (w1 := {| fs := fs w; history := _ |}).
      destruct (IH (src_files ++ [fp]) w1)
        as (evs & pending & Heq & Hc & Hw & Hr & Hq).
      exists (EvCall (rasterio_open fp) (Returns v) :: evs), pending.
      rewrite Heq. subst w1. simpl. rewrite <- !app_assoc.
      repeat split; try done; [|by constructor].
      intros o e H. apply elem_of_cons in H as [H|H]; [done|]. eauto.
    + exists [EvCall (rasterio_open fp) (Raises e)], (Some e).
      simpl. rewrite app_nil_r. repeat split; try done; [|by repeat constructor].
      intros o e' H. apply list_elem_of_singleton in H. congruence.
Qed.

(** Every way [merge_rasters] can go.  It returns normally; the events it
    adds close what they open and log what was raised; the output file is
    complete and the log has no warning and no error, or an error is in the
    log and the output file is as before or begun. *)
Lemma merge_rasters_outcome file_list output_path w :
  exists fs' evs,
    merge_rasters oracle file_list output_path w
    = (Ok tt, {| fs := fs'; history := history w ++ evs |})
    /\ closed evs = opened_for_writing evs ++ opened_for_reading evs
    /\ (forall o e, EvCall o (Raises e) ∈ evs ->
          EvLog ERROR (ErrorDuringMerging e) ∈ evs)
    /\ (Forall (fun ev => is_problem ev = false) evs
        /\ fs' = <[output_path := File true]> (fs w)
        \/ (exists e, EvLog ERROR (ErrorDuringMerging e) ∈ evs)
           /\ (fs' = fs w \/ fs' = <[output_path := File false]> (fs w))).
Proof.
  destruct (open_sources_spec file_list [] w)
    as (evs1 & pending & Hopen & Hc1 & Hw1 & Hr1 & Hq1).
  simpl in Hopen. remember (opened_for_reading evs1) as src_files eqn:Hsrc.
  destruct (closes_only src_files) as (Hcc & Hco & Hcw & Hcr).
  assert (Hfinish : forall mid fs',
    closed mid = opened_for_writing mid -> opened_for_reading mid = [] ->
    (forall o e, EvCall o (Raises e) ∈ evs1 ++ mid ->
       EvLog ERROR (ErrorDuringMerging e) ∈ mid) ->
    (Forall (fun ev => is_problem ev = false) mid
     /\ fs' = <[output_path := File true]> (fs w)
     \/ (exists e, EvLog ERROR (ErrorDuringMerging e) ∈ mid)
        /\ (fs' = fs w \/ fs' = <[output_path := File false]> (fs w))) ->
    closed (evs1 ++ mid ++ map EvClose src_files)
    = opened_for_writing (evs1 ++ mid ++ map EvClose src_files)
      ++ opened_for_reading (evs1 ++ mid ++ map EvClose src_files)
    /\ (forall o e, EvCall o (Raises e) ∈ evs1 ++ mid ++ map EvClose src_files ->
          EvLog ERROR (ErrorDuringMerging e) ∈ evs1 ++ mid ++ map EvClose src_files)
    /\ (Forall (fun ev => is_problem ev = false)
          (evs1 ++ mid ++ map EvClose src_files)
        /\ fs' = <[output_path := File true]> (fs w)
        \/ (exists e, EvLog ERROR (ErrorDuringMerging e)
                        ∈ evs1 ++ mid ++ map EvClose src_files)
           /\ (fs' = fs w \/ fs' = <[output_path := File false]> (fs w)))).
  { intros mid fs' Hm1 Hm2 Hm3 Hm4. split; [|split].
    - rewrite !closed_app, !opened_for_writing_app, !opened_for_reading_app.
      rewrite Hc1, Hw1, Hcc, Hco, Hcw, Hm1, Hm2, <- Hsrc.
      by rewrite !app_nil_r.
    - intros o e Hin. rewrite app_assoc in Hin.
      apply elem_of_app in Hin as [Hin|Hin].
      + apply elem_of_app. right. apply elem_of_app. left. eauto.
      + exfalso. apply list_elem_of_fmap in Hin as (s & Hs & _). done.
    - destruct Hm4 as [[Hq ?]|[[e He] ?]]; [left|right]; (split; [|done]).
      + apply Forall_app. split; [done|]. apply Forall_app. split; [done|].
        apply Forall_fmap. by apply Forall_true.
      + exists e. apply elem_of_app. right. apply elem_of_app. by left. }
  assert (Hraised : forall o e mid,
    EvCall o (Raises e) ∈ evs1 ++ mid -> pending = None ->
    EvCall o (Raises e) ∈ mid).
  { intros o e mid Hin Hp. apply elem_of_app in Hin as [Hin|Hin]; [|done].
    apply Hr1 in Hin. congruence. }
  unfold merge_rasters. unfold bind at 1. rewrite Hopen. simpl fst. simpl snd.
  unfold try_finally, try_except.
  destruct pending as [e|].
  { unfold raise, logger_error, emit. rewrite close_all. cbn [fs history].
    eexists _, _. split; [by rewrite <- !app_assoc|].
    apply Hfinish; [done..| |].
    - intros o e' Hin. apply elem_of_app in Hin as [Hin|Hin].
      + apply Hr1 in Hin as [= ->]. by left.
      + apply list_elem_of_singleton in Hin. done.
    - right. split; [eexists; in_list|by left]. }
  unfold bind at 1, ext at 1.
  destruct (oracle _ (rasterio_merge src_files)) as [v|e] eqn:Hm.
  2:{ unfold logger_error, emit. rewrite close_all. cbn [fs history].
      eexists _, _. split; [by rewrite <- !app_assoc|]. finish_merge Hfinish.
      - intros o e' Hin. apply Hraised in Hin; [|done]. raised_is_logged Hin.
      - right. split; [eexists; in_list|by left]. }
  clear Hsrc. destruct src_files as [|s0 rest].
  { unfold raise, logger_error, emit. simpl.
    eexists _, _. split; [by rewrite <- !app_assoc|].
    apply (Hfinish [EvCall (rasterio_merge []) (Returns v);
                    EvLog ERROR (ErrorDuringMerging IndexError)]); [done..| |].
    - intros o e' Hin. apply Hraised in Hin; [|done]. raised_is_logged Hin.
    - right. split; [eexists; in_list|by left]. }
  unfold write_mosaic, create_file, bind at 1 2 3, get_node at 1.
  cbn [fs history].
  destruct (fs w !! output_path) as [[|c]|] eqn:Hout.
  { unfold raise, logger_error, emit. rewrite close_all. cbn [fs history].
    eexists _, _. split; [by rewrite <- !app_assoc|]. finish_merge Hfinish.
    - intros o e' Hin. apply Hraised in Hin; [|done]. raised_is_logged Hin.
    - right. split; [eexists; in_list|by left]. }
  all: unfold bind at 1, ext at 1; cbn [fs history];
    destruct (oracle _ (rasterio_open_w output_path)) as [v2|e2] eqn:Hw.
  2,4: unfold logger_error, emit; rewrite close_all; cbn [fs history];
    (eexists _, _; split; [by rewrite <- !app_assoc|]; finish_merge Hfinish;
     [ intros o e' Hin; apply Hraised in Hin; [|done]; raised_is_logged Hin
     | right; split; [eexists; in_list|by left] ]).
  all: unfold set_node at 1; cbv beta iota;
    unfold try_finally at 1, bind at 1, ext at 1; cbn [fs history];
    destruct (oracle _ (dataset_write output_path)) as [v3|e3] eqn:Hd;
    unfold set_node, emit, logger_info, logger_error; cbv beta iota;
    unfold emit; rewrite close_all; cbn [fs history];
    (eexists _, _; split; [by rewrite <- !app_assoc|]; finish_merge Hfinish;
     [ intros o e' Hin; apply Hraised in Hin; [|done]; raised_is_logged Hin
     | first [ left; split; [by repeat constructor|by rewrite insert_insert_eq]
             | right; split; [eexists; in_list|by right] ] ]).
Qed.

End C9.

(** C9: [merge_rasters] returns normally, with no value, from every world
    and whatever the calls to rasterio answer.  In the events it adds, the
    datasets closed are exactly the ones opened (the output, then the
    sources in the order of opening), and every exception that a call
    raised is in an error record of the log.  The failure shows in the log
    only: the result is the same [Ok tt]. *)
Theorem C9_merge_rasters_never_raises oracle file_list output_path w :
  exists w' evs,
    merge_rasters oracle file_list output_path w = (Ok tt, w')
    /\ history w' = history w ++ evs
    /\ closed evs = opened_for_writing evs ++ opened_for_reading evs
    /\ (forall o e, EvCall o (Raises e) ∈ evs ->
          EvLog ERROR (ErrorDuringMerging e) ∈ evs).
Proof.
  destruct (merge_rasters_outcome oracle file_list output_path w)
    as (fs' & evs & Heq & Hclosed & Hlogged & _).
  exists {| fs := fs'; history := history w ++ evs |}, evs.
  by repeat split.
Qed.


(** ** C6 *)

Section C6.
Context (oracle : Oracle) (gdf : list (string * Geometry)) (collection band : string)
  (years : option (list Z)) (output_folder : string) (scale : Z) (crs : string)
  (max_workers : Z) (frequency : string).

Lemma process_region_returns region_code region_geometry year w :
  fst (process_region oracle collection band output_folder scale crs frequency
         region_code region_geometry year w) = Ok tt.
Proof.
  unfold process_region, try_except.
  by destruct (process_region_body _ _ _ _ _ _ _ _ _ _ w) as [[[]|e] w1].
Qed.

Lemma run_task_is_process_region t w :
  run_task oracle collection band output_folder scale crs frequency t w
  = (Ok tt, snd (process_region oracle collection band output_folder scale crs
                   frequency (fst (fst t)) (snd (fst t)) (snd t) w)).
Proof.
  unfold run_task, try_except.
  pose proof (process_region_returns (fst (fst t)) (snd (fst t)) (snd t) w) as H.
  destruct (process_region _ _ _ _ _ _ _ _ _ _ w) as [[[]|e] w1]; simpl in *; done.
Qed.

(** The loop over the futures runs every task, from the world that the
    tasks before it left. *)
Lemma run_tasks_fold ts w :
  for_each ts (run_task oracle collection band output_folder scale crs frequency) w
  = (Ok tt,
     foldl (fun w t => snd (process_region oracle collection band output_folder
                              scale crs frequency (fst (fst t)) (snd (fst t))
                              (snd t) w)) w ts).
Proof.
  revert w. induction ts as [|t ts IH]; intros w; simpl; [done|].
  unfold bind. by rewrite run_task_is_process_region, IH.
Qed.

Lemma remove_temp_returns fp w : fst (remove_temp oracle fp w) = Ok tt.
Proof.
  unfold remove_temp, try_except, remove, bind, get_node, ext, del_node,
    logger_info, logger_warning, emit, raise.
  destruct (fs w !! fp) as [[|c]|]; simpl; try done.
  by destruct (oracle (history w) (os_remove fp)).
Qed.

End C6.

(** C6, as the code has it: a task never raises.  An exception that leaves
    the body of [process_region] (image resolution, download) is caught at
    the task boundary and logged with the region and the year; an exception
    of the merge is caught inside [merge_rasters], which logs every
    exception raised there as an error of the merge; an exception of
    [os.remove] is caught inside the cleanup loop, which logs it as a
    warning with the path of the file; so neither reaches the task boundary.
    The loop over the futures runs every task whatever the others did, and
    the top-level call raises only for the frequency, for the output folder
    or for the size of the pool. *)
Theorem C6_task_exceptions_stay_in_the_task
    oracle gdf collection band years output_folder scale crs max_workers frequency :
  (forall region_code region_geometry year w,
     fst (process_region oracle collection band output_folder scale crs frequency
            region_code region_geometry year w) = Ok tt)
  /\ (forall region_code region_geometry year w e w1,
        process_region_body oracle collection band output_folder scale crs
          frequency region_code region_geometry year w = (Raise e, w1) ->
        process_region oracle collection band output_folder scale crs frequency
          region_code region_geometry year w
        = (Ok tt, {| fs := fs w1;
                     history := history w1 ++
                       [EvLog ERROR (UnexpectedError region_code year e)] |}))
  /\ (forall file_list output_path w,
        exists fs' evs,
          merge_rasters oracle file_list output_path w
          = (Ok tt, {| fs := fs'; history := history w ++ evs |})
          /\ forall o e, EvCall o (Raises e) ∈ evs ->
                EvLog ERROR (ErrorDuringMerging e) ∈ evs)
  /\ (forall fp w,
        fst (remove_temp oracle fp w) = Ok tt
        /\ forall e w1,
             remove oracle fp w = (Raise e, w1) ->
             remove_temp oracle fp w
             = (Ok tt, {| fs := fs w1;
                          history := history w1 ++
                            [EvLog WARNING (CouldNotRemove fp e)] |}))
  /\ (forall ts w,
        for_each ts (run_task oracle collection band output_folder scale crs
                       frequency) w
        = (Ok tt,
           foldl (fun w t => snd (process_region oracle collection band
                                    output_folder scale crs frequency
                                    (fst (fst t)) (snd (fst t)) (snd t) w)) w ts))
  /\ (forall w e,
        fst (download_gee_data_single_collection oracle gdf collection band years
               output_folder scale crs max_workers frequency w) = Raise e ->
        frequency ∉ ["yearly"; "monthly"; "monthly_mosaic"]
        \/ fst (makedirs oracle output_folder w) = Raise e
        \/ (max_workers <= 0)%Z).
Proof.
  split; [apply process_region_returns|].
  split.
  { intros region_code region_geometry year w e w1 Hbody.
    unfold process_region, try_except. by rewrite Hbody. }
  split.
  { intros file_list output_path w.
    destruct (merge_rasters_outcome oracle file_list output_path w)
      as (fs' & evs & Heq & _ & Hlogged & _). by exists fs', evs. }
  split.
  { intros fp w. split; [apply remove_temp_returns|].
    intros e w1 Hremove. unfold remove_temp, try_except, bind.
    by rewrite Hremove. }
  split; [apply run_tasks_fold|].
  intros w e. unfold download_gee_data_single_collection.
  case_bool_decide as Hf; [|intros _; by left].
  unfold bind at 1.
  destruct (makedirs oracle output_folder w) as [[[]|e'] w1]; [|intros [= ->]; auto].
  unfold bind at 1. destruct (decide (max_workers <= 0)%Z) as [|Hmw]; [auto|].
  unfold ret, bind. rewrite run_tasks_fold. by unfold logger_info, emit.
Qed.

Lemma C6_refused_download_witness :
  process_region downloads_refused "MODIS/061/MCD12Q1" "LC_Type1" "out" 500
    "EPSG:4326" "yearly" "ES" (SinglePolygon unit_square) (Some 2021%Z) empty_world
  = (Ok tt,
     let w1 := snd (process_region_body downloads_refused "MODIS/061/MCD12Q1"
                      "LC_Type1" "out" 500 "EPSG:4326" "yearly" "ES"
                      (SinglePolygon unit_square) (Some 2021%Z) empty_world) in
     {| fs := fs w1;
        history := history w1 ++
          [EvLog ERROR (UnexpectedError "ES" (Some 2021%Z) (NameError "time"))] |}).
Proof.
  apply (proj1 (proj2 (C6_task_exceptions_stay_in_the_task downloads_refused
                         one_polygon_gdf "MODIS/061/MCD12Q1" "LC_Type1"
                         (Some [2021%Z]) "out" 500 "EPSG:4326" 5 "yearly"))).
  vm_compute. reflexivity.
Defined.

(** C6 as stated fails for the merge: when [rasterio.merge] raises in the
    task of region ES, the exception is in the log once, in the record of
    [merge_rasters], which names neither the region nor the year; no record
    of the task boundary is written. *)
Lemma C6_merge_exception_is_logged_without_region :
  let w := snd (yearly_run merge_breaks two_part_gdf empty_world) in
  filter is_raised (history w)
  = [EvCall (rasterio_merge ["out/ES/MCD12Q1_LC_Type1_2021_ES_part0.tif";
                             "out/ES/MCD12Q1_LC_Type1_2021_ES_part1.tif"])
            (Raises (RasterioIOError "merge"))]
  /\ filter is_problem (history w)
     = [EvLog ERROR (ErrorDuringMerging (RasterioIOError "merge"))].
Proof. split; vm_compute; reflexivity. Qed.

(** ** C3 *)

Lemma transfer_event_not_merge fp ev : transfer_event fp ev -> is_merge_call ev = false.
Proof. by destruct ev as [[] ?| | | |[] []]. Qed.

Section C3.
Context (oracle : Oracle) (collection band output_folder : string)
  (scale : Z) (crs : string) (region_code : string).

(** What follows the download of a part only adds to the history. *)
Lemma rest_of_parts_grows img time_suffix parts acc w :
  exists evs,
    history (snd ((temp_files <- for_collect parts
                      (download_part oracle collection band output_folder scale crs
                         region_code img time_suffix) acc ;;
                   merge_parts oracle collection band output_folder region_code
                     time_suffix temp_files)%py w))
    = history w ++ evs.
Proof.
  match goal with |- context [snd (?m w)] =>
    assert (Hinv : inv (extends (fun _ => True) (history w)) m) end.
  { apply inv_bind.
    - apply inv_for_collect. intros part _.
      eapply extends_mono; [|intros h; apply download_part_events]. done.
    - intros temp_files.
      eapply extends_mono;
        [|intros h; apply (merge_parts_events _ _ _ _ h region_code [] img)]. done. }
  destruct (Hinv w (extends_refl _ w)) as (evs & Hh & _). eauto.
Qed.

End C3.

(** C3, as the code has it: when no part of a multi-part region is handed
    back by the download step (none found on disk, none downloaded), the
    merge step is skipped and the merged file is not written; a part file is
    on disk afterwards only where a transfer broke off after the file had
    been opened, and then it is incomplete. *)
Theorem C3_no_part_downloaded
    oracle collection band output_folder scale crs region_code geoms img time_suffix w :
  let path := artifact_path output_folder collection band time_suffix region_code in
  let w' := snd (process_image oracle collection band output_folder scale crs
                   region_code (MultiPolygon geoms) img time_suffix w) in
  Forall (fun ev => is_download_success ev = false) (added w w') ->
  Forall (fun ev => is_merge_call ev = false) (added w w')
  /\ fs w' !! path None = fs w !! path None
  /\ forall p, fs w' !! p = fs w !! p
       \/ (exists i, i < length geoms /\ p = path (Some i))
          /\ fs w !! p = None /\ fs w' !! p = Some (File false).
Proof.
  intros path w'. subst w'.
  remember (process_image oracle collection band output_folder scale crs
              region_code (MultiPolygon geoms) img time_suffix w) as run eqn:Hrun.
  unfold process_image in Hrun.
  destruct geoms as [|poly geoms].
  { intros _. simpl in Hrun.
    unfold bind, ret, merge_parts, logger_warning, emit in Hrun. simpl in Hrun.
    subst run. cbn [snd]. rewrite (added_app w (fs w)).
    repeat split; auto; by repeat constructor. }
  cbn [imap for_collect] in Hrun. unfold bind at 1 2 in Hrun.
  unfold download_part at 1 in Hrun. unfold bind at 1 in Hrun. cbn [fst snd] in Hrun.
  destruct (download_for_bbox_cases oracle output_folder scale crs region_code
              (get_bbox_from_polygon poly)
              (part_filename collection band time_suffix region_code 0) img w)
    as (evs & fs' & r & Heq & Hcases).
  rewrite Heq in Hrun.
  assert (Hpath : path (Some 0)
                  = Py.os_path_join (region_folder output_folder region_code)
                      (part_filename collection band time_suffix region_code 0))
    by reflexivity.
  rewrite <- Hpath in *.
  destruct Hcases as [(_ & -> & _ & ->)|[(_ & -> & _ & url & tevs & -> & _)
                     |(Hnone & -> & Hfs' & a & tevs & e & -> & Htev)]].
  - (* found on disk: excluded by the hypothesis *)
    unfold ret at 1 in Hrun. cbv beta iota in Hrun.
    match type of Hrun with _ = (let (_, _) := for_collect ?ps ?b ?acc ?w1 in _) =>
      destruct (rest_of_parts_grows oracle collection band output_folder scale crs
                  region_code img time_suffix ps acc w1) as (evs' & Hh) end.
    unfold bind in Hh. rewrite <- Hrun in Hh. cbn [history] in Hh.
    intros Hno. exfalso. unfold added in Hno.
    rewrite Hh, <- app_assoc, drop_app_length in Hno.
    by inversion Hno.
  - (* downloaded: excluded by the hypothesis *)
    unfold ret at 1 in Hrun. cbv beta iota in Hrun.
    match type of Hrun with _ = (let (_, _) := for_collect ?ps ?b ?acc ?w1 in _) =>
      destruct (rest_of_parts_grows oracle collection band output_folder scale crs
                  region_code img time_suffix ps acc w1) as (evs' & Hh) end.
    unfold bind in Hh. rewrite <- Hrun in Hh. cbn [history] in Hh.
    intros Hno. exfalso. unfold added in Hno.
    rewrite Hh, <- app_assoc, drop_app_length in Hno.
    apply Forall_app in Hno as [Hno _]. inversion Hno as [|? ? _ Hno']; subst.
    apply Forall_app in Hno' as [_ Hno']. by inversion Hno'.
  - (* the first attempt failed *)
    intros _. subst run. cbn [snd]. rewrite added_app. cbn [fs].
    split; [|split].
    + constructor; [done|]. apply Forall_app. split; [|by repeat constructor].
      eapply Forall_impl; [apply Htev|]. apply transfer_event_not_merge.
    + destruct Hfs' as [->| ->]; [done|].
      rewrite lookup_insert_ne; [done|]. apply not_eq_sym, merged_path_not_a_part.
    + intros p. destruct Hfs' as [->| ->]; [by left|].
      destruct (decide (p = path (Some 0))) as [->|Hne].
      * right. split; [exists 0; simpl; split; [lia|done]|].
        split; [done|]. by rewrite lookup_insert_eq.
      * left. by rewrite lookup_insert_ne.
Qed.

Lemma C3_broken_transfer_witness :
  let w' := snd (process_image transfer_breaks "MODIS/061/MCD12Q1" "LC_Type1" "out"
                   500 "EPSG:4326" "ES" (MultiPolygon [unit_square; unit_square])
                   (yearly_composite "MODIS/061/MCD12Q1" "LC_Type1" "EPSG:4326" 500
                      (Some 2021%Z)) "2021" empty_world) in
  Forall (fun ev => is_merge_call ev = false) (added empty_world w')
  /\ fs w' !! "out/ES/MCD12Q1_LC_Type1_2021_ES.tif" = None.
Proof.
  destruct (C3_no_part_downloaded transfer_breaks "MODIS/061/MCD12Q1" "LC_Type1"
              "out" 500 "EPSG:4326" "ES" [unit_square; unit_square]
              (yearly_composite "MODIS/061/MCD12Q1" "LC_Type1" "EPSG:4326" 500
                 (Some 2021%Z)) "2021" empty_world) as (Hmerge & Hfile & _).
  - vm_compute. repeat constructor.
  - split; [exact Hmerge|exact Hfile].
Defined.

(** C3 as stated fails when a transfer breaks off: no part of region ES is
    downloaded, yet the file of part 0 stays on disk, incomplete; and the
    records of the run are the warning of the failed attempt and the error
    of the task boundary, not the warning of [process_image]. *)
Lemma C3_truncated_part_is_left_on_disk :
  let w := snd (yearly_run transfer_breaks two_part_gdf empty_world) in
  filter is_download_success (history w) = []
  /\ fs w !! "out/ES/MCD12Q1_LC_Type1_2021_ES_part0.tif" = Some (File false)
  /\ filter is_problem (history w)
     = [EvLog WARNING (ErrorDownloading "MCD12Q1_LC_Type1_2021_ES_part0.tif" 1 5
                         (RequestException "connection broken") (backoff 1));
        EvLog ERROR (UnexpectedError "ES" (Some 2021%Z) (NameError "time"))].
Proof. repeat split; vm_compute; reflexivity. Qed.

(** ** C4 *)

Section C4.
Context (oracle : Oracle) (collection band output_folder : string)
  (scale : Z) (crs : string) (region_code : string).

Lemma transfer_event_no_problem fp ev : transfer_event fp ev -> is_problem ev = false.
Proof. by destruct ev as [[] ?| | | |[] []]. Qed.

(** The loop over the parts: when no warning and no error is logged, every
    part is handed back, in order. *)
Lemma parts_without_problem img time_suffix (parts : list (nat * Polygon)) acc w :
  let path := artifact_path output_folder collection band time_suffix region_code in
  exists evs fs' r,
    for_collect parts
      (download_part oracle collection band output_folder scale crs region_code
         img time_suffix) acc w
    = (r, {| fs := fs'; history := history w ++ evs |})
    /\ (Forall (fun ev => is_problem ev = false) evs ->
        r = Ok (acc ++ map (fun x => path (Some (fst x))) parts)).
Proof.
  intros path. revert acc w.
  induction parts as [|[i poly] parts IH]; intros acc w.
  - exists [], (fs w), (Ok acc). simpl. rewrite !app_nil_r. by destruct w.
  - cbn [for_collect]. unfold bind at 1. unfold download_part at 1.
    unfold bind at 1. cbn [fst snd].
    destruct (download_for_bbox_cases oracle output_folder scale crs region_code
                (get_bbox_from_polygon poly)
                (part_filename collection band time_suffix region_code i) img w)
      as (evs & fs' & r & Heq & Hcases).
    rewrite Heq.
    assert (Hpath : path (Some i)
                    = Py.os_path_join (region_folder output_folder region_code)
                        (part_filename collection band time_suffix region_code i))
      by reflexivity.
    rewrite <- Hpath in *.
    assert (Htruthy : Py.truthy (Some (path (Some i))) = true).
    { simpl. rewrite bool_decide_eq_false_2; [done|].
      apply artifact_path_nonempty. }
    destruct Hcases as [(_ & -> & _ & ->)|[(_ & -> & _ & url & tevs & -> & _)
                       |(_ & -> & _ & a & tevs & e & -> & _)]].
    + unfold ret at 1. cbv beta iota. rewrite Htruthy.
      match goal with |- context [for_collect parts _ ?acc' ?w1] =>
        destruct (IH acc' w1) as (evs2 & fs2 & r2 & Heq2 & Hr2) end.
      rewrite Heq2. cbn [history]. eexists _, _, _.
      split; [by rewrite <- app_assoc|].
      intros Hq. apply Forall_app in Hq as [_ Hq].
      rewrite (Hr2 Hq). by rewrite <- app_assoc.
    + unfold ret at 1. cbv beta iota. rewrite Htruthy.
      match goal with |- context [for_collect parts _ ?acc' ?w1] =>
        destruct (IH acc' w1) as (evs2 & fs2 & r2 & Heq2 & Hr2) end.
      rewrite Heq2. cbn [history]. eexists _, _, _.
      split; [by rewrite <- app_assoc|].
      intros Hq. apply Forall_app in Hq as [_ Hq].
      rewrite (Hr2 Hq). by rewrite <- app_assoc.
    + eexists _, _, _. split; [reflexivity|].
      intros Hq. exfalso. inversion Hq as [|? ? _ Hq']; subst.
      apply Forall_app in Hq' as [_ Hq']. by inversion Hq'.
Qed.

(** The cleanup loop: when no warning is logged, every file of the list is
    gone, no other path has changed, and the removal of every file of the
    list is in the log. *)
Lemma cleanup_without_problem fps w :
  exists evs fs',
    for_each fps (remove_temp oracle) w
    = (Ok tt, {| fs := fs'; history := history w ++ evs |})
    /\ (Forall (fun ev => is_problem ev = false) evs ->
        (forall p, p ∈ fps -> fs' !! p = None)
        /\ (forall p, p ∉ fps -> fs' !! p = fs w !! p)
        /\ (forall p, p ∈ fps -> EvLog INFO (RemovedTemporaryFile p) ∈ evs)).
Proof.
  revert w. induction fps as [|fp fps IH]; intros w.
  - exists [], (fs w). simpl. rewrite app_nil_r. split; [by destruct w|].
    intros _. split; [|split; [done|]]; intros p Hp; by apply elem_of_nil in Hp.
  - cbn [for_each]. unfold bind at 1.
    unfold remove_temp at 1, try_except, remove, bind at 1 2, get_node.
    destruct (fs w !! fp) as [[|c]|] eqn:Hfp.
    1,3: unfold raise, logger_warning, emit;
      match goal with |- context [for_each _ _ ?w1] =>
        destruct (IH w1) as (evs2 & fs2 & Heq2 & _) end;
      rewrite Heq2; cbn [fs history]; eexists _, _;
      (split; [by rewrite <- app_assoc|]);
      intros Hq; exfalso; by inversion Hq.
    unfold bind at 1, ext.
    destruct (oracle (history w) (os_remove fp)) as [v|e] eqn:Ho.
    + unfold del_node, logger_info, emit. cbn [fs history].
      match goal with |- context [for_each _ _ ?w1] =>
        destruct (IH w1) as (evs2 & fs2 & Heq2 & Hfs2) end.
      rewrite Heq2. cbn [fs history] in *. eexists _, _.
      split; [by rewrite <- !app_assoc|].
      intros Hq. apply Forall_app in Hq as [_ Hq].
      apply Forall_app in Hq as [_ Hq].
      destruct (Hfs2 Hq) as (Hin & Hout & Hlog). split; [|split].
      * intros p Hp. destruct (decide (p ∈ fps)) as [|Hnin]; [by apply Hin|].
        apply elem_of_cons in Hp as [->|]; [|done].
        rewrite (Hout _ Hnin). apply lookup_delete_eq.
      * intros p Hp. apply not_elem_of_cons in Hp as [Hne Hnin].
        rewrite (Hout _ Hnin). by apply lookup_delete_ne.
      * intros p Hp. apply elem_of_cons in Hp as [->|Hp].
        -- apply elem_of_app. right. apply elem_of_app. left. in_list.
        -- apply elem_of_app. right. apply elem_of_app. right. by apply Hlog.
    + unfold logger_warning, emit. cbn [fs history].
      match goal with |- context [for_each _ _ ?w1] =>
        destruct (IH w1) as (evs2 & fs2 & Heq2 & _) end.
      rewrite Heq2. cbn [fs history]. eexists _, _.
      split; [by rewrite <- !app_assoc|].
      intros Hq. exfalso. apply Forall_app in Hq as [_ Hq].
      apply Forall_app in Hq as [Hq _]. by inversion Hq.
Qed.

(** The loop over the parts changes part files only. *)
Lemma parts_frame img time_suffix (parts : list (nat * Polygon)) acc w p :
  let path := artifact_path output_folder collection band time_suffix region_code in
  (forall x, x ∈ parts -> p <> path (Some (fst x))) ->
  fs (snd (for_collect parts
             (download_part oracle collection band output_folder scale crs
                region_code img time_suffix) acc w)) !! p
  = fs w !! p.
Proof.
  intros path. revert acc w.
  induction parts as [|[i poly] parts IH]; intros acc w Hp; [done|].
  cbn [for_collect]. unfold bind at 1. unfold download_part at 1.
  unfold bind at 1. cbn [fst snd].
  destruct (download_for_bbox_cases oracle output_folder scale crs region_code
              (get_bbox_from_polygon poly)
              (part_filename collection band time_suffix region_code i) img w)
    as (evs & fs' & r & Heq & Hcases).
  rewrite Heq.
  assert (Hne : p <> Py.os_path_join (region_folder output_folder region_code)
                       (part_filename collection band time_suffix region_code i)).
  { apply (Hp (i, poly)). by left. }
  assert (Hfs : fs' !! p = fs w !! p).
  { destruct Hcases as [(_ & _ & -> & _)|[(_ & _ & -> & _)|(_ & _ & [->| ->] & _)]];
      try done; by rewrite lookup_insert_ne. }
  destruct r as [v|e]; [|exact Hfs].
  unfold ret at 1. cbv beta iota. rewrite IH; [exact Hfs|].
  intros x Hx. apply Hp. by right.
Qed.

End C4.

(** The events of a run that is known in full satisfy what the function
    keeps. *)
Lemma extends_events P {A} (m : M A) w r fs' evs :
  inv (extends P (history w)) m ->
  m w = (r, {| fs := fs'; history := history w ++ evs |}) ->
  Forall P evs.
Proof.
  intros Hinv Heq. destruct (Hinv w (extends_refl _ w)) as (evs' & Hh & HP).
  rewrite Heq in Hh. simpl in Hh. by apply app_inv_head in Hh as ->.
Qed.

Lemma download_event_no_merge_error img fp ev :
  download_event img fp ev -> is_merge_error ev = false.
Proof. by destruct ev as [[] ?| | | |[] []]. Qed.

Lemma cleanup_event_no_merge_error ev : cleanup_event ev -> is_merge_error ev = false.
Proof. by destruct ev as [[] ?| | | |[] []]. Qed.

Lemma merge_error_at_most_clean evs :
  Forall (fun ev => merge_error_at_most ev = true) evs ->
  Forall (fun ev => is_merge_error ev = false) evs ->
  Forall (fun ev => is_problem ev = false) evs.
Proof.
  intros H1 H2. induction H1 as [|ev evs Hev _ IH]; [done|].
  inversion H2 as [|? ? Hm H2']; subst. constructor; [|by apply IH].
  unfold merge_error_at_most in Hev. rewrite Hm, orb_false_r in Hev.
  by apply negb_true_iff.
Qed.

(** A multi-part region, in the events and the file system that
    [process_image] leaves. *)
Lemma multipart_clean_run
    oracle collection band output_folder scale crs region_code geoms img time_suffix w :
  let path := artifact_path output_folder collection band time_suffix region_code in
  exists evs fs' r,
    process_image oracle collection band output_folder scale crs
      region_code (MultiPolygon geoms) img time_suffix w
    = (r, {| fs := fs'; history := history w ++ evs |})
    /\ (Forall (fun ev => is_problem ev = false) evs ->
        fs' !! path None = Some (File true)
        /\ forall i, i < length geoms -> fs' !! path (Some i) = None).
Proof.
  intros path. unfold process_image.
  destruct (parts_without_problem oracle collection band output_folder scale crs
              region_code img time_suffix (imap pair geoms) [] w)
    as (evs1 & fs1 & r1 & Heq1 & Hr1).
  fold path in Hr1. unfold bind at 1. rewrite Heq1.
  destruct r1 as [temp_files|e].
  2:{ eexists _, _, _. split; [reflexivity|]. intros Hq. by specialize (Hr1 Hq). }
  unfold merge_parts. destruct temp_files as [|fp fps].
  { unfold logger_warning, emit. cbn [snd fs history].
    eexists _, _, _. split; [by rewrite <- app_assoc|]. intros Hq. exfalso.
    apply Forall_app in Hq as [_ Hq]. by inversion Hq. }
  change (Py.os_path_join (region_folder output_folder region_code)
            (final_filename collection band time_suffix region_code))
    with (path None).
  unfold bind at 1.
  match goal with |- context [merge_rasters oracle ?l ?out ?w1] =>
    destruct (merge_rasters_outcome oracle l out w1)
      as (fs2 & evs2 & Heq2 & _ & _ & Hfs2) end.
  rewrite Heq2. cbn [fs history] in *.
  match goal with |- context [for_each ?l _ ?w2] =>
    destruct (cleanup_without_problem oracle l w2)
      as (evs3 & fs3 & Heq3 & Hfs3) end.
  rewrite Heq3. cbn [snd fs history] in *.
  eexists _, _, _. split; [by rewrite <- !app_assoc|]. intros Hq.
  apply Forall_app in Hq as [Hq1 Hq]. apply Forall_app in Hq as [Hq2 Hq3].
  specialize (Hr1 Hq1). injection Hr1 as Htemp. simpl in Htemp.
  destruct (Hfs3 Hq3) as (Hgone & Hkept & _). clear Hfs3.
  destruct Hfs2 as [[_ ->]|[[e He] _]].
  2:{ exfalso. apply (proj1 (Forall_forall _ _) Hq2) in He. done. }
  rewrite Htemp in *. split.
  - rewrite Hkept; [apply lookup_insert_eq|].
    intros Hin. apply list_elem_of_fmap in Hin as ([i poly] & Hi & _).
    by apply merged_path_not_a_part in Hi.
  - intros i Hi. apply Hgone.
    destruct (lookup_lt_is_Some_2 geoms i Hi) as [poly Hpoly].
    apply list_elem_of_fmap. exists (i, poly). split; [done|].
    apply elem_of_lookup_imap. eauto.
Qed.

(** When [process_image] runs on a multi-part region without logging a
    warning or an error (every part handed back, the merge written, every
    temporary file removed), the merged artifact is on disk, complete, and
    no part file of the region and time window is left. *)
Lemma parts_are_deleted_after_a_clean_merge
    oracle collection band output_folder scale crs region_code geoms img time_suffix w :
  let path := artifact_path output_folder collection band time_suffix region_code in
  let w' := snd (process_image oracle collection band output_folder scale crs
                   region_code (MultiPolygon geoms) img time_suffix w) in
  Forall (fun ev => is_problem ev = false) (added w w') ->
  fs w' !! path None = Some (File true)
  /\ forall i, i < length geoms -> fs w' !! path (Some i) = None.
Proof.
  intros path w'. subst w'.
  destruct (multipart_clean_run oracle collection band output_folder scale crs
              region_code geoms img time_suffix w) as (evs & fs' & r & Heq & Hclean).
  rewrite Heq. cbn [snd fs]. rewrite added_app. exact Hclean.
Qed.

Example clean_merge_ex :
  let w' := snd (process_image all_fine "MODIS/061/MCD12Q1" "LC_Type1" "out"
                   500 "EPSG:4326" "ES" (MultiPolygon [unit_square; unit_square])
                   (yearly_composite "MODIS/061/MCD12Q1" "LC_Type1" "EPSG:4326" 500
                      (Some 2021%Z)) "2021" empty_world) in
  fs w' !! "out/ES/MCD12Q1_LC_Type1_2021_ES.tif" = Some (File true)
  /\ fs w' !! "out/ES/MCD12Q1_LC_Type1_2021_ES_part0.tif" = None
  /\ fs w' !! "out/ES/MCD12Q1_LC_Type1_2021_ES_part1.tif" = None.
Proof. repeat split. Qed.

(** A multi-part region that had no merged file, in a run of
    [process_image] in which the merge fails and nothing else does. *)
Lemma multipart_failed_merge_run
    oracle collection band output_folder scale crs region_code geoms img time_suffix w :
  let path := artifact_path output_folder collection band time_suffix region_code in
  exists evs fs' r,
    process_image oracle collection band output_folder scale crs
      region_code (MultiPolygon geoms) img time_suffix w
    = (r, {| fs := fs'; history := history w ++ evs |})
    /\ (fs w !! path None = None ->
        Forall (fun ev => merge_error_at_most ev = true) evs ->
        Exists (fun ev => is_merge_error ev = true) evs ->
        (forall i, i < length geoms ->
           fs' !! path (Some i) = None
           /\ EvLog INFO (RemovedTemporaryFile (path (Some i))) ∈ evs)
        /\ (fs' !! path None = None \/ fs' !! path None = Some (File false))).
Proof.
  intros path. unfold process_image.
  destruct (parts_without_problem oracle collection band output_folder scale crs
              region_code img time_suffix (imap pair geoms) [] w)
    as (evs1 & fs1 & r1 & Heq1 & Hr1).
  fold path in Hr1.
  assert (Hm1 : Forall (fun ev => is_merge_error ev = false) evs1).
  { eapply extends_events; [|exact Heq1].
    apply inv_for_collect. intros x _.
    eapply extends_mono; [|intros h; apply download_part_events].
    apply download_event_no_merge_error. }
  assert (Hfs1 : fs1 !! path None = fs w !! path None).
  { pose proof (parts_frame oracle collection band output_folder scale crs
                  region_code img time_suffix (imap pair geoms) [] w (path None))
      as Hframe.
    rewrite Heq1 in Hframe. cbn [snd fs] in Hframe. apply Hframe.
    intros x _. apply merged_path_not_a_part. }
  unfold bind at 1. rewrite Heq1.
  destruct r1 as [temp_files|e].
  2:{ eexists _, _, _. split; [reflexivity|]. intros _ Hq _. exfalso.
      pose proof (Hr1 (merge_error_at_most_clean _ Hq Hm1)). done. }
  unfold merge_parts. destruct temp_files as [|fp fps].
  { unfold logger_warning, emit. cbn [snd fs history].
    eexists _, _, _. split; [by rewrite <- app_assoc|]. intros _ Hq _. exfalso.
    apply Forall_app in Hq as [_ Hq]. by inversion Hq. }
  change (Py.os_path_join (region_folder output_folder region_code)
            (final_filename collection band time_suffix region_code))
    with (path None).
  unfold bind at 1.
  match goal with |- context [merge_rasters oracle ?l ?out ?w1] =>
    destruct (merge_rasters_outcome oracle l out w1)
      as (fs2 & evs2 & Heq2 & _ & _ & Hfs2) end.
  rewrite Heq2. cbn [fs history] in *.
  match goal with |- context [for_each ?l _ ?w2] =>
    destruct (cleanup_without_problem oracle l w2)
      as (evs3 & fs3 & Heq3 & Hfs3);
    assert (Hm3 : Forall (fun ev => is_merge_error ev = false) evs3)
      by (eapply extends_events; [|exact Heq3];
          apply inv_for_each; intros x _;
          eapply extends_mono; [|intros h; apply remove_temp_events];
          apply cleanup_event_no_merge_error)
  end.
  rewrite Heq3. cbn [snd fs history] in *.
  eexists _, _, _. split; [by rewrite <- !app_assoc|]. intros Hnone Hq Hfailed.
  apply Forall_app in Hq as [Hq1 Hq]. apply Forall_app in Hq as [Hq2 Hq3].
  pose proof (Hr1 (merge_error_at_most_clean _ Hq1 Hm1)) as Htemp.
  injection Htemp as Htemp. simpl in Htemp.
  destruct (Hfs3 (merge_error_at_most_clean _ Hq3 Hm3)) as (Hgone & Hkept & Hlog).
  clear Hfs3. rewrite Htemp in Hgone, Hkept, Hlog.
  assert (Hpart : forall i, i < length geoms ->
            path (Some i) ∈ map (fun x : nat * Polygon => path (Some (fst x)))
                               (imap pair geoms)).
  { intros i Hi. destruct (lookup_lt_is_Some_2 geoms i Hi) as [poly Hpoly].
    apply list_elem_of_fmap. exists (i, poly). split; [done|].
    apply elem_of_lookup_imap. eauto. }
  split.
  - intros i Hi. split; [by apply Hgone, Hpart|].
    apply elem_of_app. right. apply elem_of_app. right. by apply Hlog, Hpart.
  - rewrite Hkept.
    2:{ intros Hin. apply list_elem_of_fmap in Hin as ([i poly] & Hi & _).
        by apply merged_path_not_a_part in Hi. }
    rewrite Hnone in Hfs1.
    destruct Hfs2 as [[Hclean _]|[_ [->| ->]]].
    + exfalso. apply Exists_app in Hfailed as [Hf|Hf].
      * apply Exists_exists in Hf as (ev & Hev & Hf).
        apply (proj1 (Forall_forall _ _) Hm1) in Hev. congruence.
      * apply Exists_app in Hf as [Hf|Hf];
          apply Exists_exists in Hf as (ev & Hev & Hf).
        -- apply (proj1 (Forall_forall _ _) Hclean) in Hev.
           by destruct ev as [| | | |[] []].
        -- apply (proj1 (Forall_forall _ _) Hm3) in Hev. congruence.
    + by left.
    + right. apply lookup_insert_eq.
Qed.

(** C4, where the code departs from it: [merge_rasters] returns normally
    also when the merge failed, and [process_image] goes on to the cleanup
    loop without looking at the merged file.  In a run on a multi-part
    region that had no merged file, in which the only warning or error
    logged is the error record of the merge, every part is handed back by
    the download step and removed by the cleanup loop: no part file is left,
    the removal of each is in the log, and the merged file is absent or was
    begun and left incomplete. *)
Theorem C4_failed_merge_still_deletes_the_parts
    oracle collection band output_folder scale crs region_code geoms img time_suffix w :
  let path := artifact_path output_folder collection band time_suffix region_code in
  let w' := snd (process_image oracle collection band output_folder scale crs
                   region_code (MultiPolygon geoms) img time_suffix w) in
  fs w !! path None = None ->
  Forall (fun ev => merge_error_at_most ev = true) (added w w') ->
  Exists (fun ev => is_merge_error ev = true) (added w w') ->
  (forall i, i < length geoms ->
     fs w' !! path (Some i) = None
     /\ EvLog INFO (RemovedTemporaryFile (path (Some i))) ∈ added w w')
  /\ (fs w' !! path None = None \/ fs w' !! path None = Some (File false)).
Proof.
  intros path w'. subst w'.
  destruct (multipart_failed_merge_run oracle collection band output_folder scale
              crs region_code geoms img time_suffix w)
    as (evs & fs' & r & Heq & Hrun).
  rewrite Heq. cbn [snd fs]. rewrite added_app. exact Hrun.
Qed.

Lemma C4_failed_merge_witness :
  let w' := snd (process_image merge_breaks "MODIS/061/MCD12Q1" "LC_Type1" "out"
                   500 "EPSG:4326" "ES" (MultiPolygon [unit_square; unit_square])
                   (yearly_composite "MODIS/061/MCD12Q1" "LC_Type1" "EPSG:4326" 500
                      (Some 2021%Z)) "2021" empty_world) in
  fs w' = ∅
  /\ fs w' !! "out/ES/MCD12Q1_LC_Type1_2021_ES_part0.tif" = None
  /\ fs w' !! "out/ES/MCD12Q1_LC_Type1_2021_ES_part1.tif" = None
  /\ EvLog INFO (RemovedTemporaryFile "out/ES/MCD12Q1_LC_Type1_2021_ES_part0.tif")
       ∈ history w'
  /\ EvLog INFO (RemovedTemporaryFile "out/ES/MCD12Q1_LC_Type1_2021_ES_part1.tif")
       ∈ history w'
  /\ (fs w' !! "out/ES/MCD12Q1_LC_Type1_2021_ES.tif" = None
      \/ fs w' !! "out/ES/MCD12Q1_LC_Type1_2021_ES.tif" = Some (File false)).
Proof.
  destruct (C4_failed_merge_still_deletes_the_parts merge_breaks
              "MODIS/061/MCD12Q1" "LC_Type1" "out" 500 "EPSG:4326" "ES"
              [unit_square; unit_square]
              (yearly_composite "MODIS/061/MCD12Q1" "LC_Type1" "EPSG:4326" 500
                 (Some 2021%Z)) "2021" empty_world) as (Hparts & Hmerged).
  - reflexivity.
  - vm_compute. repeat constructor.
  - apply Exists_exists.
    exists (EvLog ERROR (ErrorDuringMerging (RasterioIOError "merge"))).
    split; [vm_compute; in_list|reflexivity].
  - destruct (Hparts 0) as [Hp0 Hl0]; [simpl; lia|].
    destruct (Hparts 1) as [Hp1 Hl1]; [simpl; lia|].
    split; [vm_compute; reflexivity|].
    split; [exact Hp0|]. split; [exact Hp1|].
    split; [exact Hl0|]. split; [exact Hl1|]. exact Hmerged.
Defined.

(** ** C8 *)

Lemma artifact_filename_layout collection band time_suffix region_code part :
  artifact_filename collection band time_suffix region_code part
  = layout_name (collection_leaf collection) band time_suffix region_code part.
Proof.
  destruct part; simpl; unfold part_filename, final_filename, name_stem, layout_name;
    by rewrite !string_app_assoc.
Qed.

(** [str] of an integer is its decimal numeral. *)
Lemma digit_pretty (d : N) : (d < 10)%N -> pretty_N_char d = digit d.
Proof.
  intros Hd.
  assert (d = 0 \/ d = 1 \/ d = 2 \/ d = 3 \/ d = 4 \/ d = 5 \/ d = 6 \/ d = 7
          \/ d = 8 \/ d = 9)%N as Hcases by lia.
  repeat (destruct Hcases as [->|Hcases]; [reflexivity|]). by subst.
Qed.

Lemma decimal_go_pretty fuel n acc :
  (0 < n)%N -> (n < 2 ^ N.of_nat fuel)%N ->
  decimal_go fuel n acc = pretty_N_go n acc.
Proof.
  revert n acc. induction fuel as [|fuel IH]; intros n acc Hpos Hlt.
  { change (n < 1)%N in Hlt. lia. }
  cbn [decimal_go]. rewrite pretty_N_go_step by done.
  rewrite <- digit_pretty by (apply N.mod_lt; lia).
  destruct (N.eqb_spec (n / 10) 0) as [->|Hne]; [by rewrite pretty_N_go_0|].
  apply IH; [by apply N.neq_0_lt_0|].
  rewrite Nat2N.inj_succ, N.pow_succ_r' in Hlt.
  apply N.Div0.div_lt_upper_bound. generalize dependent (2 ^ N.of_nat fuel)%N.
  intros; lia.
Qed.

Lemma decimal_N_pretty (n : N) : decimal_N n = pretty n.
Proof.
  unfold pretty, pretty_N, decimal_N. case_decide as Hn; [by subst|].
  apply decimal_go_pretty; [lia|].
  rewrite Nat2N.inj_succ, N.pow_succ_r', N2Nat.id.
  pose proof (N.size_gt n) as Hsize. generalize dependent (2 ^ N.size n)%N.
  intros; lia.
Qed.

Lemma str_decimal (z : Z) : Py.str z = decimal z.
Proof.
  unfold Py.str, decimal. destruct z as [|p|p]; [done| |].
  - simpl. by rewrite decimal_N_pretty.
  - simpl. by rewrite decimal_N_pretty.
Qed.

Example decimal_ex :
  decimal 2021 = "2021" /\ decimal 0 = "0" /\ decimal (-5) = "-5"
  /\ decimal 800 = "800".
Proof. repeat split. Qed.

Lemma fmt_02d_months : map Py.fmt_02d (seq 1 12) = months_MM.
Proof. reflexivity. Qed.

Lemma planned_suffix_form collection band crs scale frequency year img time_suffix :
  (img, time_suffix) ∈ planned_images collection band crs scale frequency year ->
  time_suffix_form time_suffix.
Proof.
  unfold planned_images. intros Hin.
  destruct (decide (frequency = "yearly")).
  { apply list_elem_of_singleton in Hin as [= _ ->].
    destruct year; [rewrite str_decimal; apply suffix_year|apply suffix_none]. }
  destruct (decide (frequency = "monthly")).
  { destruct year as [y|]; [|by apply elem_of_nil in Hin].
    apply list_elem_of_fmap in Hin as (m & [= _ ->] & Hm).
    unfold month_suffix. rewrite str_decimal. apply suffix_month.
    rewrite <- fmt_02d_months. by apply list_elem_of_fmap_2. }
  destruct (decide (frequency = "monthly_mosaic")); [|by apply elem_of_nil in Hin].
  destruct year as [y|]; [|by apply elem_of_nil in Hin].
  apply list_elem_of_singleton in Hin as [= _ ->].
  unfold mosaic_suffix. rewrite str_decimal. apply suffix_mosaic.
Qed.

(** [collection.split('/')[-1]] is the final segment of the collection id. *)
Lemma split_last_segment (s : string) :
  exists leaf,
    last (Py.split "/" s) = Some leaf /\ has_sep leaf = false
    /\ ((Py.split "/" s = [leaf] /\ s = leaf)
        \/ (2 <= length (Py.split "/" s)
            /\ exists prefix, s = prefix +:+ "/" +:+ leaf)).
Proof.
  induction s as [|c s (leaf & Hlast & Hsep & IH)].
  { exists "". simpl. auto. }
  cbn [Py.split]. case_bool_decide as Hc.
  - subst c. exists leaf. split.
    { destruct (Py.split "/" s); [done|exact Hlast]. }
    split; [done|]. right.
    destruct IH as [[Hs ->]|[Hlen [prefix ->]]].
    + split; [rewrite Hs; simpl; lia|]. by exists "".
    + split; [simpl; lia|]. by exists (String "/" prefix).
  - destruct IH as [[Hs ->]|[Hlen [prefix ->]]].
    + rewrite Hs. exists (String c leaf). split; [done|].
      split; [simpl; by rewrite bool_decide_eq_false_2|]. by left.
    + destruct (Py.split "/" (prefix +:+ "/" +:+ leaf)) as [|x [|x' xs]];
        simpl in Hlen; try lia.
      exists leaf. split; [exact Hlast|]. split; [done|]. right.
      split; [simpl; lia|]. by exists (String c prefix).
Qed.

Lemma collection_leaf_last_segment collection :
  last_segment collection (collection_leaf collection).
Proof.
  destruct (split_last_segment collection) as (leaf & Hlast & Hsep & Hs).
  unfold collection_leaf, Py.last_item. rewrite Hlast. simpl.
  split; [done|]. destruct Hs as [[_ ->]|[_ ?]]; auto.
Qed.

(** Where [os.path.join] writes the literal [output_folder/region_id/name]. *)
Lemma endswith_sep_app a b : b <> "" -> Py.endswith_sep (a +:+ b) = Py.endswith_sep b.
Proof.
  intros Hb. induction a as [|c a IH]; [done|].
  change (String c a +:+ b) with (String c (a +:+ b)).
  destruct (a +:+ b) as [|c' s] eqn:Hab.
  - by apply app_empty_r in Hab.
  - exact IH.
Qed.

Lemma os_path_join_plain output_folder region_id name :
  output_folder <> "" -> Py.endswith_sep output_folder = false ->
  region_id <> "" -> Py.startswith_sep region_id = false ->
  Py.endswith_sep region_id = false -> Py.startswith_sep name = false ->
  Py.os_path_join (Py.os_path_join output_folder region_id) name
  = output_folder +:+ "/" +:+ region_id +:+ "/" +:+ name.
Proof.
  intros Ho1 Ho2 Hr1 Hr2 Hr3 Hn.
  assert (Hj : Py.os_path_join output_folder region_id
               = output_folder +:+ "/" +:+ region_id).
  { unfold Py.os_path_join. rewrite Hr2, Ho2.
    by rewrite bool_decide_eq_false_2. }
  rewrite Hj. unfold Py.os_path_join. rewrite Hn.
  rewrite (endswith_sep_app output_folder) by (intros H; by apply app_empty_r in H).
  rewrite (endswith_sep_app "/" region_id) by done.
  rewrite Hr3. rewrite bool_decide_eq_false_2.
  - simpl. by rewrite !string_app_assoc.
  - intros H. repeat apply app_empty_r in H. done.
Qed.

Lemma endswith_sep_plain a : plain_folder a -> Py.endswith_sep a = false.
Proof.
  intros [_ Ha]. destruct (Py.endswith_sep a) eqn:He; [exfalso|done].
  revert Ha He. induction a as [|c a IH]; intros Ha He; [done|].
  destruct a as [|c' a].
  - simpl in He. apply bool_decide_eq_true in He as ->. by apply (Ha "").
  - apply IH; [|exact He]. intros s Hs. apply (Ha (String c s)).
    by rewrite Hs.
Qed.

Lemma startswith_sep_relative b : relative b <-> Py.startswith_sep b = false.
Proof.
  unfold relative. destruct b as [|c b]; simpl; [by split|].
  case_bool_decide as Hc; split; try done.
  - intros Hb. exfalso. subst c. by apply (Hb b).
  - intros _ s [= -> _]. done.
Qed.

(** Every file that the call opens for writing, with the path and the name
    as the code computes them. *)
Lemma written_paths_are_artifact_paths
    oracle gdf collection band years output_folder scale crs max_workers frequency
    w ev p :
  let w' := snd (download_gee_data_single_collection oracle gdf collection band
                   years output_folder scale crs max_workers frequency w) in
  ev ∈ added w w' -> written_path ev = Some p ->
  exists region_id geometry time_suffix part,
    (region_id, geometry) ∈ gdf
    /\ time_suffix_form time_suffix
    /\ p = Py.os_path_join (Py.os_path_join output_folder region_id)
             (layout_name (collection_leaf collection) band time_suffix
                region_id part)
    /\ (is_Some part <-> is_multi geometry = true /\ is_download_write ev = true)
    /\ (forall i, part = Some i ->
          exists geoms, geometry = MultiPolygon geoms /\ i < length geoms).
Proof.
  intros w' Hev Hp.
  destruct (extends_added _ w w'
              (run_events oracle gdf collection band years output_folder scale crs
                 max_workers frequency (history w) w (extends_refl _ w)))
    as [_ Hall].
  apply (proj1 (Forall_forall _ _) Hall) in Hev. clear Hall.
  destruct Hev as [[a ->]|[(t & Ht & Hev)|[[e ->]| ->]]]; try done.
  destruct t as [[region geometry] year]. apply tasks_in_gdf in Ht.
  cbn [fst snd] in *.
  destruct Hev as [Hev|[[a ->]|[(img & sfx & Hplan & Hev)|[[f ->]|[e ->]]]]];
    try done.
  { by destruct ev as [[] ?| | | |]. }
  apply planned_suffix_form in Hplan.
  unfold image_event, artifact_path in Hev.
  rewrite !artifact_filename_layout in Hev.
  destruct geometry as [poly|geoms].
  - exists region, (SinglePolygon poly), sfx, None.
    destruct ev as [[] ?| | | |[] []]; simpl in *; try done;
      injection Hp as <-; repeat split; try done;
      try (intros [? ?]; done); intros [? ?]; done.
  - destruct Hev as [(i & Hi & Hev)|[Hev|[Hev| ->]]]; try done.
    + exists region, (MultiPolygon geoms), sfx, (Some i).
      rewrite !artifact_filename_layout in Hev.
      destruct ev as [[] ?| | | |[] []]; simpl in *; try done;
        injection Hp as <-; repeat split; eauto.
      intros j [= <-]. eauto.
    + exists region, (MultiPolygon geoms), sfx, None.
      destruct ev as [[] ?| | | |[] []]; simpl in *; try done;
        injection Hp as <-; repeat split; try done;
        try (intros [? ?]; done); intros [? ?]; done.
    + by destruct ev as [[] ?| | | |[] []].
Qed.

(** C8: every file that [download_gee_data_single_collection] opens for
    writing is at [os.path.join(os.path.join(output_folder, region_id), name)]
    for a row of [gdf], with the name
    [<collection_leaf>_<band>_<time_suffix>_<region_id>[_part<i>].tif], where
    the leaf is the final ['/']-separated segment of the collection id and
    the time suffix is empty, [YYYY], [YYYY_MM] or [YYYY_monthly_mosaic] in
    decimal digits.  The path is the literal [output_folder/region_id/name]
    when the output folder and the region id are not empty and do not end
    with ['/'] and the region id does not start with ['/']; a region id that
    starts with ['/'] replaces the output folder.  The name has the part
    infix exactly when the file is a download for a multi-part region. *)
Theorem C8_artifacts_follow_the_layout
    oracle gdf collection band years output_folder scale crs max_workers frequency
    w ev p :
  let w' := snd (download_gee_data_single_collection oracle gdf collection band
                   years output_folder scale crs max_workers frequency w) in
  ev ∈ added w w' -> written_path ev = Some p ->
  exists region_id geometry leaf time_suffix part,
    let name := layout_name leaf band time_suffix region_id part in
    (region_id, geometry) ∈ gdf
    /\ last_segment collection leaf
    /\ time_suffix_form time_suffix
    /\ p = Py.os_path_join (Py.os_path_join output_folder region_id) name
    /\ (plain_folder output_folder -> plain_folder region_id ->
        relative region_id ->
        p = output_folder +:+ "/" +:+ region_id +:+ "/" +:+ name)
    /\ (plain_folder region_id -> ~ relative region_id ->
        p = region_id +:+ "/" +:+ name)
    /\ (is_Some part <-> is_multi geometry = true /\ is_download_write ev = true)
    /\ (forall i, part = Some i ->
          exists geoms, geometry = MultiPolygon geoms /\ i < length geoms).
Proof.
  intros w' Hev Hp.
  destruct (written_paths_are_artifact_paths oracle gdf collection band years
              output_folder scale crs max_workers frequency w ev p Hev Hp)
    as (region_id & geometry & time_suffix & part & Hrow & Hform & -> & Hpart & Hi).
  exists region_id, geometry, (collection_leaf collection), time_suffix, part.
  cbv zeta.
  assert (Hname : Py.startswith_sep
                    (layout_name (collection_leaf collection) band time_suffix
                       region_id part) = false).
  { rewrite <- artifact_filename_layout. apply artifact_filename_startswith_sep. }
  split; [done|]. split; [apply collection_leaf_last_segment|].
  split; [done|]. split; [done|]. split; [|split; [|done]].
  - intros [Ho1 Ho2] [Hr1 Hr2] Hr3. apply os_path_join_plain; try done.
    + by apply endswith_sep_plain.
    + by apply startswith_sep_relative.
    + by apply endswith_sep_plain.
  - intros Hr Habs.
    assert (Hs : Py.startswith_sep region_id = true).
    { destruct (Py.startswith_sep region_id) eqn:Hs; [done|].
      by apply startswith_sep_relative in Hs. }
    unfold Py.os_path_join at 2. rewrite Hs.
    unfold Py.os_path_join. rewrite Hname, (endswith_sep_plain _ Hr).
    destruct Hr as [Hr _]. by rewrite bool_decide_eq_false_2.
Qed.

Lemma C8_single_polygon_witness :
  exists region_id geometry leaf time_suffix part,
    let name := layout_name leaf "LC_Type1" time_suffix region_id part in
    (region_id, geometry) ∈ one_polygon_gdf
    /\ last_segment "MODIS/061/MCD12Q1" leaf
    /\ time_suffix_form time_suffix
    /\ "out/ES/MCD12Q1_LC_Type1_2021_ES.tif"
       = Py.os_path_join (Py.os_path_join "out" region_id) name
    /\ (plain_folder "out" -> plain_folder region_id -> relative region_id ->
        "out/ES/MCD12Q1_LC_Type1_2021_ES.tif"
        = "out" +:+ "/" +:+ region_id +:+ "/" +:+ name)
    /\ (plain_folder region_id -> ~ relative region_id ->
        "out/ES/MCD12Q1_LC_Type1_2021_ES.tif" = region_id +:+ "/" +:+ name)
    /\ (is_Some part <->
        is_multi geometry = true
        /\ is_download_write
             (EvCall (open_wb "out/ES/MCD12Q1_LC_Type1_2021_ES.tif")
                     (Returns "https://ee/download")) = true)
    /\ (forall i, part = Some i ->
          exists geoms, geometry = MultiPolygon geoms /\ i < length geoms).
Proof.
  apply (C8_artifacts_follow_the_layout all_fine one_polygon_gdf "MODIS/061/MCD12Q1"
           "LC_Type1" (Some [2021%Z]) "out" 500 "EPSG:4326" 5 "yearly" empty_world
           (EvCall (open_wb "out/ES/MCD12Q1_LC_Type1_2021_ES.tif")
                   (Returns "https://ee/download"))
           "out/ES/MCD12Q1_LC_Type1_2021_ES.tif").
  - vm_compute. in_list.
  - reflexivity.
Defined.

(** C8 as stated fails for a region id that starts with ['/']:
    [os.path.join] drops the output folder, so for the region id [/etc] the
    region folder is [/etc] and the artifact is opened for writing under it
    (here the directory of the name exists and the calls succeed); nothing
    but the output folder itself is created under [out]. *)
Lemma C8_absolute_region_id_leaves_the_output_folder :
  let w := {| fs := {[ "/etc" := Dir; "/etc/MCD12Q1_LC_Type1_2021_" := Dir ]};
              history := [] |} in
  let w' := snd (yearly_run all_fine [("/etc", SinglePolygon unit_square)] w) in
  omap written_path (history w') = ["/etc/MCD12Q1_LC_Type1_2021_/etc.tif"]
  /\ fs w' !! "/etc/MCD12Q1_LC_Type1_2021_/etc.tif" = Some (File true)
  /\ "/etc/MCD12Q1_LC_Type1_2021_/etc.tif"
     <> "out" +:+ "/" +:+ "/etc" +:+ "/"
          +:+ layout_name "MCD12Q1" "LC_Type1" "2021" "/etc" None
  /\ fs w' !! ("out" +:+ "/" +:+ "/etc" +:+ "/"
                 +:+ layout_name "MCD12Q1" "LC_Type1" "2021" "/etc" None) = None.
Proof. repeat split; vm_compute; congruence. Qed.

(** ** C7 *)

Section Ensures.
Context (I Q : World -> Prop).


End Ensures.

Section C7.
Context (oracle : Oracle) (collection band output_folder : string)
  (scale : Z) (crs : string) (region_code : string) (region_geometry : Geometry).







End C7.



Lemma fmt_02d_two_digits m : 1 <= m <= 12 -> String.length (Py.fmt_02d m) = 2.
Proof.
  intros Hm. do 13 (destruct m as [|m]; [try lia; reflexivity|]). lia.
Qed.






(** * The rest of the code *)

(** ** [get_filename_from_cd] *)

Example get_filename_from_cd_ex :
  get_filename_from_cd "attachment; filename=a.tif" = Some "a.tif"
  /\ get_filename_from_cd "attachment; filename=a b.tif; size=3"
     = Some "a b.tif; size=3"
  /\ get_filename_from_cd "inline" = None
  /\ get_filename_from_cd "" = None
  /\ get_filename_from_cd "filename=" = None
  /\ get_filename_from_cd (String "f" (String "i" "lename=" +:+ String Re.line_feed "filename=x"))
     = Some "x".
Proof. repeat split; reflexivity. Qed.

Lemma download_file_any_given oracle url directory f :
  download_file_any oracle url directory (Some f) = download_file oracle url directory f.
Proof. reflexivity. Qed.

Section FilenameFromHeader.
Import Re.

Lemma strip_prefix_Some p s r : strip_prefix p s = Some r -> s = p +:+ r.
Proof.
  revert s. induction p as [|a p IH]; intros [|b s]; simpl; try done.
  - by intros [= <-].
  - by intros [= <-].
  - case_bool_decide as Hab; [|done]. intros Hr. apply IH in Hr. by subst.
Qed.

Lemma strip_prefix_app p r : strip_prefix p (p +:+ r) = Some r.
Proof.
  induction p as [|a p IH]; [by destruct r|].
  change (String a p +:+ r) with (String a (p +:+ r)). simpl.
  by rewrite bool_decide_eq_true_2.
Qed.

Lemma upto_line_feed_split s :
  exists post, s = upto_line_feed s +:+ post
               /\ (post = "" \/ exists t, post = String line_feed t).
Proof.
  induction s as [|c s (post & Hs & Hpost)]; [exists ""; auto|].
  simpl. case_bool_decide as Hc.
  - subst c. exists (String line_feed s). eauto.
  - exists post. split; [|done].
    change (String c (upto_line_feed s) +:+ post)
      with (String c (upto_line_feed s +:+ post)). by rewrite <- Hs.
Qed.

Lemma upto_line_feed_single_line s : has_line_feed (upto_line_feed s) = false.
Proof.
  induction s as [|c s IH]; [done|]. simpl. case_bool_decide as Hc; [done|].
  simpl. by rewrite bool_decide_eq_false_2.
Qed.

Lemma upto_line_feed_app name post :
  has_line_feed name = false ->
  post = "" \/ (exists t, post = String line_feed t) ->
  upto_line_feed (name +:+ post) = name.
Proof.
  intros Hname Hpost. induction name as [|c name IH].
  - by destruct Hpost as [->|[t ->]].
  - change (String c name +:+ post) with (String c (name +:+ post)).
    simpl in *. apply orb_false_iff in Hname as [Hc Hname].
    rewrite Hc. by rewrite IH.
Qed.

(** Every item of the list that [re.findall] returns. *)
Lemma findall_filename_items skip s x :
  x ∈ findall_filename skip s ->
  x <> "" /\ has_line_feed x = false
  /\ exists pre post,
       s = pre +:+ "filename=" +:+ x +:+ post
       /\ (post = "" \/ exists t, post = String line_feed t).
Proof.
  revert skip. induction s as [|c s IH]; intros skip Hx.
  { by apply elem_of_nil in Hx. }
  assert (Hlater : forall k, x ∈ findall_filename k s ->
            x <> "" /\ has_line_feed x = false
            /\ exists pre post,
                 String c s = pre +:+ "filename=" +:+ x +:+ post
                 /\ (post = "" \/ exists t, post = String line_feed t)).
  { intros k Hk. destruct (IH k Hk) as (Hne & Hlf & pre & post & Hs & Hpost).
    repeat split; [done..|]. exists (String c pre), post. split; [|done].
    change (String c pre +:+ "filename=" +:+ x +:+ post)
      with (String c (pre +:+ "filename=" +:+ x +:+ post)). by rewrite <- Hs. }
  cbn [findall_filename] in Hx. destruct skip as [|k]; [|by eapply Hlater].
  destruct (strip_prefix "filename=" (String c s)) as [rest|] eqn:Hrest;
    [|by eapply Hlater].
  cbv zeta in Hx. case_bool_decide as Hname; [by eapply Hlater|].
  apply elem_of_cons in Hx as [->|Hx]; [|by eapply Hlater].
  repeat split; [done|apply upto_line_feed_single_line|].
  destruct (upto_line_feed_split rest) as (post & Hsplit & Hpost).
  exists "", post. split; [|done].
  apply strip_prefix_Some in Hrest. rewrite Hrest. simpl. by rewrite <- Hsplit.
Qed.

(** The marker cannot begin in [pre] and end in a marker that follows
    [pre]: its first letter is in no other place of it. *)
Lemma marker_does_not_straddle pre x :
  pre <> "" -> strip_prefix "filename=" pre = None ->
  strip_prefix "filename=" (pre +:+ "filename=" +:+ x) = None.
Proof.
  intros Hne Hpre.
  do 9 (destruct pre as [|? pre];
        [ try done; simpl in *; repeat case_bool_decide; done
        | change (String ?a pre +:+ ?r) with (String a (pre +:+ r));
          cbn [strip_prefix] in *; case_bool_decide; [|done] ]).
  done.
Qed.

Lemma occurs_false_cons p c s :
  occurs p (String c s) = false ->
  strip_prefix p (String c s) = None /\ occurs p s = false.
Proof.
  cbn [occurs]. by destruct (strip_prefix p (String c s)).
Qed.

End FilenameFromHeader.

(** X1: a name that [get_filename_from_cd] returns is not empty, has no line
    feed, and is in the header right behind a [filename=], up to the end
    of the line: quotes and parameters that follow on the line are part of
    the name. *)
Theorem get_filename_from_cd_sound content_disp name :
  get_filename_from_cd content_disp = Some name ->
  name <> "" /\ Re.has_line_feed name = false
  /\ exists pre post,
       content_disp = pre +:+ "filename=" +:+ name +:+ post
       /\ (post = "" \/ exists t, post = String Re.line_feed t).
Proof.
  unfold get_filename_from_cd. case_bool_decide; [done|].
  destruct (Re.findall_filename 0 content_disp) as [|x l] eqn:Hall; [done|].
  intros [= ->]. apply (findall_filename_items 0). rewrite Hall. by left.
Qed.

Lemma get_filename_from_cd_sound_witness :
  "a.tif; size=3" <> "" /\ Re.has_line_feed "a.tif; size=3" = false
  /\ exists pre post,
       "attachment; filename=a.tif; size=3"
       = pre +:+ "filename=" +:+ "a.tif; size=3" +:+ post
       /\ (post = "" \/ exists t, post = String Re.line_feed t).
Proof.
  apply (get_filename_from_cd_sound "attachment; filename=a.tif; size=3").
  reflexivity.
Defined.

(** X2: the first [filename=] of the header that is followed by a character
    of its line gives the name: when [filename=] does not occur in [pre],
    the header [pre filename=name post], with [name] on one line and [post]
    empty or a new line, yields [name]. *)
Theorem get_filename_from_cd_complete pre name post :
  Re.occurs "filename=" pre = false ->
  name <> "" -> Re.has_line_feed name = false ->
  post = "" \/ (exists t, post = String Re.line_feed t) ->
  get_filename_from_cd (pre +:+ "filename=" +:+ name +:+ post) = Some name.
Proof.
  intros Hpre Hne Hlf Hpost. unfold get_filename_from_cd.
  rewrite bool_decide_eq_false_2
    by (intros Hcd; by apply app_empty_r in Hcd).
  assert (exists l,
    Re.findall_filename 0 (pre +:+ "filename=" +:+ name +:+ post) = name :: l)
    as [l ->]; [|done].
  induction pre as [|c pre IH].
  - change ("" +:+ "filename=" +:+ name +:+ post)
      with (String "f" ("ilename=" +:+ name +:+ post)).
    cbn [Re.findall_filename].
    change (String "f" ("ilename=" +:+ name +:+ post))
      with ("filename=" +:+ name +:+ post).
    rewrite strip_prefix_app. cbv zeta.
    rewrite (upto_line_feed_app name post Hlf Hpost).
    rewrite bool_decide_eq_false_2 by done. eauto.
  - apply occurs_false_cons in Hpre as [Hhere Hpre].
    change (String c pre +:+ "filename=" +:+ name +:+ post)
      with (String c (pre +:+ "filename=" +:+ name +:+ post)).
    cbn [Re.findall_filename].
    change (String c (pre +:+ "filename=" +:+ name +:+ post))
      with (String c pre +:+ "filename=" +:+ name +:+ post).
    rewrite marker_does_not_straddle by done. by apply IH.
Qed.

Lemma get_filename_from_cd_complete_witness :
  get_filename_from_cd ("attachment; " +:+ "filename=" +:+ "a.tif" +:+ "")
  = Some "a.tif".
Proof.
  apply (get_filename_from_cd_complete "attachment; " "a.tif" ""); try done.
  by left.
Defined.

Lemma get_filename_from_cd_no_occurrence content_disp :
  Re.occurs "filename=" content_disp = false ->
  get_filename_from_cd content_disp = None.
Proof.
  intros Hocc. unfold get_filename_from_cd. case_bool_decide; [done|].
  assert (Re.findall_filename 0 content_disp = []) as ->; [|done].
  clear -Hocc. induction content_disp as [|c s IH]; [done|].
  apply occurs_false_cons in Hocc as [Hhere Hocc].
  cbn [Re.findall_filename]. rewrite Hhere. by apply IH.
Qed.

(** X3: a header in which [filename=] does not occur, the empty header
    among them, gives no name. *)
Theorem get_filename_from_cd_absent content_disp :
  Re.occurs "filename=" content_disp = false ->
  get_filename_from_cd content_disp = None.
Proof. apply get_filename_from_cd_no_occurrence. Qed.

Lemma get_filename_from_cd_absent_witness :
  get_filename_from_cd "inline; name=a.tif" = None.
Proof. apply get_filename_from_cd_absent. reflexivity. Defined.

(** ** [download_file] with or without a [filename] *)

Section DownloadFileAny.
Context (oracle : Oracle) (url directory : string).

(** How the part of [download_file] behind [requests.get] ends, once the
    name of the file is known and the file is not there. *)
Lemma transfer_outcome f w0 evs0 :
  let filepath := Py.os_path_join directory f in
  fs w0 !! filepath = None ->
  exists evs fs' r,
    (ext oracle (raise_for_status url) ;;
     create_file oracle (open_wb filepath) filepath ;;
     ext oracle (iter_content_write filepath) ;;
     set_node filepath (File true) ;;
     ret f)%py {| fs := fs w0; history := history w0 ++ evs0 |}
    = (r, {| fs := fs'; history := history w0 ++ evs |})
    /\ ((r = Ok f /\ fs' = <[filepath := File true]> (fs w0))
        \/ (exists e, r = Raise e
              /\ (fs' = fs w0 \/ fs' = <[filepath := File false]> (fs w0)))).
Proof.
  intros filepath Hnone.
  unfold create_file, bind, get_node, ret, ext, set_node, raise. cbn [fs history].
  destruct (oracle _ (raise_for_status url)) as [v2|e2]; cbn [fs history].
  2:{ eexists _, _, _. rewrite <- !app_assoc. split; [reflexivity|]. right; eauto. }
  rewrite Hnone.
  destruct (oracle _ (open_wb filepath)) as [v3|e3]; cbn [fs history].
  2:{ eexists _, _, _. rewrite <- !app_assoc. split; [reflexivity|]. right; eauto. }
  destruct (oracle _ (iter_content_write filepath)) as [v4|e4]; cbn [fs history].
  2:{ eexists _, _, _. rewrite <- !app_assoc. split; [reflexivity|]. right; eauto. }
  eexists _, _, _. rewrite <- !app_assoc. split; [reflexivity|].
  left. split; [done|]. by rewrite insert_insert_eq.
Qed.

(** The ways a call ends: with the name of a file that was there or is
    complete now, or with an exception and at most the file begun. *)
Lemma download_file_any_outcome filename w :
  exists evs fs' r,
    download_file_any oracle url directory filename w
    = (r, {| fs := fs'; history := history w ++ evs |})
    /\ ((exists f, r = Ok f /\ (forall g, filename = Some g -> f = g)
           /\ let filepath := Py.os_path_join directory f in
              (is_Some (fs w !! filepath) /\ fs' = fs w)
              \/ (fs w !! filepath = None
                  /\ fs' = <[filepath := File true]> (fs w)))
        \/ (exists e, r = Raise e
              /\ (fs' = fs w
                  \/ exists f, (forall g, filename = Some g -> f = g)
                       /\ fs w !! Py.os_path_join directory f = None
                       /\ fs' = <[Py.os_path_join directory f := File false]> (fs w)))).
Proof.
  assert (Hknown : forall f evs0,
    (forall g, filename = Some g -> f = g) ->
    exists evs fs' r,
      (e <- os_path_exists (Py.os_path_join directory f) ;;
       if e : bool then emit (EvPrint (Py.os_path_join directory f)) ;; ret f
       else
         ext oracle (raise_for_status url) ;;
         create_file oracle (open_wb (Py.os_path_join directory f))
           (Py.os_path_join directory f) ;;
         ext oracle (iter_content_write (Py.os_path_join directory f)) ;;
         set_node (Py.os_path_join directory f) (File true) ;;
         ret f)%py {| fs := fs w; history := history w ++ evs0 |}
      = (r, {| fs := fs'; history := history w ++ evs |})
      /\ ((exists f, r = Ok f /\ (forall g, filename = Some g -> f = g)
             /\ let filepath := Py.os_path_join directory f in
                (is_Some (fs w !! filepath) /\ fs' = fs w)
                \/ (fs w !! filepath = None
                    /\ fs' = <[filepath := File true]> (fs w)))
          \/ (exists e, r = Raise e
                /\ (fs' = fs w
                    \/ exists f, (forall g, filename = Some g -> f = g)
                         /\ fs w !! Py.os_path_join directory f = None
                         /\ fs' = <[Py.os_path_join directory f := File false]> (fs w))))).
  { intros f evs0 Hf.
    destruct (fs w !! Py.os_path_join directory f) as [n|] eqn:Hnode.
    - unfold os_path_exists at 1, bind at 1, get_node, ret at 1. cbn [fs history].
      unfold bind at 1, ret at 1. cbn [fs]. rewrite Hnode.
      rewrite bool_decide_eq_true_2 by eauto.
      unfold bind, emit, ret. cbn [fs history].
      eexists _, _, _. rewrite <- !app_assoc. split; [reflexivity|].
      left. exists f. repeat split; [done|]. left. rewrite Hnode. eauto.
    - destruct (transfer_outcome f w evs0 Hnode) as (evs & fs' & r & Hrun & Hcases).
      exists evs, fs', r. split.
      + unfold os_path_exists at 1, bind at 1, get_node, ret at 1. cbn [fs history].
        unfold bind at 1, ret at 1. cbn [fs]. rewrite Hnode.
        rewrite bool_decide_eq_false_2 by (by intros [? ?]). exact Hrun.
      + destruct Hcases as [[-> ->]|(e & -> & Hfs)].
        * left. exists f. repeat split; [done|]. by right.
        * right. exists e. split; [done|]. destruct Hfs as [->| ->]; [by left|].
          right. by exists f. }
  assert (Hfetch : exists evs fs' r,
    fetch oracle url directory filename w
    = (r, {| fs := fs'; history := history w ++ evs |})
    /\ ((exists f, r = Ok f /\ (forall g, filename = Some g -> f = g)
           /\ let filepath := Py.os_path_join directory f in
              (is_Some (fs w !! filepath) /\ fs' = fs w)
              \/ (fs w !! filepath = None
                  /\ fs' = <[filepath := File true]> (fs w)))
        \/ (exists e, r = Raise e
              /\ (fs' = fs w
                  \/ exists f, (forall g, filename = Some g -> f = g)
                       /\ fs w !! Py.os_path_join directory f = None
                       /\ fs' = <[Py.os_path_join directory f := File false]> (fs w))))).
  { unfold fetch. unfold bind at 1, ext at 1.
    destruct (oracle (history w) (requests_get url)) as [cd|e1].
    2:{ eexists _, _, _. split; [reflexivity|]. right; eauto. }
    unfold bind at 1. destruct filename as [g|].
    - unfold ret at 1. apply Hknown. by intros ? [= ->].
    - cbv zeta. destruct (Py.truthy (get_filename_from_cd cd)).
      + unfold ret at 1. by apply Hknown.
      + unfold raise. eexists _, _, _. split; [reflexivity|]. right; eauto. }
  destruct filename as [g|]; [|exact Hfetch]. unfold download_file_any.
  destruct (fs w !! Py.os_path_join directory g) as [n|] eqn:Hnode.
  - unfold os_path_exists, bind, get_node, ret, emit. cbn [fs history].
    rewrite Hnode. rewrite bool_decide_eq_true_2 by eauto. cbn [fs history].
    eexists _, _, _. split; [reflexivity|]. left. exists g.
    repeat split; [by intros ? [= ->]|]. left. rewrite Hnode. eauto.
  - destruct Hfetch as (evs & fs' & r & Hrun & Hcases). exists evs, fs', r.
    split; [|done].
    unfold os_path_exists at 1, bind at 1, get_node, ret at 1. cbn [fs history].
    unfold bind at 1, ret at 1. rewrite Hnode.
    rewrite bool_decide_eq_false_2 by (by intros [? ?]). exact Hrun.
Qed.

End DownloadFileAny.

(** X4: called without a [filename], [download_file] sends the request
    first; when the response header holds no [filename=], the call raises
    [ValueError] right after the request: the status of the response is
    not checked and no file is written. *)
Theorem download_file_without_name_raises oracle url directory content_disp w :
  oracle (history w) (requests_get url) = Returns content_disp ->
  Re.occurs "filename=" content_disp = false ->
  download_file_any oracle url directory None w
  = (Raise (ValueError
       "filename not provided and cannot infer from content-disposition"),
     {| fs := fs w;
        history := history w ++ [EvCall (requests_get url) (Returns content_disp)] |}).
Proof.
  intros Hget Hheader. unfold download_file_any, fetch.
  unfold bind at 1, ext at 1. rewrite Hget. unfold bind at 1. cbv zeta.
  by rewrite (get_filename_from_cd_no_occurrence _ Hheader).
Qed.

Lemma download_file_without_name_raises_witness :
  download_file_any (serves_header "inline") "https://host/a" "out" None empty_world
  = (Raise (ValueError
       "filename not provided and cannot infer from content-disposition"),
     {| fs := fs empty_world;
        history := history empty_world
                   ++ [EvCall (requests_get "https://host/a") (Returns "inline")] |}).
Proof.
  apply (download_file_without_name_raises
           (serves_header "inline") "https://host/a" "out" "inline" empty_world);
    reflexivity.
Defined.

(** X5: [download_file] deletes nothing and overwrites nothing: every path
    of the file system has after the call the node it had before,
    whatever the servers answer and however the call ends. *)
Theorem download_file_keeps_what_exists oracle url directory filename w :
  fs w ⊆ fs (download_file_any oracle url directory filename w).2.
Proof.
  destruct (download_file_any_outcome oracle url directory filename w)
    as (evs & fs' & r & -> & Hcases). cbn [snd fs].
  destruct Hcases as [(f & _ & _ & [[_ ->]|[Hnone ->]])
                     |(e & _ & [->|(f & _ & Hnone & ->)])];
    try done; by apply insert_subseteq.
Qed.

(** X6: when [download_file] returns, the file it names is in the
    directory: complete, or the node that was at that path before the call,
    and then the file system is as before.  A [filename] that was given is
    the one returned. *)
Theorem download_file_returns_an_existing_file
    oracle url directory filename w f w' :
  download_file_any oracle url directory filename w = (Ok f, w') ->
  (forall g, filename = Some g -> f = g)
  /\ (fs w' !! Py.os_path_join directory f = Some (File true)
      \/ (is_Some (fs w !! Py.os_path_join directory f) /\ fs w' = fs w)).
Proof.
  intros Hrun.
  destruct (download_file_any_outcome oracle url directory filename w)
    as (evs & fs' & r & Hrun' & Hcases).
  rewrite Hrun in Hrun'. injection Hrun' as <- ->. cbn [fs].
  destruct Hcases as [(f' & [= <-] & Hgiven & Hfs)|(e & [=] & _)].
  split; [done|]. destruct Hfs as [[Hsome ->]|[Hnone ->]]; [by right|].
  left. by rewrite lookup_insert_eq.
Qed.

Lemma download_file_returns_an_existing_file_witness :
  (forall g, @None string = Some g -> "a.tif" = g)
  /\ (fs (download_file_any (serves_header "attachment; filename=a.tif")
            "https://host/a" "out" None empty_world).2
        !! Py.os_path_join "out" "a.tif" = Some (File true)
      \/ (is_Some (fs empty_world !! Py.os_path_join "out" "a.tif")
          /\ fs (download_file_any (serves_header "attachment; filename=a.tif")
                   "https://host/a" "out" None empty_world).2
             = fs empty_world)).
Proof.
  apply (download_file_returns_an_existing_file
           (serves_header "attachment; filename=a.tif")
           "https://host/a" "out" None empty_world "a.tif").
  vm_compute. reflexivity.
Defined.

(** X7: a file that a failed transfer left behind is taken for a download
    by the next call: when [download_file] raised and the file is there,
    the file is incomplete, and a second call for the same [filename]
    returns the name without a request and leaves the file as it is. *)
Theorem download_file_takes_a_truncated_file
    oracle oracle' url url' directory f w e w' :
  download_file_any oracle url directory (Some f) w = (Raise e, w') ->
  is_Some (fs w' !! Py.os_path_join directory f) ->
  fs w' !! Py.os_path_join directory f = Some (File false)
  /\ download_file_any oracle' url' directory (Some f) w'
     = (Ok f, {| fs := fs w';
                 history := history w' ++ [EvPrint (Py.os_path_join directory f)] |}).
Proof.
  intros Hrun Hthere.
  destruct (download_file_any_outcome oracle url directory (Some f) w)
    as (evs & fs' & r & Hrun' & Hcases).
  rewrite Hrun in Hrun'. injection Hrun' as <- ->. cbn [fs history] in *.
  assert (Hnode : fs' !! Py.os_path_join directory f = Some (File false)).
  { destruct Hcases as [(f' & [=] & _)|(e' & _ & [->|(f' & Hgiven & Hnone & ->)])].
    - exfalso. revert Hrun Hthere. unfold download_file_any, os_path_exists.
      unfold bind at 1, get_node, ret at 1, bind at 1, ret at 1.
      destruct (fs w !! Py.os_path_join directory f) as [n|] eqn:Hnode.
      + rewrite bool_decide_eq_true_2 by eauto. unfold bind, emit, ret. done.
      + by intros _ [? ?].
    - rewrite <- (Hgiven f eq_refl). by rewrite lookup_insert_eq. }
  split; [done|].
  unfold download_file_any, os_path_exists, bind, get_node, ret, emit.
  cbn [fs history]. rewrite Hnode. by rewrite bool_decide_eq_true_2 by eauto.
Qed.

Lemma download_file_takes_a_truncated_file_witness :
  let w' := (download_file_any transfer_breaks "https://host/a" "out"
               (Some "a.tif") empty_world).2 in
  fs w' !! Py.os_path_join "out" "a.tif" = Some (File false)
  /\ download_file_any all_fine "https://host/a" "out" (Some "a.tif") w'
     = (Ok "a.tif",
        {| fs := fs w';
           history := history w' ++ [EvPrint (Py.os_path_join "out" "a.tif")] |}).
Proof.
  apply (download_file_takes_a_truncated_file
           transfer_breaks all_fine "https://host/a" "https://host/a" "out" "a.tif"
           empty_world (RequestException "connection broken")).
  - vm_compute. reflexivity.
  - vm_compute. eauto.
Defined.

(** ** [download_file_async] *)

Section AsyncRetry.
Context (out : Async.outside) (session url directory filename : string).

Let filepath := Py.os_path_join directory filename.

(** One attempt: one [GET]; the file is complete, or the attempt raised
    and left the file system as it was or with the file begun. *)
Lemma get_and_write_outcome (s : Async.state) :
  Eff.files s !! filepath <> Some Dir ->
  exists tr fs' r,
    Async.get_and_write out session url filepath filename s
    = (r, {| Eff.files := fs'; Eff.trace := Eff.trace s ++ tr |})
    /\ Async.requests_sent tr = 1 /\ Async.waits tr = []
    /\ ((r = Eff.Done (Some filename)
         /\ fs' = <[filepath := File true]> (Eff.files s)
         /\ exists t v, Eff.replies out t (Async.session_get session url) = Eff.Returned v)
        \/ (exists e, r = Eff.Thrown e
              /\ (fs' = Eff.files s \/ fs' = <[filepath := File false]> (Eff.files s)))).
Proof.
  intros Hnode.
  unfold Async.get_and_write, Eff.bind, Eff.call_, Eff.lift, Eff.ret,
    create_file, bind, get_node, ext, set_node, ret, raise.
  cbn [Eff.files Eff.trace fs history].
  destruct (Eff.replies out (Eff.trace s) _) as [v1|e1] eqn:Hget.
  2:{ eexists _, _, _. split; [reflexivity|]. repeat split. right. eauto. }
  cbn [Eff.files Eff.trace].
  destruct (Eff.replies out _ (Async.response_raise_for_status url)) as [v2|e2].
  2:{ eexists _, _, _. rewrite <- !app_assoc. split; [reflexivity|].
      repeat split. right. eauto. }
  cbn [Eff.files Eff.trace].
  destruct (Eff.files s !! filepath) as [[|c]|] eqn:Hfile; [done|..].
  all: cbn [fs history app map].
  all: destruct (Eff.inner_replies out _ (open_wb filepath)) as [v3|e3];
    cbn [fs history app map Eff.files Eff.trace id].
  all: try solve [eexists _, _, _; rewrite <- !app_assoc; split; [reflexivity|];
                  repeat split; right; eauto].
  all: destruct (Eff.replies out _ (Async.content_read_write filepath)) as [v4|e4];
    cbn [fs history app map Eff.files Eff.trace id].
  all: eexists _, _, _; rewrite <- ?app_assoc; (split; [reflexivity|]);
    (split; [done|]); (split; [done|]).
  all: try solve [right; eauto].
  all: left; rewrite ?insert_insert_eq; eauto.
Qed.

Lemma waits_app (t1 t2 : list Async.occurrence) :
  Async.waits (t1 ++ t2) = Async.waits t1 ++ Async.waits t2.
Proof. apply omap_app. Qed.

Lemma requests_sent_app (t1 t2 : list Async.occurrence) :
  Async.requests_sent (t1 ++ t2) = Async.requests_sent t1 + Async.requests_sent t2.
Proof. unfold Async.requests_sent. by rewrite filter_app, length_app. Qed.

Lemma retry_cons a l (s : Async.state) :
  Async.retry out session url filepath filename (a :: l) s
  = match Async.get_and_write out session url filepath filename s with
    | (Eff.Done (Some v), s') => (Eff.Done (Some v), s')
    | (Eff.Done None, s') => Async.retry out session url filepath filename l s'
    | (Eff.Thrown e, s') =>
        Async.retry out session url filepath filename l
          {| Eff.files := Eff.files s';
             Eff.trace := Eff.trace s' ++ [Eff.Sleep (backoff a)] |}
    end.
Proof.
  unfold Async.retry. cbn [Eff.for_return].
  unfold Eff.bind at 1, Eff.try_except at 1.
  by destruct (Async.get_and_write out session url filepath filename s)
    as [[[?|]|?] ?].
Qed.

(** The loop never raises.  [k] attempts fail, each followed by its wait;
    then an attempt succeeds, or the attempts are used up. *)
Lemma retry_outcome n a (s : Async.state) :
  Eff.files s !! filepath <> Some Dir ->
  exists k tr fs' r,
    Async.retry out session url filepath filename (seq a n) s
    = (Eff.Done r, {| Eff.files := fs'; Eff.trace := Eff.trace s ++ tr |})
    /\ Async.waits tr = map backoff (seq a k)
    /\ ((r = Some filename /\ k < n /\ Async.requests_sent tr = S k
         /\ fs' = <[filepath := File true]> (Eff.files s)
         /\ exists t v, Eff.replies out t (Async.session_get session url) = Eff.Returned v)
        \/ (r = None /\ k = n /\ Async.requests_sent tr = n
            /\ (fs' = Eff.files s \/ fs' = <[filepath := File false]> (Eff.files s)))).
Proof.
  revert a s. induction n as [|n IH]; intros a s Hnode.
  { exists 0, [], (Eff.files s), None. rewrite app_nil_r. destruct s.
    repeat split. right. repeat split. by left. }
  destruct (get_and_write_outcome s Hnode)
    as (tr & fs1 & r1 & Hrun & Hsent & Hwaits & Hcases).
  cbn [seq]. rewrite retry_cons, Hrun. destruct Hcases as [(-> & -> & Hreturned)|(e & -> & Hfs1)].
  { exists 0, tr, (<[filepath := File true]> (Eff.files s)), (Some filename).
    split; [reflexivity|]. split; [done|]. left. repeat split; [lia|done|done]. }
  cbn [Eff.files Eff.trace].
  set (s1 := {| Eff.files := fs1;
                Eff.trace := (Eff.trace s ++ tr) ++ [Eff.Sleep (backoff a)] |}).
  assert (Hnode1 : Eff.files s1 !! filepath <> Some Dir).
  { cbn [s1 Eff.files]. destruct Hfs1 as [->| ->]; [done|].
    by rewrite lookup_insert_eq. }
  destruct (IH (S a) s1 Hnode1) as (k & tr' & fs2 & r & Hloop & Hwaits' & Hcases).
  rewrite Hloop.
  exists (S k), (tr ++ [Eff.Sleep (backoff a)] ++ tr'), fs2, r.
  split; [by cbn [s1 Eff.trace]; rewrite <- !app_assoc|].
  split.
  { rewrite !waits_app, Hwaits, Hwaits'. reflexivity. }
  assert (Hsent' : Async.requests_sent (tr ++ [Eff.Sleep (backoff a)] ++ tr')
                   = S (Async.requests_sent tr')).
  { rewrite !requests_sent_app, Hsent. reflexivity. }
  cbn [s1 Eff.files] in Hcases.
  destruct Hcases as [(-> & Hk & Hsent2 & -> & Hreturned)
                     |(-> & -> & Hsent2 & Hfs2)].
  - left. repeat split; [lia|lia| |done].
    destruct Hfs1 as [->| ->]; [done|]. by rewrite insert_insert_eq.
  - right. repeat split; [lia|].
    destruct Hfs2 as [->| ->]; [done|]. right.
    destruct Hfs1 as [->| ->]; [done|]. by rewrite insert_insert_eq.
Qed.

End AsyncRetry.

Section AsyncCalls.
Context (out : Async.outside) (url directory : string).

Lemma state_eta (s : Async.state) :
  {| Eff.files := Eff.files s; Eff.trace := Eff.trace s ++ [] |} = s.
Proof. destruct s. cbn. by rewrite app_nil_r. Qed.

(** The function called with a [filename] and a session: the file is there
    and nothing happens, or the loop runs. *)
Lemma download_in_session_given f session max_attempts (s : Async.state) :
  let filepath := Py.os_path_join directory f in
  exists k tr fs' r,
    Async.download_in_session out url directory (Some f) session max_attempts s
    = (Eff.Done r, {| Eff.files := fs'; Eff.trace := Eff.trace s ++ tr |})
    /\ Async.waits tr = map backoff (seq 1 k)
    /\ ((is_Some (Eff.files s !! filepath)
         /\ r = Some f /\ tr = [] /\ fs' = Eff.files s /\ k = 0)
        \/ (Eff.files s !! filepath = None
            /\ ((r = Some f /\ k < Z.to_nat max_attempts
                 /\ Async.requests_sent tr = S k
                 /\ fs' = <[filepath := File true]> (Eff.files s)
                 /\ exists t v,
                      Eff.replies out t (Async.session_get session url)
                      = Eff.Returned v)
                \/ (r = None /\ k = Z.to_nat max_attempts
                    /\ Async.requests_sent tr = Z.to_nat max_attempts
                    /\ (fs' = Eff.files s
                        \/ fs' = <[filepath := File false]> (Eff.files s)))))).
Proof.
  intros filepath. unfold Async.download_in_session.
  unfold Eff.bind at 1, Eff.ret at 1. unfold Eff.bind at 1, Eff.lift at 1.
  unfold os_path_exists, bind, get_node, ret. cbn [fs history map].
  fold filepath. rewrite state_eta.
  destruct (Eff.files s !! filepath) as [n|] eqn:Hnode.
  - rewrite bool_decide_eq_true_2 by eauto. unfold Eff.ret.
    exists 0, [], (Eff.files s), (Some f). rewrite state_eta.
    split; [done|]. split; [done|]. left. eauto 10.
  - rewrite bool_decide_eq_false_2 by (by intros [? ?]).
    destruct (retry_outcome out session url directory f
                (Z.to_nat max_attempts) 1 s)
      as (k & tr & fs' & r & Hrun & Hwaits & Hcases).
    { fold filepath. by rewrite Hnode. }
    exists k, tr, fs', r. split; [exact Hrun|]. split; [done|]. right.
    split; [done|]. exact Hcases.
Qed.

End AsyncCalls.

(** X8: called with a [filename] that is not in the directory,
    [download_file_async] does not raise.  Some number [k] of attempts
    fail, the k-th followed by a wait of [0.32 * k]; then either a further
    attempt completes the file, within [max_attempts] requests, and the
    name is returned, or all [max_attempts] requests have failed, [None] is
    returned and the file is not complete. *)
Theorem download_file_async_retries
    out url directory f session max_attempts (s : Async.state) :
  let filepath := Py.os_path_join directory f in
  Eff.files s !! filepath = None ->
  exists k tr s' r,
    Async.download_file_async out url directory (Some f) (Some session) max_attempts s
    = (Eff.Done r, s')
    /\ Eff.trace s' = Eff.trace s ++ tr
    /\ Async.waits tr = map backoff (seq 1 k)
    /\ ((r = Some f /\ Eff.files s' !! filepath = Some (File true)
         /\ Async.requests_sent tr = S k /\ S k <= Z.to_nat max_attempts)
        \/ (r = None /\ Eff.files s' !! filepath <> Some (File true)
            /\ Async.requests_sent tr = k /\ k = Z.to_nat max_attempts)).
Proof.
  intros filepath Hnone. unfold Async.download_file_async.
  destruct (download_in_session_given out url directory f session max_attempts s)
    as (k & tr & fs' & r & Hrun & Hwaits & Hcases). fold filepath in Hcases.
  exists k, tr, {| Eff.files := fs'; Eff.trace := Eff.trace s ++ tr |}, r.
  split; [exact Hrun|]. split; [done|]. split; [done|]. cbn [Eff.files].
  destruct Hcases as [([n Hsome] & _)|(_ & Hloop)]; [congruence|].
  destruct Hloop as [(-> & Hk & Hsent & -> & _)|(-> & -> & Hsent & Hfs)].
  - left. rewrite lookup_insert_eq. repeat split; [done|lia].
  - right. repeat split; [|done].
    destruct Hfs as [->| ->]; [by rewrite Hnone|by rewrite lookup_insert_eq].
Qed.

Lemma download_file_async_retries_witness :
  exists k tr s' r,
    Async.download_file_async (Async.failing_first 2) "https://host/a" "out"
      (Some "a.tif") (Some "session") 5 Async.nothing
    = (Eff.Done r, s')
    /\ Eff.trace s' = Eff.trace Async.nothing ++ tr
    /\ Async.waits tr = map backoff (seq 1 k)
    /\ ((r = Some "a.tif"
         /\ Eff.files s' !! Py.os_path_join "out" "a.tif" = Some (File true)
         /\ Async.requests_sent tr = S k /\ S k <= Z.to_nat 5)
        \/ (r = None
            /\ Eff.files s' !! Py.os_path_join "out" "a.tif" <> Some (File true)
            /\ Async.requests_sent tr = k /\ k = Z.to_nat 5)).
Proof.
  apply (download_file_async_retries (Async.failing_first 2) "https://host/a"
           "out" "a.tif" "session" 5 Async.nothing).
  reflexivity.
Defined.

(** When every [GET] fails, the trace of the loop is known. *)
Lemma retry_all_refused out session url directory filename e attempts
    (s : Async.state) :
  (forall t, Eff.replies out t (Async.session_get session url) = Eff.Failed e) ->
  Async.retry out session url (Py.os_path_join directory filename) filename attempts s
  = (Eff.Done None,
     {| Eff.files := Eff.files s;
        Eff.trace := Eff.trace s
          ++ flat_map (fun attempt =>
               [Eff.Call (Async.session_get session url) (Eff.Failed e);
                Eff.Sleep (backoff attempt)]) attempts |}).
Proof.
  intros Hrefused. revert s. induction attempts as [|a l IH]; intros s.
  { cbn. by rewrite state_eta. }
  rewrite retry_cons. unfold Async.get_and_write.
  unfold Eff.bind at 1, Eff.call_ at 1. rewrite Hrefused.
  cbn [Eff.files Eff.trace]. rewrite IH. cbn [Eff.files Eff.trace flat_map].
  by rewrite <- !app_assoc.
Qed.

(** X9: when the server refuses every [GET] with the exception [e] and the
    file is not there, [download_file_async] returns [None] and leaves the
    file system as it is; what happens is, for each attempt from 1 to
    [max_attempts], the request and then a wait of [0.32 * attempt]: the
    function waits after the last failure as well. *)
Theorem download_file_async_gives_up
    out url directory f session max_attempts e (s : Async.state) :
  (forall t, Eff.replies out t (Async.session_get session url) = Eff.Failed e) ->
  Eff.files s !! Py.os_path_join directory f = None ->
  Async.download_file_async out url directory (Some f) (Some session) max_attempts s
  = (Eff.Done None,
     {| Eff.files := Eff.files s;
        Eff.trace := Eff.trace s
          ++ flat_map (fun attempt =>
               [Eff.Call (Async.session_get session url) (Eff.Failed e);
                Eff.Sleep (backoff attempt)])
             (seq 1 (Z.to_nat max_attempts)) |}).
Proof.
  intros Hrefused Hnone.
  unfold Async.download_file_async, Async.download_in_session.
  unfold Eff.bind at 1, Eff.ret at 1. unfold Eff.bind at 1, Eff.lift at 1.
  unfold os_path_exists, bind, get_node, ret. cbn [fs history map].
  rewrite state_eta, Hnone.
  rewrite bool_decide_eq_false_2 by (by intros [? ?]).
  by apply retry_all_refused.
Qed.

Lemma download_file_async_gives_up_witness :
  Async.download_file_async Async.refusing "https://host/a" "out"
    (Some "a.tif") (Some "session") 3 Async.nothing
  = (Eff.Done None,
     {| Eff.files := Eff.files Async.nothing;
        Eff.trace := Eff.trace Async.nothing
          ++ flat_map (fun attempt =>
               [Eff.Call (Async.session_get "session" "https://host/a")
                  (Eff.Failed (RequestException "refused"));
                Eff.Sleep (backoff attempt)])
             (seq 1 (Z.to_nat 3)) |}).
Proof.
  apply (download_file_async_gives_up Async.refusing "https://host/a" "out"
           "a.tif" "session" 3 (RequestException "refused") Async.nothing);
    reflexivity.
Defined.

(** X10: a download that succeeded is not repeated: when
    [download_file_async] returned a name for the given [filename], it is
    that [filename], and a further call for it, whatever the url, the
    session and the servers, returns it at once: no request, no wait, the
    file system as it is. *)
Theorem download_file_async_is_idempotent
    out out' url url' directory f session session' max_attempts max_attempts'
    (s s' : Async.state) g :
  Async.download_file_async out url directory (Some f) (Some session) max_attempts s
  = (Eff.Done (Some g), s') ->
  g = f
  /\ Async.download_file_async out' url' directory (Some f) (Some session')
       max_attempts' s'
     = (Eff.Done (Some f), s').
Proof.
  intros Hrun. unfold Async.download_file_async in *.
  destruct (download_in_session_given out url directory f session max_attempts s)
    as (k & tr & fs' & r & Hrun' & _ & Hcases).
  rewrite Hrun in Hrun'. injection Hrun' as <- ->.
  assert (Hthere : g = f /\ is_Some (fs' !! Py.os_path_join directory f)).
  { destruct Hcases as [(Hsome & [= ->] & _ & -> & _)
                       |(_ & [([= ->] & _ & _ & -> & _)|([=] & _)])].
    - done.
    - split; [done|]. rewrite lookup_insert_eq. eauto. }
  destruct Hthere as [-> Hthere]. split; [done|].
  destruct (download_in_session_given out' url' directory f session' max_attempts'
              {| Eff.files := fs'; Eff.trace := Eff.trace s ++ tr |})
    as (k' & tr' & fs'' & r' & -> & _ & Hcases').
  cbn [Eff.files Eff.trace] in Hcases'.
  destruct Hcases' as [(_ & -> & -> & -> & _)|(Hnone & _)].
  - by rewrite app_nil_r.
  - rewrite Hnone in Hthere. by destruct Hthere.
Qed.

Lemma download_file_async_is_idempotent_witness :
  "a.tif" = "a.tif"
  /\ Async.download_file_async Async.refusing "https://other/b" "out" (Some "a.tif")
       (Some "later") 1
       (Async.download_file_async Async.fine "https://host/a" "out"
          (Some "a.tif") (Some "session") 5 Async.nothing).2
     = (Eff.Done (Some "a.tif"),
        (Async.download_file_async Async.fine "https://host/a" "out"
           (Some "a.tif") (Some "session") 5 Async.nothing).2).
Proof.
  apply (download_file_async_is_idempotent Async.fine Async.refusing
           "https://host/a" "https://other/b" "out" "a.tif" "session" "later" 5 1
           Async.nothing).
  vm_compute. reflexivity.
Defined.

(** X11: called with a session, [download_file_async] raises only while it
    asks the server for the name of the file: then no [filename] was
    given, no [GET] was sent, nothing was waited for and the file system
    is as before.  An error of the [HEAD] request is not tried again. *)
Theorem download_file_async_raises_before_the_loop
    out url directory filename session max_attempts (s s' : Async.state) e :
  Async.download_file_async out url directory filename (Some session) max_attempts s
  = (Eff.Thrown e, s') ->
  filename = None
  /\ Eff.files s' = Eff.files s
  /\ exists tr, Eff.trace s' = Eff.trace s ++ tr
       /\ Async.requests_sent tr = 0 /\ Async.waits tr = [].
Proof.
  unfold Async.download_file_async. destruct filename as [f|].
  { intros Hrun.
    destruct (download_in_session_given out url directory f session max_attempts s)
      as (k & tr & fs' & r & Hrun' & _). by rewrite Hrun in Hrun'. }
  unfold Async.download_in_session. unfold Eff.bind at 1.
  unfold Async.head_filename. unfold Eff.bind at 1, Eff.call_ at 1.
  destruct (Eff.replies out (Eff.trace s) _) as [cd|e1].
  2:{ intros [= <- <-]. repeat split. eexists. by split. }
  unfold Eff.bind at 1, Eff.call_ at 1. cbn [Eff.files Eff.trace].
  destruct (Eff.replies out _ (Async.head_raise_for_status url)) as [v|e2].
  2:{ intros [= <- <-]. repeat split. eexists. rewrite <- app_assoc. by split. }
  cbv zeta. destruct (Py.truthy (get_filename_from_cd cd)).
  - unfold Eff.ret at 1. intros Hrun.
    destruct (download_in_session_given out url directory
                (default "" (get_filename_from_cd cd)) session max_attempts
                {| Eff.files := Eff.files s;
                   Eff.trace := (Eff.trace s
                     ++ [Eff.Call (Async.session_head session url) (Eff.Returned cd)])
                     ++ [Eff.Call (Async.head_raise_for_status url) (Eff.Returned v)] |})
      as (k & tr & fs' & r & Hrun' & _).
    unfold Async.download_in_session in Hrun'.
    unfold Eff.bind at 1, Eff.ret at 1 in Hrun'. by rewrite Hrun in Hrun'.
  - unfold Eff.throw. intros [= <- <-]. repeat split. eexists.
    rewrite <- app_assoc. by split.
Qed.

Lemma download_file_async_raises_before_the_loop_witness :
  @None string = None
  /\ Eff.files (Async.download_file_async Async.head_fails "https://host/a" "out"
                  None (Some "session") 5 Async.nothing).2
     = Eff.files Async.nothing
  /\ exists tr,
       Eff.trace (Async.download_file_async Async.head_fails "https://host/a" "out"
                    None (Some "session") 5 Async.nothing).2
       = Eff.trace Async.nothing ++ tr
       /\ Async.requests_sent tr = 0 /\ Async.waits tr = [].
Proof.
  apply (download_file_async_raises_before_the_loop Async.head_fails
           "https://host/a" "out" None "session" 5 Async.nothing _
           (RequestException "404")).
  vm_compute. reflexivity.
Defined.

(** ** What computations of the second part do to the state *)

Section EffLaws.
Context {call value note error : Type}.
Let occurrence := Eff.occurrence call value note error.
Let state := Eff.state call value note error.
Let E := Eff.E call value note error.
Context (out : Eff.outside call value note error).
Context (counted : occurrence -> bool) (allowed : string -> Prop).

Lemma eff_state_eta (s : state) :
  {| Eff.files := Eff.files s; Eff.trace := Eff.trace s ++ [] |} = s.
Proof. destruct s. cbn. by rewrite app_nil_r. Qed.

Lemma grows_same n (s : state) tr :
  length (filter counted tr) <= n ->
  Eff.grows counted allowed n s tr (Eff.files s).
Proof.
  intros Hn. repeat split; [done|done|]. intros p Hnone [x Hsome]. congruence.
Qed.

Lemma grows_trans n m (s : state) tr1 fs1 t1 tr2 fs2 :
  Eff.grows counted allowed n s tr1 fs1 ->
  Eff.grows counted allowed m {| Eff.files := fs1; Eff.trace := t1 |} tr2 fs2 ->
  Eff.grows counted allowed (n + m) s (tr1 ++ tr2) fs2.
Proof.
  intros (Hn & Hsub1 & Hnew1) (Hm & Hsub2 & Hnew2). cbn [Eff.files] in *.
  repeat split.
  - rewrite filter_app, length_app. lia.
  - by transitivity fs1.
  - intros p Hnone Hsome. destruct (fs1 !! p) as [x|] eqn:Hp.
    + apply Hnew1; [done|]. rewrite Hp. eauto.
    + by apply Hnew2.
Qed.

Lemma grows_insert n (s : state) tr p x :
  length (filter counted tr) <= n ->
  Eff.files s !! p = None -> allowed p ->
  Eff.grows counted allowed n s tr (<[p := x]> (Eff.files s)).
Proof.
  intros Hn Hnone Hp. repeat split; [done|by apply insert_subseteq|].
  intros q Hq Hsome. destruct (decide (q = p)) as [->|Hne]; [done|].
  rewrite lookup_insert_ne in Hsome by done. rewrite Hq in Hsome.
  by destruct Hsome.
Qed.

Lemma filter_uncounted o (l : list occurrence) :
  counted o = false -> filter counted (o :: l) = filter counted l.
Proof. intros Ho. apply filter_cons_False. rewrite Ho. by intros []. Qed.

Lemma bounded_weaken {A} n n' (m : E A) :
  n <= n' -> Eff.bounded counted allowed n m -> Eff.bounded counted allowed n' m.
Proof.
  intros Hle Hm s. destruct (Hm s) as (tr & fs' & r & Hrun & Hn & Hrest).
  exists tr, fs', r. split; [done|]. split; [lia|done].
Qed.

Lemma bounded_ret {A} (a : A) : Eff.bounded counted allowed 0 (Eff.ret a : E A).
Proof.
  intros s. exists [], (Eff.files s), (Eff.Done a). rewrite eff_state_eta.
  split; [done|]. by apply grows_same.
Qed.

Lemma bounded_throw {A} e : Eff.bounded counted allowed 0 (Eff.throw e : E A).
Proof.
  intros s. exists [], (Eff.files s), (Eff.Thrown e). rewrite eff_state_eta.
  split; [done|]. by apply grows_same.
Qed.

Lemma bounded_occur o :
  counted o = false -> Eff.bounded counted allowed 0 (Eff.occur o : E unit).
Proof.
  intros Ho s. exists [o], (Eff.files s), (Eff.Done tt). split; [done|].
  apply grows_same. by rewrite filter_uncounted.
Qed.

Lemma bounded_call c :
  Eff.bounded counted allowed 1 (Eff.call_ out c).
Proof.
  intros s. unfold Eff.call_.
  assert (Hone : forall r, length (filter counted [Eff.Call c r : occurrence]) <= 1).
  { intros r. by rewrite length_filter. }
  destruct (Eff.replies out (Eff.trace s) c) as [v|e];
    eexists _, _, _; (split; [reflexivity|]); by apply grows_same.
Qed.

Lemma bounded_call_0 c :
  (forall r, counted (Eff.Call c r) = false) ->
  Eff.bounded counted allowed 0 (Eff.call_ out c).
Proof.
  intros Hc s. unfold Eff.call_.
  assert (Hone : forall r, length (filter counted [Eff.Call c r : occurrence]) <= 0).
  { intros r. by rewrite filter_uncounted. }
  destruct (Eff.replies out (Eff.trace s) c) as [v|e];
    eexists _, _, _; (split; [reflexivity|]); by apply grows_same.
Qed.

Lemma bounded_bind {A B} n k (m : E A) (f : A -> E B) :
  Eff.bounded counted allowed n m ->
  (forall a, Eff.bounded counted allowed k (f a)) ->
  Eff.bounded counted allowed (n + k) (Eff.bind m f).
Proof.
  intros Hm Hf s. destruct (Hm s) as (tr & fs1 & r & Hrun & Hgrows).
  unfold Eff.bind. rewrite Hrun. destruct r as [a|e].
  - destruct (Hf a {| Eff.files := fs1; Eff.trace := Eff.trace s ++ tr |})
      as (tr2 & fs2 & r2 & Hrun2 & Hgrows2).
    exists (tr ++ tr2), fs2, r2. cbn [Eff.trace] in Hrun2.
    rewrite app_assoc. split; [done|]. by eapply grows_trans.
  - exists tr, fs1, (Eff.Thrown e). split; [done|].
    destruct Hgrows as (Hn & Hrest). split; [lia|done].
Qed.

Lemma bounded_try_except {A} n k (m : E A) (h : error -> E A) :
  Eff.bounded counted allowed n m ->
  (forall e, Eff.bounded counted allowed k (h e)) ->
  Eff.bounded counted allowed (n + k) (Eff.try_except m h).
Proof.
  intros Hm Hh s. destruct (Hm s) as (tr & fs1 & r & Hrun & Hgrows).
  unfold Eff.try_except. rewrite Hrun. destruct r as [a|e].
  - exists tr, fs1, (Eff.Done a). split; [done|].
    destruct Hgrows as (Hn & Hrest). split; [lia|done].
  - destruct (Hh e {| Eff.files := fs1; Eff.trace := Eff.trace s ++ tr |})
      as (tr2 & fs2 & r2 & Hrun2 & Hgrows2).
    exists (tr ++ tr2), fs2, r2. cbn [Eff.trace] in Hrun2.
    rewrite app_assoc. split; [done|]. by eapply grows_trans.
Qed.

Lemma bounded_for_each {A} (xs : list A) (body : A -> E unit) :
  (forall x, x ∈ xs -> Eff.bounded counted allowed 1 (body x)) ->
  Eff.bounded counted allowed (length xs) (Eff.for_each xs body).
Proof.
  induction xs as [|x xs IH]; intros Hbody; [apply bounded_ret|].
  cbn [Eff.for_each length]. apply (bounded_bind 1 (length xs)).
  - apply Hbody. by left.
  - intros _. apply IH. intros y Hy. apply Hbody. by right.
Qed.

(** Code of the first part that only adds to the history and only adds
    allowed paths does the same when it runs inside. *)
Lemma bounded_lift {A} inject (m : Oracle -> M A) :
  (forall ev, counted (Eff.Inner ev) = false) ->
  (forall oracle w, exists evs fs' r,
     m oracle w = (r, {| fs := fs'; history := history w ++ evs |})
     /\ fs w ⊆ fs'
     /\ forall p, fs w !! p = None -> is_Some (fs' !! p) -> allowed p) ->
  Eff.bounded counted allowed 0 (Eff.lift out inject m).
Proof.
  intros Hinner Hm s. unfold Eff.lift.
  match goal with |- context [m ?o ?w] =>
    destruct (Hm o w) as (evs & fs' & r & -> & Hsub & Hnew) end.
  cbn [fs history app] in *. eexists _, _, _. split; [reflexivity|].
  repeat split; [|done|done].
  enough (filter counted (map Eff.Inner evs : list occurrence) = []) as Hnil.
  { unfold occurrence in Hnil. by rewrite Hnil. }
  clear -Hinner. induction evs as [|ev evs IH]; [done|].
  cbn [map]. by rewrite filter_uncounted.
Qed.

Lemma lift_os_path_exists inject p (s : state) :
  Eff.lift out inject (fun _ => os_path_exists p) s
  = (Eff.Done (bool_decide (is_Some (Eff.files s !! p))), s).
Proof.
  unfold Eff.lift, os_path_exists, bind, get_node, ret. cbn [fs history map].
  by rewrite eff_state_eta.
Qed.

Lemma bounded_if_exists {A} inject p n (m1 m2 : E A) :
  Eff.bounded counted allowed n m1 ->
  Eff.bounded counted allowed n m2 ->
  Eff.bounded counted allowed n
    (Eff.bind (Eff.lift out inject (fun _ => os_path_exists p))
       (fun e : bool => if e then m1 else m2)).
Proof.
  intros H1 H2 s. unfold Eff.bind. rewrite lift_os_path_exists.
  destruct (bool_decide _); [apply H1|apply H2].
Qed.

Section Emits.
Context (P : occurrence -> Prop).

Lemma emits_ret {A} (a : A) : Eff.emits P (Eff.ret a : E A).
Proof. intros s. exists [], s, (Eff.Done a). by rewrite app_nil_r. Qed.

Lemma emits_throw {A} e : Eff.emits P (Eff.throw e : E A).
Proof. intros s. exists [], s, (Eff.Thrown e). by rewrite app_nil_r. Qed.

Lemma emits_occur o : P o -> Eff.emits P (Eff.occur o : E unit).
Proof. intros Ho s. eexists [o], _, _. split; [done|]. split; [done|]. by constructor. Qed.

Lemma emits_call c : (forall r, P (Eff.Call c r)) -> Eff.emits P (Eff.call_ out c).
Proof.
  intros Hc s. unfold Eff.call_.
  destruct (Eff.replies out (Eff.trace s) c) as [v|e] eqn:Hr;
    eexists [_], _, _; (split; [reflexivity|]); (split; [done|]);
    constructor; [|done| |done]; rewrite <- Hr; apply Hc.
Qed.

Lemma emits_bind {A B} (m : E A) (f : A -> E B) :
  Eff.emits P m -> (forall a, Eff.emits P (f a)) -> Eff.emits P (Eff.bind m f).
Proof.
  intros Hm Hf s. destruct (Hm s) as (tr & s1 & r & Hrun & Htr & HP).
  unfold Eff.bind. rewrite Hrun. destruct r as [a|e].
  - destruct (Hf a s1) as (tr2 & s2 & r2 & Hrun2 & Htr2 & HP2).
    exists (tr ++ tr2), s2, r2. split; [done|].
    split; [by rewrite Htr2, Htr, app_assoc|by apply Forall_app].
  - by exists tr, s1, (Eff.Thrown e).
Qed.

Lemma emits_try_except {A} (m : E A) (h : error -> E A) :
  Eff.emits P m -> (forall e, Eff.emits P (h e)) -> Eff.emits P (Eff.try_except m h).
Proof.
  intros Hm Hh s. destruct (Hm s) as (tr & s1 & r & Hrun & Htr & HP).
  unfold Eff.try_except. rewrite Hrun. destruct r as [a|e].
  - by exists tr, s1, (Eff.Done a).
  - destruct (Hh e s1) as (tr2 & s2 & r2 & Hrun2 & Htr2 & HP2).
    exists (tr ++ tr2), s2, r2. split; [done|].
    split; [by rewrite Htr2, Htr, app_assoc|by apply Forall_app].
Qed.

Lemma emits_for_each {A} (xs : list A) (body : A -> E unit) :
  (forall x, Eff.emits P (body x)) -> Eff.emits P (Eff.for_each xs body).
Proof.
  intros Hbody. induction xs as [|x xs IH]; [apply emits_ret|].
  cbn [Eff.for_each]. apply emits_bind; [apply Hbody|done].
Qed.

(** Code of the first part whose events all satisfy [P] once inside. *)
Lemma emits_lift {A} inject (m : Oracle -> M A) :
  (forall oracle, inv (extends (fun ev => P (Eff.Inner ev)) []) (m oracle)) ->
  Eff.emits P (Eff.lift out inject m).
Proof.
  intros Hm s. unfold Eff.lift.
  match goal with |- context [m ?o ?w] =>
    destruct (Hm o w) as (evs & Hh & Hevs); [by exists []|];
    destruct (m o w) as [r w'] end.
  cbn [snd app] in Hh. eexists (map Eff.Inner evs), _, _.
  split; [reflexivity|]. cbn [Eff.trace]. rewrite Hh. split; [done|].
  by apply Forall_fmap.
Qed.

End Emits.

Lemma emits_try_finally {A} P (m : E A) (fin : E unit) :
  Eff.emits P m -> Eff.emits P fin -> Eff.emits P (Eff.try_finally m fin).
Proof.
  intros Hm Hfin s. destruct (Hm s) as (tr & s1 & r & Hrun & Htr & HP).
  unfold Eff.try_finally. rewrite Hrun.
  destruct (Hfin s1) as (tr2 & s2 & r2 & Hrun2 & Htr2 & HP2). rewrite Hrun2.
  assert (Eff.trace s2 = Eff.trace s ++ tr ++ tr2 /\ Forall P (tr ++ tr2)) as [? ?].
  { split; [by rewrite Htr2, Htr, app_assoc|by apply Forall_app]. }
  destruct r2 as [[]|e2]; by eexists (tr ++ tr2), s2, _.
Qed.

Section Yields.

Lemma yields_weaken {A} (R R' : Eff.outcome error A -> list occurrence -> Prop)
    (m : E A) :
  (forall r tr, R r tr -> R' r tr) -> Eff.yields R m -> Eff.yields R' m.
Proof.
  intros HR Hm s. destruct (Hm s) as (tr & s1 & r & Hrun & Htr & Hr).
  exists tr, s1, r. auto.
Qed.

Lemma yields_emits {A} P (m : E A) :
  Eff.emits P m -> Eff.yields (fun _ tr => Forall P tr) m.
Proof. done. Qed.

Lemma yields_ret {A} (R : Eff.outcome error A -> list occurrence -> Prop) a :
  R (Eff.Done a) [] -> Eff.yields R (Eff.ret a).
Proof. intros HR s. exists [], s, (Eff.Done a). by rewrite app_nil_r. Qed.

Lemma yields_occur (R : Eff.outcome error unit -> list occurrence -> Prop) o :
  R (Eff.Done tt) [o] -> Eff.yields R (Eff.occur o).
Proof. intros HR s. by eexists [o], _, _. Qed.

Lemma yields_bind {A B} (R1 : Eff.outcome error A -> list occurrence -> Prop)
    (R2 : A -> Eff.outcome error B -> list occurrence -> Prop)
    (R : Eff.outcome error B -> list occurrence -> Prop) (m : E A) (f : A -> E B) :
  Eff.yields R1 m ->
  (forall a, Eff.yields (R2 a) (f a)) ->
  (forall a r tr1 tr2, R1 (Eff.Done a) tr1 -> R2 a r tr2 -> R r (tr1 ++ tr2)) ->
  (forall e tr1, R1 (Eff.Thrown e) tr1 -> R (Eff.Thrown e) tr1) ->
  Eff.yields R (Eff.bind m f).
Proof.
  intros Hm Hf Hdone Hthrown s.
  destruct (Hm s) as (tr & s1 & r & Hrun & Htr & Hr).
  unfold Eff.bind. rewrite Hrun. destruct r as [a|e].
  - destruct (Hf a s1) as (tr2 & s2 & r2 & Hrun2 & Htr2 & Hr2).
    exists (tr ++ tr2), s2, r2. split; [done|].
    split; [by rewrite Htr2, Htr, app_assoc|by eapply Hdone].
  - exists tr, s1, (Eff.Thrown e). auto.
Qed.

Lemma yields_try_except {A} (R1 : Eff.outcome error A -> list occurrence -> Prop)
    (R2 : error -> Eff.outcome error A -> list occurrence -> Prop)
    (R : Eff.outcome error A -> list occurrence -> Prop) (m : E A) (h : error -> E A) :
  Eff.yields R1 m ->
  (forall e, Eff.yields (R2 e) (h e)) ->
  (forall a tr1, R1 (Eff.Done a) tr1 -> R (Eff.Done a) tr1) ->
  (forall e r tr1 tr2, R1 (Eff.Thrown e) tr1 -> R2 e r tr2 -> R r (tr1 ++ tr2)) ->
  Eff.yields R (Eff.try_except m h).
Proof.
  intros Hm Hh Hdone Hthrown s.
  destruct (Hm s) as (tr & s1 & r & Hrun & Htr & Hr).
  unfold Eff.try_except. rewrite Hrun. destruct r as [a|e].
  - exists tr, s1, (Eff.Done a). auto.
  - destruct (Hh e s1) as (tr2 & s2 & r2 & Hrun2 & Htr2 & Hr2).
    exists (tr ++ tr2), s2, r2. split; [done|].
    split; [by rewrite Htr2, Htr, app_assoc|by eapply Hthrown].
Qed.

Lemma yields_if_exists {A} (R : Eff.outcome error A -> list occurrence -> Prop)
    inject p (m1 m2 : E A) :
  Eff.yields R m1 -> Eff.yields R m2 ->
  Eff.yields R
    (Eff.bind (Eff.lift out inject (fun _ => os_path_exists p))
       (fun e : bool => if e then m1 else m2)).
Proof.
  intros H1 H2 s. unfold Eff.bind. rewrite lift_os_path_exists.
  destruct (bool_decide _); [apply H1|apply H2].
Qed.

End Yields.

Lemma safe_ret {A} (a : A) : Eff.safe (Eff.ret a : E A).
Proof. intros s. by eexists _, _. Qed.

Lemma safe_occur o : Eff.safe (Eff.occur o : E unit).
Proof. intros s. by eexists _, _. Qed.

Lemma safe_bind {A B} (m : E A) (f : A -> E B) :
  Eff.safe m -> (forall a, Eff.safe (f a)) -> Eff.safe (Eff.bind m f).
Proof.
  intros Hm Hf s. destruct (Hm s) as (a & s1 & Hrun). unfold Eff.bind.
  rewrite Hrun. apply Hf.
Qed.

Lemma safe_try_except {A} (m : E A) (h : error -> E A) :
  (forall e, Eff.safe (h e)) -> Eff.safe (Eff.try_except m h).
Proof.
  intros Hh s. unfold Eff.try_except. destruct (m s) as [[a|e] s1].
  - by eexists _, _.
  - apply Hh.
Qed.

Lemma safe_for_each {A} (xs : list A) (body : A -> E unit) :
  (forall x, Eff.safe (body x)) -> Eff.safe (Eff.for_each xs body).
Proof.
  intros Hbody. induction xs as [|x xs IH]; [apply safe_ret|].
  cbn [Eff.for_each]. apply safe_bind; [apply Hbody|done].
Qed.

End EffLaws.

(** What [makedirs] and [download_file] do to a world. *)
Lemma makedirs_grows oracle path w :
  exists evs fs' r,
    makedirs oracle path w = (r, {| fs := fs'; history := history w ++ evs |})
    /\ fs w ⊆ fs'
    /\ forall p, fs w !! p = None -> is_Some (fs' !! p) -> p = path.
Proof.
  unfold makedirs, bind, get_node, ext, set_node, ret, raise.
  destruct (fs w !! path) as [[|c]|] eqn:Hnode.
  - exists [], (fs w), (Ok tt). rewrite app_nil_r. destruct w.
    repeat split; [done|]. intros p Hnone [x Hsome]. cbn in *. congruence.
  - exists [], (fs w), (Raise (FileExistsError path)). rewrite app_nil_r. destruct w.
    repeat split; [done|]. intros p Hnone [x Hsome]. cbn in *. congruence.
  - destruct (oracle (history w) (os_makedirs path)) as [v|e]; cbn [fs history].
    + eexists _, _, _. split; [reflexivity|]. split; [by apply insert_subseteq|].
      intros p Hnone Hsome. destruct (decide (p = path)) as [->|Hne]; [done|].
      rewrite lookup_insert_ne in Hsome by done. rewrite Hnone in Hsome.
      by destruct Hsome.
    + eexists _, _, _. split; [reflexivity|]. split; [done|].
      intros p Hnone [x Hsome]. congruence.
Qed.

Lemma download_file_grows oracle url directory f w :
  exists evs fs' r,
    download_file oracle url directory f w
    = (r, {| fs := fs'; history := history w ++ evs |})
    /\ fs w ⊆ fs'
    /\ forall p, fs w !! p = None -> is_Some (fs' !! p) ->
         p = Py.os_path_join directory f.
Proof.
  destruct (download_file_any_outcome oracle url directory (Some f) w)
    as (evs & fs' & r & Hrun & Hcases).
  exists evs, fs', r. split; [exact Hrun|].
  assert (Hins : forall x,
    fs w !! Py.os_path_join directory f = None ->
    fs w ⊆ <[Py.os_path_join directory f := x]> (fs w)
    /\ forall p, fs w !! p = None ->
         is_Some (<[Py.os_path_join directory f := x]> (fs w) !! p) ->
         p = Py.os_path_join directory f).
  { intros x Hnone. split; [by apply insert_subseteq|]. intros p Hp Hsome.
    destruct (decide (p = Py.os_path_join directory f)) as [->|Hne]; [done|].
    rewrite lookup_insert_ne in Hsome by done. rewrite Hp in Hsome.
    by destruct Hsome. }
  assert (Hsame : fs w ⊆ fs w
    /\ forall p, fs w !! p = None -> is_Some (fs w !! p) ->
         p = Py.os_path_join directory f).
  { split; [done|]. intros p Hnone [x Hsome]. congruence. }
  destruct Hcases as [(g & _ & Hg & [[_ ->]|[Hnone ->]])
                     |(e & _ & [->|(g & Hg & Hnone & ->)])]; try done.
  - rewrite (Hg f eq_refl) in *. by apply Hins.
  - rewrite (Hg f eq_refl) in *. by apply Hins.
Qed.

(** ** [download_gee_data_single_image] *)

Section SingleImageRun.
Context (out : SingleImage.outside) (gdf : list (string * Polygon)).
Context (image_id band output_folder : string) (scale : Z) (crs : string).
Context (max_workers : Z).

Let region_folder (row : string * Polygon) : string :=
  Py.os_path_join output_folder (fst row).
Let target (row : string * Polygon) : string :=
  Py.os_path_join (region_folder row) (SingleImage.filename_of image_id band (fst row)).

(** The paths that a run may create. *)
Let allowed (p : string) : Prop :=
  p = output_folder
  \/ exists row, row ∈ gdf /\ (p = region_folder row \/ p = target row).

Lemma url_request_not_inside (ev : event) :
  SingleImage.is_url_request (Eff.Inner ev) = false.
Proof. done. Qed.

Lemma retrieve_image_bounded :
  Eff.bounded SingleImage.is_url_request allowed 0
    (SingleImage.retrieve_image out image_id band scale crs).
Proof.
  unfold SingleImage.retrieve_image.
  apply (bounded_bind _ _ 0 0); [by apply bounded_call_0|intros _].
  apply (bounded_bind _ _ 0 0); [by apply bounded_call_0|intros _].
  apply (bounded_bind _ _ 0 0); [by apply bounded_call_0|intros _].
  apply bounded_ret.
Qed.

Lemma process_region_bounded row :
  row ∈ gdf ->
  Eff.bounded SingleImage.is_url_request allowed 1
    (SingleImage.process_region out image_id band output_folder scale crs
       (fst row) (snd row)).
Proof.
  intros Hrow. unfold SingleImage.process_region. cbv zeta.
  apply (bounded_bind _ _ 0 1).
  { apply bounded_lift; [done|]. intros oracle w.
    destruct (makedirs_grows oracle (Py.os_path_join output_folder (fst row)) w)
      as (evs & fs' & r & Hrun & Hsub & Hnew).
    exists evs, fs', r. repeat split; [done..|]. intros p Hp Hsome.
    right. exists row. split; [done|]. left. by apply Hnew. }
  intros _. apply bounded_if_exists.
  { apply (bounded_weaken _ _ 0 1); [lia|]. by apply bounded_occur. }
  apply (bounded_bind _ _ 0 1).
  { apply (bounded_try_except _ _ 0 0).
    - apply (bounded_bind _ _ 0 0); [apply retrieve_image_bounded|].
      intros img. apply bounded_ret.
    - intros e. apply (bounded_bind _ _ 0 0); [by apply bounded_occur|].
      intros _. apply bounded_ret. }
  intros [img|]; [|apply (bounded_weaken _ _ 0 1); [lia|apply bounded_ret]].
  apply (bounded_try_except _ _ 1 0); [|intros e; by apply bounded_occur].
  unfold SingleImage.download_region. cbv zeta.
  apply (bounded_bind _ _ 1 0); [apply bounded_call|intros download_url].
  apply (bounded_bind _ _ 0 0); [|intros _; apply bounded_ret].
  apply bounded_lift; [done|]. intros oracle w.
  destruct (download_file_grows oracle download_url
              (Py.os_path_join output_folder (fst row))
              (SingleImage.filename_of image_id band (fst row)) w)
    as (evs & fs' & r & Hrun & Hsub & Hnew).
  exists evs, fs', r. repeat split; [done..|]. intros p Hp Hsome.
  right. exists row. split; [done|]. right. by apply Hnew.
Qed.

Lemma run_task_bounded row :
  row ∈ gdf ->
  Eff.bounded SingleImage.is_url_request allowed 1
    (SingleImage.run_task out image_id band output_folder scale crs row).
Proof.
  intros Hrow. unfold SingleImage.run_task.
  apply (bounded_try_except _ _ 1 0); [by apply process_region_bounded|].
  intros e. by apply bounded_occur.
Qed.

Lemma single_image_bounded :
  Eff.bounded SingleImage.is_url_request allowed (length gdf)
    (SingleImage.download_gee_data_single_image out gdf image_id band
       output_folder scale crs max_workers).
Proof.
  unfold SingleImage.download_gee_data_single_image.
  apply (bounded_weaken _ _ (0 + (0 + (length gdf + 0)))); [lia|].
  apply bounded_bind.
  { apply bounded_lift; [done|]. intros oracle w.
    destruct (makedirs_grows oracle output_folder w)
      as (evs & fs' & r & Hrun & Hsub & Hnew).
    exists evs, fs', r. repeat split; [done..|]. intros p Hp Hsome.
    left. by apply Hnew. }
  intros _. apply bounded_bind.
  { destruct (decide _); [apply bounded_throw|apply bounded_ret]. }
  intros _. apply bounded_bind.
  { apply bounded_for_each. intros row Hrow. by apply run_task_bounded. }
  intros _. by apply bounded_occur.
Qed.

Lemma run_task_safe row :
  Eff.safe (SingleImage.run_task out image_id band output_folder scale crs row).
Proof. apply safe_try_except. intros e. apply safe_occur. Qed.

(** A region whose file is there: one message. *)
Lemma run_task_skips row (s : SingleImage.state) :
  Eff.files s !! region_folder row = Some Dir ->
  is_Some (Eff.files s !! target row) ->
  SingleImage.run_task out image_id band output_folder scale crs row s
  = (Eff.Done tt,
     {| Eff.files := Eff.files s;
        Eff.trace := Eff.trace s
          ++ [Eff.Note (SingleImage.FileExistsSkipping (target row))] |}).
Proof.
  intros Hdir Hfile.
  unfold SingleImage.run_task, Eff.try_except, SingleImage.process_region.
  cbv zeta. unfold Eff.bind at 1, Eff.lift at 1.
  unfold makedirs, bind, get_node, ret. cbn [fs history].
  fold (region_folder row). rewrite Hdir. cbn [map history fs].
  rewrite eff_state_eta. unfold Eff.bind at 1. rewrite lift_os_path_exists.
  fold (target row). by rewrite bool_decide_eq_true_2.
Qed.

Lemma for_each_skips rows (s : SingleImage.state) :
  Forall (fun row => Eff.files s !! region_folder row = Some Dir
                     /\ is_Some (Eff.files s !! target row)) rows ->
  Eff.for_each rows
    (SingleImage.run_task out image_id band output_folder scale crs) s
  = (Eff.Done tt,
     {| Eff.files := Eff.files s;
        Eff.trace := Eff.trace s
          ++ map (fun row => Eff.Note (SingleImage.FileExistsSkipping (target row)))
               rows |}).
Proof.
  revert s. induction rows as [|row rows IH]; intros s Hrows.
  { cbn. by rewrite eff_state_eta. }
  apply Forall_cons in Hrows as [[Hdir Hfile] Hrows].
  cbn [Eff.for_each map]. unfold Eff.bind at 1.
  rewrite run_task_skips by done. rewrite IH by done.
  cbn [Eff.files Eff.trace]. by rewrite <- app_assoc.
Qed.

End SingleImageRun.

(** X12: a run of [download_gee_data_single_image] over regions whose files
    are all there sends nothing: it asks neither Earth Engine nor the
    network, prints one message per row and then [Processing complete.],
    and leaves the file system as it is.  The messages of the rows come
    from the workers of the pool, so they are given up to their order.  The
    file is looked for before Earth Engine is asked for the image. *)
Theorem single_image_rerun_only_prints
    out gdf image_id band output_folder scale crs max_workers
    (s : SingleImage.state) :
  (0 < max_workers)%Z ->
  Eff.files s !! output_folder = Some Dir ->
  Forall (fun row : string * Polygon =>
            Eff.files s !! Py.os_path_join output_folder (fst row) = Some Dir
            /\ is_Some (Eff.files s
                 !! Py.os_path_join (Py.os_path_join output_folder (fst row))
                      (SingleImage.filename_of image_id band (fst row)))) gdf ->
  exists printed,
    SingleImage.download_gee_data_single_image out gdf image_id band output_folder
      scale crs max_workers s
    = (Eff.Done tt,
       {| Eff.files := Eff.files s;
          Eff.trace := Eff.trace s ++ printed
                       ++ [Eff.Note SingleImage.ProcessingComplete] |})
    /\ printed
       ≡ₚ map (fun row : string * Polygon =>
                 Eff.Note (SingleImage.FileExistsSkipping
                   (Py.os_path_join (Py.os_path_join output_folder (fst row))
                      (SingleImage.filename_of image_id band (fst row))))) gdf
    /\ SingleImage.remote_calls printed = [].
Proof.
  intros Hworkers Hout Hrows. eexists. split; [|split; [reflexivity|]].
  - unfold SingleImage.download_gee_data_single_image.
    unfold Eff.bind at 1, Eff.lift at 1. unfold makedirs, bind, get_node, ret.
    cbn [fs history]. rewrite Hout. cbn [map fs history]. rewrite eff_state_eta.
    unfold Eff.bind at 1. destruct (decide (max_workers <= 0)%Z) as [?|_]; [lia|].
    unfold Eff.ret at 1. unfold Eff.bind at 1.
    rewrite (for_each_skips out image_id band output_folder scale crs gdf s Hrows).
    unfold Eff.note_, Eff.occur. cbn [Eff.files Eff.trace]. by rewrite <- app_assoc.
  - clear. induction gdf as [|row rows IH]; [done|]. exact IH.
Qed.

Lemma single_image_rerun_only_prints_witness :
  let s := (SingleImage.download_gee_data_single_image SingleImage.fine
              SingleImage.two_regions "MODIS/061/MCD12Q1" "LC_Type1" "out"
              500 "EPSG:4326" 5 SingleImage.nothing).2 in
  exists printed,
    SingleImage.download_gee_data_single_image SingleImage.no_such_image
      SingleImage.two_regions "MODIS/061/MCD12Q1" "LC_Type1" "out" 500 "EPSG:4326" 5 s
    = (Eff.Done tt,
       {| Eff.files := Eff.files s;
          Eff.trace := Eff.trace s ++ printed
                       ++ [Eff.Note SingleImage.ProcessingComplete] |})
    /\ printed
       ≡ₚ map (fun row : string * Polygon =>
                 Eff.Note (SingleImage.FileExistsSkipping
                   (Py.os_path_join (Py.os_path_join "out" (fst row))
                      (SingleImage.filename_of "MODIS/061/MCD12Q1" "LC_Type1"
                         (fst row))))) SingleImage.two_regions
    /\ SingleImage.remote_calls printed = [].
Proof.
  apply (single_image_rerun_only_prints SingleImage.no_such_image
           SingleImage.two_regions "MODIS/061/MCD12Q1" "LC_Type1" "out" 500
           "EPSG:4326" 5).
  - lia.
  - vm_compute. reflexivity.
  - repeat constructor; vm_compute; eauto.
Defined.

(** X13: [download_gee_data_single_image] asks for at most one download
    reference per row of [gdf], whatever fails: nothing is tried twice. *)
Theorem single_image_one_request_per_region
    out gdf image_id band output_folder scale crs max_workers
    (s : SingleImage.state) :
  exists tr s' r,
    SingleImage.download_gee_data_single_image out gdf image_id band output_folder
      scale crs max_workers s = (r, s')
    /\ Eff.trace s' = Eff.trace s ++ tr
    /\ length (filter SingleImage.is_url_request tr) <= length gdf.
Proof.
  destruct (single_image_bounded out gdf image_id band output_folder scale crs
              max_workers s) as (tr & fs' & r & Hrun & Hn & _).
  by eexists tr, _, r.
Qed.

(** X14: when the output folder is a directory and no region code of [gdf]
    contains a ['/'] (so the folder of a region lies directly in the output
    folder and [os.makedirs] has no ancestor to create),
    [download_gee_data_single_image] deletes and overwrites nothing, and a
    path that is new after the run is the folder of a region of [gdf] or
    the file of such a region,
    [<output_folder>/<region>/<image>_<band>_<region>.tif]. *)
Theorem single_image_layout
    out gdf image_id band output_folder scale crs max_workers
    (s : SingleImage.state) :
  let s' := (SingleImage.download_gee_data_single_image out gdf image_id band
               output_folder scale crs max_workers s).2 in
  Eff.files s !! output_folder = Some Dir ->
  Forall (fun row : string * Polygon => has_sep (fst row) = false) gdf ->
  Eff.files s ⊆ Eff.files s'
  /\ forall p, Eff.files s !! p = None -> is_Some (Eff.files s' !! p) ->
       exists row, row ∈ gdf
         /\ (p = Py.os_path_join output_folder (fst row)
             \/ p = Py.os_path_join (Py.os_path_join output_folder (fst row))
                      (Py.last_item (Py.split "/" image_id) +:+ "_" +:+ band
                         +:+ "_" +:+ fst row +:+ ".tif")).
Proof.
  destruct (single_image_bounded out gdf image_id band output_folder scale crs
              max_workers s) as (tr & fs' & r & Hrun & _ & Hsub & Hnew).
  cbv zeta. rewrite Hrun. cbn [snd Eff.files]. intros Hout _. split; [done|].
  intros p Hp Hsome. destruct (Hnew p Hp Hsome) as [->|Hrow]; [|done].
  congruence.
Qed.

Lemma single_image_layout_witness :
  let s : SingleImage.state := {| Eff.files := {[ "out" := Dir ]}; Eff.trace := [] |} in
  let s' := (SingleImage.download_gee_data_single_image SingleImage.fine
               SingleImage.two_regions "MODIS/061/MCD12Q1" "LC_Type1" "out"
               500 "EPSG:4326" 5 s).2 in
  Eff.files s ⊆ Eff.files s'
  /\ forall p, Eff.files s !! p = None -> is_Some (Eff.files s' !! p) ->
       exists row, row ∈ SingleImage.two_regions
         /\ (p = Py.os_path_join "out" (fst row)
             \/ p = Py.os_path_join (Py.os_path_join "out" (fst row))
                      (Py.last_item (Py.split "/" "MODIS/061/MCD12Q1") +:+ "_"
                         +:+ "LC_Type1" +:+ "_" +:+ fst row +:+ ".tif")).
Proof.
  apply (single_image_layout SingleImage.fine SingleImage.two_regions
           "MODIS/061/MCD12Q1" "LC_Type1" "out" 500 "EPSG:4326" 5).
  - reflexivity.
  - repeat constructor.
Defined.

(** For rows that are given with their region codes: once the output
    folder is a directory and [max_workers] is positive, the run over the
    rows does not raise and ends with [Processing complete.]. *)
Lemma single_image_rows_do_not_raise
    out gdf image_id band output_folder scale crs max_workers
    (s : SingleImage.state) :
  (0 < max_workers)%Z ->
  Eff.files s !! output_folder = Some Dir ->
  exists tr fs',
    SingleImage.download_gee_data_single_image out gdf image_id band output_folder
      scale crs max_workers s
    = (Eff.Done tt,
       {| Eff.files := fs';
          Eff.trace := Eff.trace s ++ tr
                       ++ [Eff.Note SingleImage.ProcessingComplete] |}).
Proof.
  intros Hworkers Hout. unfold SingleImage.download_gee_data_single_image.
  unfold Eff.bind at 1, Eff.lift. unfold makedirs, bind, get_node, ret.
  cbn [fs history]. rewrite Hout. cbn [map fs history]. rewrite eff_state_eta.
  unfold Eff.bind at 1. destruct (decide (max_workers <= 0)%Z) as [?|_]; [lia|].
  unfold Eff.ret at 1. unfold Eff.bind.
  destruct (bounded_for_each SingleImage.is_url_request (fun _ => True) gdf
              (SingleImage.run_task out image_id band output_folder scale crs))
    with (s := s) as (tr & fs' & r & Hrun & _).
  { intros row _ s0.
    destruct (run_task_bounded out [row] image_id band output_folder scale crs row)
      with (s := s0) as (tr0 & fs0 & r0 & Hrun0 & Hn & Hsub & _); [by left|].
    exists tr0, fs0, r0. by repeat split. }
  destruct (safe_for_each gdf
              (SingleImage.run_task out image_id band output_folder scale crs)
              (run_task_safe out image_id band output_folder scale crs) s)
    as ([] & s1 & Hsafe).
  rewrite Hrun in Hsafe |- *. injection Hsafe as -> <-.
  exists tr, fs'. unfold Eff.note_, Eff.occur. cbn [Eff.files Eff.trace].
  by rewrite <- app_assoc.
Qed.






(** ** [download_and_extract_archive] *)

Section ArchiveRun.
Context (out : Archive.outside).
Context (urlparse_path : string -> string) (member_path : string -> string -> string).

Let quiet (o : Archive.occurrence) : Prop := Archive.is_transfer o = false.

Lemma archive_lift_get_node p (s : Archive.state) :
  Eff.lift out Archive.Py (fun _ => get_node p) s = (Eff.Done (Eff.files s !! p), s).
Proof. unfold Eff.lift, get_node. cbn [fs history map]. by rewrite eff_state_eta. Qed.

Lemma archive_lift_set_node p n (s : Archive.state) :
  Eff.lift out Archive.Py (fun _ => set_node p n) s
  = (Eff.Done tt, {| Eff.files := <[p := n]> (Eff.files s); Eff.trace := Eff.trace s |}).
Proof. unfold Eff.lift, set_node. cbn [fs history map]. by rewrite app_nil_r. Qed.

(** Extracting a member: one call at most; a directory stays a directory. *)
Lemma extract_member_outcome archive_path output_dir file (s : Archive.state) :
  exists tr fs' r,
    Archive.extract_member out member_path archive_path output_dir file s
    = (r, {| Eff.files := fs'; Eff.trace := Eff.trace s ++ tr |})
    /\ Forall quiet tr
    /\ forall p, Eff.files s !! p = Some Dir -> fs' !! p = Some Dir.
Proof.
  unfold Archive.extract_member. cbv zeta. unfold Eff.bind at 1.
  rewrite archive_lift_get_node.
  set (path := member_path file output_dir).
  assert (Hcall : forall k : list string -> Archive.E unit,
    (forall v s0, Eff.files s0 = Eff.files s -> exists fs',
        k v s0 = (Eff.Done tt, {| Eff.files := fs'; Eff.trace := Eff.trace s0 |})
        /\ forall p, Eff.files s0 !! p = Some Dir -> fs' !! p = Some Dir) ->
    exists tr fs' r,
      Eff.bind (Eff.call_ out (Archive.extract archive_path file output_dir)) k s
      = (r, {| Eff.files := fs'; Eff.trace := Eff.trace s ++ tr |})
      /\ Forall quiet tr
      /\ forall p, Eff.files s !! p = Some Dir -> fs' !! p = Some Dir).
  { intros k Hk. unfold Eff.bind, Eff.call_.
    destruct (Eff.replies out (Eff.trace s) _) as [v|e].
    - match goal with |- context [k v ?s0] =>
        destruct (Hk v s0 eq_refl) as (fs' & -> & Hdirs) end.
      eexists _, _, _. split; [reflexivity|]. split; [by repeat constructor|done].
    - eexists _, _, _. split; [reflexivity|]. split; [by repeat constructor|done]. }
  assert (Hsame : exists tr fs' r,
    (Eff.throw (Archive.Py (IsADirectoryError path)) : Archive.E unit) s
    = (r, {| Eff.files := fs'; Eff.trace := Eff.trace s ++ tr |})
    /\ Forall quiet tr
    /\ forall p, Eff.files s !! p = Some Dir -> fs' !! p = Some Dir).
  { exists [], (Eff.files s), (Eff.Thrown (Archive.Py (IsADirectoryError path))).
    by rewrite eff_state_eta. }
  destruct (Posix.endswith file "/").
  - apply Hcall. intros _ s0 Hfiles.
    destruct (Eff.files s !! path) as [n|] eqn:Hnode.
    + exists (Eff.files s0). by destruct s0.
    + rewrite archive_lift_set_node. eexists. split; [reflexivity|].
      intros p Hp. destruct (decide (p = path)) as [->|Hne].
      * by rewrite lookup_insert_eq.
      * by rewrite lookup_insert_ne.
  - destruct (Eff.files s !! path) as [[|c]|] eqn:Hnode; [exact Hsame|..].
    all: apply Hcall; intros _ s0 Hfiles; rewrite archive_lift_set_node.
    all: eexists; (split; [reflexivity|]); intros p Hp.
    all: destruct (decide (p = path)) as [->|Hne];
      [congruence|by rewrite lookup_insert_ne].
Qed.

Lemma extract_all_outcome archive_path output_dir files (s : Archive.state) :
  exists tr fs' r,
    Eff.for_each files (Archive.extract_member out member_path archive_path output_dir) s
    = (r, {| Eff.files := fs'; Eff.trace := Eff.trace s ++ tr |})
    /\ Forall quiet tr
    /\ forall p, Eff.files s !! p = Some Dir -> fs' !! p = Some Dir.
Proof.
  revert s. induction files as [|file files IH]; intros s.
  { exists [], (Eff.files s), (Eff.Done tt). cbn. by rewrite eff_state_eta. }
  cbn [Eff.for_each]. unfold Eff.bind.
  destruct (extract_member_outcome archive_path output_dir file s)
    as (tr & fs1 & r & -> & Hquiet & Hdirs).
  destruct r as [[]|e]; [|by exists tr, fs1, (Eff.Thrown e)].
  destruct (IH {| Eff.files := fs1; Eff.trace := Eff.trace s ++ tr |})
    as (tr2 & fs2 & r2 & -> & Hquiet2 & Hdirs2).
  exists (tr ++ tr2), fs2, r2. cbn [Eff.trace Eff.files] in *.
  rewrite app_assoc. split; [done|]. split; [by apply Forall_app|].
  intros p Hp. by apply Hdirs2, Hdirs.
Qed.

(** Lines 107-110: removing the archive. *)
Lemma remove_archive_outcome archive_path (s : Archive.state) :
  exists tr fs' r,
    Archive.except_OSError
      (Eff.lift out Archive.Py (fun oracle => remove oracle archive_path))
      (fun e => Eff.throw (Archive.RuntimeError archive_path e)) s
    = (r, {| Eff.files := fs'; Eff.trace := Eff.trace s ++ tr |})
    /\ Forall quiet tr
    /\ (r = Eff.Done tt -> fs' !! archive_path = None)
    /\ (Eff.files s !! archive_path = Some Dir -> r <> Eff.Done tt).
Proof.
  unfold Archive.except_OSError, Eff.lift, remove, bind, get_node, ext, del_node,
    raise, Eff.throw. cbn [fs history].
  destruct (Eff.files s !! archive_path) as [[|c]|] eqn:Hnode; cbn [fs history map].
  - eexists [], _, _. rewrite app_nil_r. split; [reflexivity|]. by repeat split.
  - destruct (Eff.inner_replies out _ (os_remove archive_path)) as [v|e];
      cbn [fs history map app].
    + eexists _, _, _. split; [reflexivity|]. split; [by repeat constructor|].
      split; [|done]. intros _. cbn. by rewrite lookup_delete_eq.
    + destruct (Archive.is_OSError e); eexists _, _, _;
        (split; [reflexivity|]); (split; [by repeat constructor|]); by split.
  - eexists [], _, _. rewrite app_nil_r. split; [reflexivity|]. by repeat split.
Qed.

Lemma archive_makedirs_outcome path (s : Archive.state) :
  exists tr fs' r,
    Eff.lift out Archive.Py (fun oracle => makedirs oracle path) s
    = (r, {| Eff.files := fs'; Eff.trace := Eff.trace s ++ tr |})
    /\ Forall quiet tr
    /\ (r = Eff.Done tt ->
        fs' !! path = Some Dir
        /\ (fs' = Eff.files s
            \/ (Eff.files s !! path = None /\ fs' = <[path := Dir]> (Eff.files s)))).
Proof.
  unfold Eff.lift, makedirs, bind, get_node, ext, set_node, ret, raise.
  cbn [fs history].
  destruct (Eff.files s !! path) as [[|c]|] eqn:Hnode; cbn [fs history map].
  - eexists [], _, _. rewrite app_nil_r. split; [reflexivity|]. split; [done|].
    intros _. split; [done|by left].
  - eexists [], _, _. rewrite app_nil_r. split; [reflexivity|]. by split.
  - destruct (Eff.inner_replies out _ (os_makedirs path)) as [v|e];
      cbn [fs history map app].
    + eexists _, _, _. split; [reflexivity|]. split; [by repeat constructor|].
      intros _. split; [by rewrite lookup_insert_eq|by right].
    + eexists _, _, _. split; [reflexivity|]. split; [by repeat constructor|done].
Qed.

(** Lines 69-80: which archive is opened, and when nothing is downloaded. *)
Lemma locate_archive_outcome url output_dir overwrite (s : Archive.state) :
  let remote := Py.os_path_join output_dir (Posix.basename (urlparse_path url)) in
  exists tr fs' r,
    Archive.locate_archive out urlparse_path url output_dir overwrite s
    = (r, {| Eff.files := fs'; Eff.trace := Eff.trace s ++ tr |})
    /\ (forall p, Eff.files s !! p = Some Dir -> fs' !! p = Some Dir)
    /\ (forall a, r = Eff.Done a ->
          a = if bool_decide (is_Some (Eff.files s !! url)) then url else remote)
    /\ (is_Some (Eff.files s !! url) \/ is_Some (Eff.files s !! remote) ->
        Forall quiet tr).
Proof.
  intros remote. unfold Archive.locate_archive. unfold Eff.bind at 1.
  rewrite lift_os_path_exists.
  destruct (Eff.files s !! url) as [nu|] eqn:Hurl.
  { rewrite bool_decide_eq_true_2 by eauto.
    exists [], (Eff.files s), (Eff.Done url). unfold Eff.ret. rewrite eff_state_eta.
    split; [done|]. split; [done|]. split; [by intros ? [= <-]|done]. }
  rewrite bool_decide_eq_false_2 by (by intros [? ?]).
  cbv zeta. fold remote.
  assert (Hskip : forall tr, Forall quiet tr -> exists tr' fs' r,
    (Eff.Done remote : Eff.outcome Archive.error string,
     {| Eff.files := Eff.files s; Eff.trace := Eff.trace s ++ tr |})
    = (r, {| Eff.files := fs'; Eff.trace := Eff.trace s ++ tr' |})
    /\ (forall p, Eff.files s !! p = Some Dir -> fs' !! p = Some Dir)
    /\ (forall a, r = Eff.Done a -> a = remote)
    /\ (is_Some (@None node) \/ is_Some (Eff.files s !! remote) ->
        Forall quiet tr')).
  { intros tr Htr. exists tr, (Eff.files s), (Eff.Done remote).
    split; [done|]. split; [done|]. split; [by intros ? [= <-]|done]. }
  assert (Hdownload : exists tr fs' r,
    Eff.bind
      (Eff.bind (Eff.lift out Archive.Py (fun oracle =>
                   download_file oracle url output_dir
                     (Posix.basename (urlparse_path url))))
         (fun _ => Eff.ret tt))
      (fun _ => Eff.ret remote) s
    = (r, {| Eff.files := fs'; Eff.trace := Eff.trace s ++ tr |})
    /\ (forall p, Eff.files s !! p = Some Dir -> fs' !! p = Some Dir)
    /\ (forall a, r = Eff.Done a -> a = remote)
    /\ (is_Some (Eff.files s !! remote) -> Forall quiet tr)).
  { unfold Eff.bind, Eff.lift, Eff.ret.
    match goal with |- context [download_file ?o _ _ _ ?w] =>
      destruct (download_file_grows o url output_dir
                  (Posix.basename (urlparse_path url)) w)
        as (evs & fs' & r & Hrun & Hsub & _);
      pose proof (download_file_events o [] url output_dir
                    (Posix.basename (urlparse_path url)) w) as Hevents
    end.
    fold remote in Hevents.
    destruct (Eff.files s !! remote) as [n|] eqn:Hnode.
    - revert Hrun. unfold download_file, os_path_exists, bind, get_node, ret, emit.
      cbn [fs history]. fold remote. rewrite Hnode.
      rewrite bool_decide_eq_true_2 by eauto. cbn [fs history app]. intros _.
      eexists _, _, _. split; [reflexivity|].
      split; [done|]. split; [by intros ? [= <-]|]. intros _. by repeat constructor.
    - rewrite Hrun. cbn [fs history app] in *. destruct r as [a|e].
      + eexists _, _, _. split; [reflexivity|].
        split; [|split; [by intros ? [= <-]|by intros [? ?]]].
        intros p Hp. by apply (lookup_weaken _ _ _ _ Hp).
      + eexists _, _, _. split; [reflexivity|].
        split; [|split; [done|by intros [? ?]]].
        intros p Hp. by apply (lookup_weaken _ _ _ _ Hp). }
  destruct overwrite; cbn [negb andb].
  - unfold Eff.bind at 1, Eff.ret at 1.
    destruct Hdownload as (tr & fs' & r & Hrun & Hdirs & Ha & Hquiet).
    exists tr, fs', r. split; [exact Hrun|]. split; [done|]. split; [done|].
    intros [[x [=]]|Hremote]. by apply Hquiet.
  - unfold Eff.bind at 1. rewrite lift_os_path_exists.
    destruct (Eff.files s !! remote) as [n|] eqn:Hnode.
    + rewrite bool_decide_eq_true_2 by eauto. unfold Eff.bind, Eff.ret.
      exists [], (Eff.files s), (Eff.Done remote).
      rewrite eff_state_eta. split; [done|]. split; [done|].
      split; [by intros ? [= <-]|done].
    + rewrite bool_decide_eq_false_2 by (by intros [? ?]).
      destruct Hdownload as (tr & fs' & r & Hrun & Hdirs & Ha & Hquiet).
      exists tr, fs', r. split; [exact Hrun|]. split; [done|]. split; [done|].
      intros [[x [=]]|[x [=]]].
Qed.

(** Lines 83-110: the archive is opened, the files are extracted and the
    archive is removed. *)
Lemma extract_and_remove_outcome archive_path output_dir files_to_extract
    extract_by_name extract_by_extension (s : Archive.state) :
  exists tr fs' r,
    Eff.bind (Eff.call_ out (Archive.ZipFile archive_path)) (fun available_files =>
      Eff.bind
        (if bool_decide
              (Archive.select_files available_files files_to_extract
                 extract_by_name extract_by_extension = [])
         then Eff.throw (Archive.Py (ValueError
                "No se encontraron archivos que coincidan con el criterio de extracción."))
         else Eff.for_each
                (Archive.select_files available_files files_to_extract
                   extract_by_name extract_by_extension)
                (Archive.extract_member out member_path archive_path output_dir))
        (fun _ =>
           Archive.except_OSError
             (Eff.lift out Archive.Py (fun oracle => remove oracle archive_path))
             (fun e => Eff.throw (Archive.RuntimeError archive_path e)))) s
    = (r, {| Eff.files := fs'; Eff.trace := Eff.trace s ++ tr |})
    /\ Forall quiet tr
    /\ (r = Eff.Done tt -> fs' !! archive_path = None)
    /\ (Eff.files s !! archive_path = Some Dir -> r <> Eff.Done tt).
Proof.
  unfold Eff.bind at 1, Eff.call_.
  destruct (Eff.replies out (Eff.trace s) _) as [names|e].
  2:{ eexists _, _, _. split; [reflexivity|]. split; [by repeat constructor|].
      by split. }
  unfold Eff.bind. case_bool_decide as Hnone.
  { unfold Eff.throw. eexists _, _, _. split; [reflexivity|].
    split; [by repeat constructor|]. by split. }
  match goal with |- context [Eff.for_each ?fs ?body ?s0] =>
    destruct (extract_all_outcome archive_path output_dir fs s0)
      as (tr & fs1 & r & -> & Hquiet & Hdirs) end.
  cbn [Eff.files Eff.trace] in *.
  destruct r as [[]|e].
  2:{ eexists _, _, _. rewrite <- app_assoc. split; [reflexivity|].
      split; [by repeat constructor|]. by split. }
  match goal with |- context [Archive.except_OSError ?m ?h ?s0] =>
    destruct (remove_archive_outcome archive_path s0)
      as (tr2 & fs2 & r2 & -> & Hquiet2 & Hgone & Hdir) end.
  cbn [Eff.files Eff.trace] in *.
  eexists _, _, _. rewrite <- !app_assoc. split; [reflexivity|].
  split; [constructor; [done|by apply Forall_app]|].
  split; [done|]. intros Hp. by apply Hdir, Hdirs.
Qed.

(** The whole call. *)
Lemma archive_run_outcome url output_dir files_to_extract extract_by_name
    extract_by_extension overwrite (s : Archive.state) :
  let remote := Py.os_path_join output_dir (Posix.basename (urlparse_path url)) in
  exists tr fs' r,
    Archive.download_and_extract_archive out urlparse_path member_path url
      output_dir files_to_extract extract_by_name extract_by_extension overwrite s
    = (r, {| Eff.files := fs'; Eff.trace := Eff.trace s ++ tr |})
    /\ (is_Some (Eff.files s !! url) \/ is_Some (Eff.files s !! remote) ->
        Forall quiet tr)
    /\ (r = Eff.Done tt ->
        fs' !! (if bool_decide (is_Some (Eff.files s !! url)) then url else remote)
        = None).
Proof.
  intros remote. unfold Archive.download_and_extract_archive.
  unfold Eff.bind at 1.
  destruct (archive_makedirs_outcome output_dir s)
    as (tr1 & fs1 & r1 & -> & Hquiet1 & Hdone1).
  destruct r1 as [[]|e1]; [|by eexists _, _, _].
  destruct (Hdone1 eq_refl) as [Hout Hfs1]. clear Hdone1.
  unfold Eff.bind at 1.
  destruct (locate_archive_outcome url output_dir overwrite
              {| Eff.files := fs1; Eff.trace := Eff.trace s ++ tr1 |})
    as (tr2 & fs2 & r2 & -> & Hdirs2 & Ha & Hquiet2).
  cbn [Eff.files Eff.trace] in *. fold remote in Ha, Hquiet2.
  destruct r2 as [a|e2].
  2:{ eexists _, _, _. rewrite <- app_assoc. split; [reflexivity|].
      split; [|done]. intros Hthere. apply Forall_app. split; [done|].
      apply Hquiet2. destruct Hfs1 as [->|[Hnone ->]]; [done|].
      destruct Hthere as [[x Hx]|[x Hx]]; [left|right];
        exists x; apply (lookup_weaken _ _ _ _ Hx); by apply insert_subseteq. }
  specialize (Ha a eq_refl).
  destruct (extract_and_remove_outcome a output_dir files_to_extract
              extract_by_name extract_by_extension
              {| Eff.files := fs2; Eff.trace := (Eff.trace s ++ tr1) ++ tr2 |})
    as (tr3 & fs3 & r3 & -> & Hquiet3 & Hgone & Hdir).
  cbn [Eff.files Eff.trace] in *.
  eexists _, _, _. rewrite <- !app_assoc. split; [reflexivity|]. split.
  { intros Hthere. apply Forall_app. split; [done|]. apply Forall_app.
    split; [|done]. apply Hquiet2. destruct Hfs1 as [->|[Hnone ->]]; [done|].
    destruct Hthere as [[x Hx]|[x Hx]]; [left|right];
      exists x; apply (lookup_weaken _ _ _ _ Hx); by apply insert_subseteq. }
  intros ->. specialize (Hgone eq_refl).
  destruct (Eff.files s !! url) as [n|] eqn:Hurl.
  - rewrite bool_decide_eq_true_2 by eauto.
    rewrite bool_decide_eq_true_2 in Ha; [by subst a|].
    destruct Hfs1 as [->|[Hnone ->]]; [by rewrite Hurl; eauto|].
    exists n. apply (lookup_weaken _ _ _ _ Hurl). by apply insert_subseteq.
  - rewrite bool_decide_eq_false_2 by (by intros [? ?]).
    destruct (fs1 !! url) as [n1|] eqn:Hurl1.
    + exfalso. destruct Hfs1 as [->|[Hnone ->]]; [congruence|].
      destruct (decide (url = output_dir)) as [->|Hne].
      * rewrite bool_decide_eq_true_2 in Ha by eauto. subst a.
        apply Hdir; [|done]. by apply Hdirs2.
      * rewrite lookup_insert_ne in Hurl1 by done. congruence.
    + rewrite bool_decide_eq_false_2 in Ha by (by intros [? ?]). by subst a.
Qed.

End ArchiveRun.

(** X16: an archive that is there is not downloaded again, whatever
    [overwrite] says: when [url] is an existing path, or the file named
    after the url is in the output folder, [download_and_extract_archive]
    sends no request. *)
Theorem archive_is_not_downloaded_again
    out urlparse_path member_path url output_dir files_to_extract
    extract_by_name extract_by_extension overwrite (s : Archive.state) :
  is_Some (Eff.files s !! url)
  \/ is_Some (Eff.files s
       !! Py.os_path_join output_dir (Posix.basename (urlparse_path url))) ->
  exists tr s' r,
    Archive.download_and_extract_archive out urlparse_path member_path url
      output_dir files_to_extract extract_by_name extract_by_extension overwrite s
    = (r, s')
    /\ Eff.trace s' = Eff.trace s ++ tr
    /\ Forall (fun o => Archive.is_transfer o = false) tr.
Proof.
  intros Hthere.
  destruct (archive_run_outcome out urlparse_path member_path url output_dir
              files_to_extract extract_by_name extract_by_extension overwrite s)
    as (tr & fs' & r & Hrun & Hquiet & _).
  eexists tr, _, r. split; [exact Hrun|]. split; [done|]. by apply Hquiet.
Qed.

Lemma archive_is_not_downloaded_again_witness :
  exists tr s' r,
    Archive.download_and_extract_archive (Archive.holding ["data.csv"])
      Archive.url_path Archive.under "https://host/files/data.zip" "out"
      Archive.NoFiles None (Some ".csv") true Archive.with_archive
    = (r, s')
    /\ Eff.trace s' = Eff.trace Archive.with_archive ++ tr
    /\ Forall (fun o => Archive.is_transfer o = false) tr.
Proof.
  apply (archive_is_not_downloaded_again (Archive.holding ["data.csv"])
           Archive.url_path Archive.under "https://host/files/data.zip" "out"
           Archive.NoFiles None (Some ".csv") true Archive.with_archive).
  right. vm_compute. eauto.
Defined.

(** X17: when [download_and_extract_archive] returns, the archive is gone:
    the file named after the url in the output folder, or, when [url] is
    an existing path, that path itself, so that a local archive given as
    [url] is deleted. *)
Theorem archive_is_removed_on_success
    out urlparse_path member_path url output_dir files_to_extract
    extract_by_name extract_by_extension overwrite (s s' : Archive.state) :
  Archive.download_and_extract_archive out urlparse_path member_path url
    output_dir files_to_extract extract_by_name extract_by_extension overwrite s
  = (Eff.Done tt, s') ->
  Eff.files s'
    !! (if bool_decide (is_Some (Eff.files s !! url)) then url
        else Py.os_path_join output_dir (Posix.basename (urlparse_path url)))
  = None.
Proof.
  intros Hrun.
  destruct (archive_run_outcome out urlparse_path member_path url output_dir
              files_to_extract extract_by_name extract_by_extension overwrite s)
    as (tr & fs' & r & Hrun' & _ & Hgone).
  rewrite Hrun in Hrun'. injection Hrun' as <- ->. by apply Hgone.
Qed.

Lemma archive_is_removed_on_success_witness :
  Eff.files
    (Archive.download_and_extract_archive (Archive.holding ["data.csv"])
       Archive.url_path Archive.under "out/data.zip" "extracted"
       Archive.NoFiles None (Some ".csv") false Archive.with_archive).2
    !! (if bool_decide (is_Some (Eff.files Archive.with_archive !! "out/data.zip"))
        then "out/data.zip"
        else Py.os_path_join "extracted"
               (Posix.basename (Archive.url_path "out/data.zip")))
  = None.
Proof.
  apply (archive_is_removed_on_success (Archive.holding ["data.csv"])
           Archive.url_path Archive.under "out/data.zip" "extracted"
           Archive.NoFiles None (Some ".csv") false Archive.with_archive).
  vm_compute. reflexivity.
Defined.

(** ** The files that [extract_by_name] selects *)

Lemma has_char_app c a b :
  Posix.has_char c (a +:+ b) = Posix.has_char c a || Posix.has_char c b.
Proof.
  induction a as [|x a IH]; [done|].
  change (String x a +:+ b) with (String x (a +:+ b)). cbn [Posix.has_char].
  rewrite IH. by rewrite orb_assoc.
Qed.

Lemma rsplit_sep_spec p :
  p = (Posix.rsplit_sep p).1 +:+ (Posix.rsplit_sep p).2
  /\ Posix.has_char "/" (Posix.rsplit_sep p).2 = false.
Proof.
  induction p as [|c p [IH1 IH2]]; [done|]. cbn [Posix.rsplit_sep].
  destruct (Posix.rsplit_sep p) as [head tail]. cbn [fst snd] in *.
  case_bool_decide as Hhead.
  - subst head. case_bool_decide as Hc; cbn [fst snd].
    + subst c. split; [by rewrite IH1 at 1|done].
    + split; [by rewrite IH1 at 1|]. cbn [Posix.has_char].
      by rewrite bool_decide_eq_false_2.
  - cbn [fst snd]. split; [|done].
    change (String c head +:+ tail) with (String c (head +:+ tail)). by rewrite <- IH1.
Qed.

Lemma rsplit_dot_spec s :
  match Posix.rsplit_dot s with
  | Some (a, b) =>
      s = a +:+ b /\ exists t, b = String "." t /\ Posix.has_char "." t = false
  | None => Posix.has_char "." s = false
  end.
Proof.
  induction s as [|c s IH]; [done|]. cbn [Posix.rsplit_dot].
  destruct (Posix.rsplit_dot s) as [[a b]|].
  - destruct IH as [-> Hb]. by split.
  - case_bool_decide as Hc.
    + subst c. split; [done|]. by exists s.
    + cbn [Posix.has_char]. by rewrite bool_decide_eq_false_2.
Qed.

(** [os.path.splitext]: the two parts make up the path, and the extension
    is empty or a dot followed by characters other than dot and slash. *)
Lemma splitext_spec p :
  p = (Posix.splitext p).1 +:+ (Posix.splitext p).2
  /\ ((Posix.splitext p).2 = ""
      \/ exists t, (Posix.splitext p).2 = String "." t
           /\ Posix.has_char "." t = false /\ Posix.has_char "/" t = false).
Proof.
  assert (Hwhole : p = (p, "").1 +:+ (p, "").2
    /\ ((p, "").2 = ""
        \/ exists t, (p, "").2 = String "." t
             /\ Posix.has_char "." t = false /\ Posix.has_char "/" t = false)).
  { cbn [fst snd]. split; [|by left]. clear. induction p as [|c p IH]; [done|].
    change (String c p +:+ "") with (String c (p +:+ "")). by rewrite <- IH. }
  unfold Posix.splitext. destruct (rsplit_sep_spec p) as [Hp Hsep].
  destruct (Posix.rsplit_sep p) as [head tail]. cbn [fst snd] in *.
  pose proof (rsplit_dot_spec tail) as Hdot.
  destruct (Posix.rsplit_dot tail) as [[a ext]|]; [|done].
  destruct (Posix.all_dots a); [done|]. cbn [fst snd].
  destruct Hdot as (-> & t & -> & Ht). split.
  - by rewrite string_app_assoc.
  - right. exists t. repeat split; [done|].
    rewrite has_char_app in Hsep. apply orb_false_iff in Hsep as [_ Hsep].
    cbn [Posix.has_char] in Hsep. by apply orb_false_iff in Hsep as [_ Hsep].
Qed.

(** X18: with [extract_by_name], the files extracted are members of the
    archive whose name is [extract_by_name] itself or [extract_by_name]
    followed by one extension: a dot and characters other than dot and
    slash.  [files_to_extract] and [extract_by_extension] play no part. *)
Theorem extract_by_name_selects_name_and_extension
    available_files files_to_extract name extract_by_extension file :
  name <> "" ->
  file ∈ Archive.select_files available_files files_to_extract (Some name)
           extract_by_extension ->
  file ∈ available_files
  /\ exists ext, file = name +:+ ext
       /\ (ext = ""
           \/ exists t, ext = String "." t
                /\ Posix.has_char "." t = false /\ Posix.has_char "/" t = false).
Proof.
  intros Hname. unfold Archive.select_files. cbn [Py.truthy default].
  rewrite bool_decide_eq_false_2 by done. cbn [negb].
  intros [Hroot Hin]%list_elem_of_filter. split; [done|].
  destruct (splitext_spec file) as [Hfile Hext].
  exists (Posix.splitext file).2. split; [|done].
  transitivity ((Posix.splitext file).1 +:+ (Posix.splitext file).2); [done|].
  f_equal. exact Hroot.
Qed.

Lemma extract_by_name_selects_name_and_extension_witness :
  "data.csv" ∈ ["readme.txt"; "data.csv"; "sub/data.csv"; "data.tar.gz"]
  /\ exists ext, "data.csv" = "data" +:+ ext
       /\ (ext = ""
           \/ exists t, ext = String "." t
                /\ Posix.has_char "." t = false /\ Posix.has_char "/" t = false).
Proof.
  apply (extract_by_name_selects_name_and_extension
           ["readme.txt"; "data.csv"; "sub/data.csv"; "data.tar.gz"]
           Archive.NoFiles "data" (Some ".gz") "data.csv").
  - done.
  - vm_compute. by left.
Defined.

(** ** [merge_tifs_in_directory] *)

(** X19: [merge_tifs_in_directory] cannot run: the module does not import
    [glob], so every call prints that it is searching and then raises
    [NameError] on [glob], before it has looked at a file; nothing that
    follows in the function is reached. *)
Theorem merge_tifs_in_directory_raises_NameError
    (out : MergeTifs.outside) rest input_dir (s : MergeTifs.state) :
  MergeTifs.merge_tifs_in_directory out rest input_dir s
  = (Eff.Thrown (NameError "glob"),
     {| Eff.files := Eff.files s;
        Eff.trace := Eff.trace s
                     ++ [Eff.Note (MergeTifs.SearchingForTifs input_dir)] |}).
Proof.
  unfold MergeTifs.merge_tifs_in_directory, Eff.bind, Eff.note_, Eff.occur.
  assert (MergeTifs.bound "glob" = false) as -> by (by vm_compute).
  done.
Qed.

(** ** [GEE_download.py] *)

Ltac emits_step :=
  match goal with
  | |- Eff.emits _ (Eff.bind _ _) => apply emits_bind; [|intros ?]
  | |- Eff.emits _ (Eff.ret _) => apply emits_ret
  | |- Eff.emits _ (Eff.throw _) => apply emits_throw
  | |- Eff.emits _ (Eff.try_except _ _) => apply emits_try_except; [|intros ?]
  | |- Eff.emits _ (Eff.try_finally _ _) => apply emits_try_finally
  | |- Eff.emits _ (Eff.for_each _ _) => apply emits_for_each; intros ?
  | |- Eff.emits _ (Eff.note_ _) => apply emits_occur
  | |- Eff.emits _ (Eff.occur _) => apply emits_occur
  | |- Eff.emits _ (Eff.call_ _ _) => apply emits_call; intros ?
  | |- Eff.emits _ (Eff.lift _ _ _) => apply emits_lift; intros ?
  | |- Eff.emits _ (if ?b then _ else _) => destruct b
  | |- Eff.emits _ (match ?x with _ => _ end) => destruct x
  end.

Ltac emits_steps :=
  repeat emits_step;
  try (unfold download_file, makedirs, remove, write_mosaic, create_file,
         os_path_exists, ImageCollection_new, select, filterDate;
       inv_steps; simpl; done).

Section GeeDownloadRun.
Context (out : GeeDownload.outside) (gdf : list (string * Geometry)).
Context (collection band output_folder : string).
Context (start_date end_date : option string) (scale max_workers : Z).
Context (gdf_crs : string).

Let keeps (o : GeeDownload.occurrence) : Prop := GeeDownload.is_removal o = false.

Lemma process_polygon_keeps region_code polygon index :
  Eff.emits keeps
    (GeeDownload.process_polygon out collection band output_folder start_date
       end_date scale gdf_crs region_code polygon index).
Proof.
  unfold GeeDownload.process_polygon, GeeDownload.download_polygon,
    GeeDownload.logger_info, GeeDownload.logger_error.
  emits_steps.
Qed.

Lemma download_polygons_keeps region_code polygons acc :
  Eff.emits keeps
    (GeeDownload.download_polygons out collection band output_folder start_date
       end_date scale gdf_crs region_code polygons acc).
Proof.
  revert acc. induction polygons as [|[i poly] polygons IH]; intros acc.
  - apply emits_ret.
  - cbn [GeeDownload.download_polygons]. apply emits_bind.
    + apply process_polygon_keeps.
    + intros raster_path. apply IH.
Qed.

Lemma open_all_emits P valid_rasters :
  (forall rp a, P (Eff.Inner (EvCall (rasterio_open rp) a) : GeeDownload.occurrence)) ->
  Eff.emits P (GeeDownload.open_all out valid_rasters).
Proof.
  intros HP. induction valid_rasters as [|rp rest IH]; [apply emits_ret|].
  cbn [GeeDownload.open_all]. apply emits_bind.
  - apply emits_lift. intros oracle. apply extends_ext. intros a. apply HP.
  - intros _. apply emits_bind; [done|]. intros opened. apply emits_ret.
Qed.

Lemma existing_rasters_emits P raster_paths :
  Eff.emits P (GeeDownload.existing_rasters raster_paths).
Proof. intros s. eexists [], s, _. by rewrite app_nil_r. Qed.

Lemma merge_rasters_keeps raster_paths output_path :
  Eff.emits keeps (GeeDownload.merge_rasters out raster_paths output_path).
Proof.
  unfold GeeDownload.merge_rasters, GeeDownload.logger_info,
    GeeDownload.logger_warning, GeeDownload.logger_error.
  apply emits_bind; [apply existing_rasters_emits|]. intros valid.
  destruct (bool_decide (valid = [])); [by emits_steps|].
  apply emits_try_except; [|intros e; by emits_steps].
  apply emits_bind; [by apply open_all_emits|]. intros srcs.
  emits_steps.
Qed.

(** The mask step: nothing is removed, and a path is returned only after
    the record that the masked raster was saved. *)
Lemma mask_raster_yields raster_path shape_geometry output_path_masked :
  Eff.yields
    (fun r tr =>
       Forall keeps tr
       /\ forall a, r = Eff.Done a -> Py.truthy a = true ->
            Exists (fun o => GeeDownload.is_masked_saved o = true) tr)
    (GeeDownload.mask_raster_with_shapefile out raster_path shape_geometry
       output_path_masked).
Proof.
  unfold GeeDownload.mask_raster_with_shapefile.
  assert (Hnone : forall (m : GeeDownload.E unit), Eff.emits keeps m ->
    Eff.yields
      (fun r tr =>
         Forall keeps tr
         /\ forall a, r = Eff.Done a -> Py.truthy a = true ->
              Exists (fun o => GeeDownload.is_masked_saved o = true) tr)
      (Eff.bind m (fun _ => Eff.ret (@None string)))).
  { intros m Hm.
    eapply (yields_bind (fun _ tr => Forall keeps tr)
              (fun _ r tr => tr = [] /\ r = Eff.Done None)).
    - by apply yields_emits.
    - intros _. by apply yields_ret.
    - intros _ r tr1 tr2 Htr1 [-> ->]. rewrite app_nil_r. split; [done|].
      by intros a [= <-].
    - intros e tr1 Htr1. split; [done|]. by intros a [=]. }
  intros s. unfold Eff.bind at 1. rewrite lift_os_path_exists.
  destruct (bool_decide (is_Some (Eff.files s !! raster_path))); cbn [negb].
  2:{ apply Hnone. unfold GeeDownload.logger_error. by emits_steps. }
  revert s. eapply (yields_try_except
    (fun r tr => Forall keeps tr
       /\ forall a, r = Eff.Done a ->
            Exists (fun o => GeeDownload.is_masked_saved o = true) tr)
    (fun _ r tr => Forall keeps tr /\ forall a, r = Eff.Done a -> a = None)).
  - eapply (yields_bind (fun _ tr => Forall keeps tr)
              (fun _ r tr => Forall keeps tr
                 /\ forall a, r = Eff.Done a ->
                      Exists (fun o => GeeDownload.is_masked_saved o = true) tr)).
    + apply yields_emits. by emits_steps.
    + intros _.
      eapply (yields_bind (fun _ tr => Forall keeps tr)
                (fun _ r tr => Forall keeps tr
                   /\ forall a, r = Eff.Done a ->
                        Exists (fun o => GeeDownload.is_masked_saved o = true) tr)).
      * apply yields_emits. unfold GeeDownload.logger_info. by emits_steps.
      * intros _.
        eapply (yields_bind (fun _ tr => Forall keeps tr)
                  (fun _ r tr => Forall keeps tr
                     /\ forall a, r = Eff.Done a ->
                          Exists (fun o => GeeDownload.is_masked_saved o = true) tr)).
        -- apply yields_emits. by emits_steps.
        -- intros _.
           eapply (yields_bind
                     (fun _ tr => Forall keeps tr
                        /\ Exists (fun o => GeeDownload.is_masked_saved o = true) tr)
                     (fun _ _ tr => tr = [])).
           ++ apply yields_occur. split; [by repeat constructor|by left].
           ++ intros _. by apply yields_ret.
           ++ intros _ r tr1 tr2 [Hk Hm] ->. rewrite app_nil_r. by split.
           ++ intros e tr1 [Hk Hm]. split; [done|]. by intros a [=].
        -- intros _ r tr1 tr2 Hk [Hk2 Hm]. split; [by apply Forall_app|].
           intros a Ha. apply Exists_app. right. by eapply Hm.
        -- intros e tr1 Hk. split; [done|]. by intros a [=].
      * intros _ r tr1 tr2 Hk [Hk2 Hm]. split; [by apply Forall_app|].
        intros a Ha. apply Exists_app. right. by eapply Hm.
      * intros e tr1 Hk. split; [done|]. by intros a [=].
    + intros _ r tr1 tr2 Hk [Hk2 Hm]. split; [by apply Forall_app|].
      intros a Ha. apply Exists_app. right. by eapply Hm.
    + intros e tr1 Hk. split; [done|]. by intros a [=].
  - intros e.
    eapply (yields_bind (fun _ tr => Forall keeps tr)
              (fun _ r tr => tr = [] /\ r = Eff.Done None)).
    + apply yields_emits. unfold GeeDownload.logger_error. by emits_steps.
    + intros _. by apply yields_ret.
    + intros _ r tr1 tr2 Htr1 [-> ->]. rewrite app_nil_r. split; [done|].
      by intros a [= <-].
    + intros e' tr1 Htr1. split; [done|]. by intros a [=].
  - intros a tr1 [Hk Hm]. split; [done|]. intros a' [= <-] _. by eapply Hm.
  - intros e r tr1 tr2 [Hk _] [Hk2 Ha]. split; [by apply Forall_app|].
    intros a -> Htruthy. by rewrite (Ha a eq_refl) in Htruthy.
Qed.

Lemma gee_except_OSError_emits {A} P (m : GeeDownload.E A) h :
  Eff.emits P m -> (forall e, Eff.emits P (h e)) ->
  Eff.emits P (GeeDownload.except_OSError m h).
Proof.
  intros Hm Hh s. destruct (Hm s) as (tr & s1 & r & Hrun & Htr & HP).
  unfold GeeDownload.except_OSError. rewrite Hrun. destruct r as [a|e].
  - by exists tr, s1, (Eff.Done a).
  - destruct (GeeDownload.is_OSError e); [|by exists tr, s1, (Eff.Thrown e)].
    destruct (Hh e s1) as (tr2 & s2 & r2 & Hrun2 & Htr2 & HP2).
    exists (tr ++ tr2), s2, r2. split; [done|].
    split; [by rewrite Htr2, Htr, app_assoc|by apply Forall_app].
Qed.

Lemma delete_intermediate_emits downloaded_rasters merged_raster_path :
  Eff.emits (fun _ => True)
    (GeeDownload.delete_intermediate out downloaded_rasters merged_raster_path).
Proof.
  unfold GeeDownload.delete_intermediate, GeeDownload.logger_error.
  apply emits_bind.
  - apply emits_for_each. intros rp.
    apply gee_except_OSError_emits; [|intros e]; by emits_steps.
  - intros _. apply gee_except_OSError_emits; [|intros e]; by emits_steps.
Qed.

(** Unless the record that the masked raster was saved is in the trace,
    [process_region] has removed nothing. *)
Lemma process_region_guarded region_code region_geometry :
  Eff.yields
    (fun _ tr =>
       Forall (fun o => GeeDownload.is_masked_saved o = false) tr -> Forall keeps tr)
    (GeeDownload.process_region out collection band output_folder start_date
       end_date scale gdf_crs region_code region_geometry).
Proof.
  unfold GeeDownload.process_region. cbv zeta.
  eapply (yields_bind (fun _ tr => Forall keeps tr)
            (fun _ _ tr =>
               Forall (fun o => GeeDownload.is_masked_saved o = false) tr ->
               Forall keeps tr)).
  { apply yields_emits, download_polygons_keeps. }
  2:{ intros _ r tr1 tr2 Hk Hrest Hno. apply Forall_app in Hno as [_ Hno].
      apply Forall_app. auto. }
  2:{ done. }
  intros downloaded_rasters.
  destruct (bool_decide (downloaded_rasters = [])).
  { eapply yields_weaken; [|apply yields_emits with (P := keeps)]; [done|].
    unfold GeeDownload.logger_warning. by emits_steps. }
  eapply (yields_bind (fun _ tr => Forall keeps tr)
            (fun _ _ tr =>
               Forall (fun o => GeeDownload.is_masked_saved o = false) tr ->
               Forall keeps tr)).
  { apply yields_emits, merge_rasters_keeps. }
  2:{ intros _ r tr1 tr2 Hk Hrest Hno. apply Forall_app in Hno as [_ Hno].
      apply Forall_app. auto. }
  2:{ done. }
  intros merged_raster_path.
  destruct (negb (Py.truthy merged_raster_path)).
  { by apply yields_ret. }
  eapply (yields_bind _
            (fun final_mask _ tr => Py.truthy final_mask = false -> Forall keeps tr)).
  { apply mask_raster_yields. }
  - intros final_mask. destruct (Py.truthy final_mask); cbn [negb].
    + eapply yields_weaken; [|apply yields_emits with (P := fun _ => True)]; [done|].
      apply emits_bind; [apply delete_intermediate_emits|]. intros _.
      unfold GeeDownload.logger_info. by emits_steps.
    + eapply yields_weaken; [|apply yields_emits with (P := keeps)]; [done|].
      unfold GeeDownload.logger_warning. by emits_steps.
  - intros final_mask r tr1 tr2 [Hk Hsaved] Hrest Hno.
    apply Forall_app in Hno as [Hno1 Hno2]. apply Forall_app. split; [done|].
    apply Hrest. destruct (Py.truthy final_mask) eqn:Htruthy; [|done].
    exfalso. specialize (Hsaved final_mask eq_refl Htruthy).
    apply Exists_exists in Hsaved as (o & Ho & Hsaved).
    rewrite Forall_forall in Hno1. specialize (Hno1 o Ho). congruence.
  - intros e tr1 [Hk _] _. done.
Qed.

(** Closing the sources does not raise. *)
Lemma close_sources_done (srcs : list string) :
  Eff.yields (fun r _ => r = Eff.Done tt)
    (Eff.for_each srcs (fun src =>
       Eff.lift out id (fun _ => emit (EvClose src))) : GeeDownload.E unit).
Proof.
  induction srcs as [|src srcs IH]; [by apply yields_ret|].
  cbn [Eff.for_each].
  eapply (yields_bind (fun r _ => r = Eff.Done tt) (fun _ r _ => r = Eff.Done tt)).
  - intros s. unfold Eff.lift, emit. cbn [fs history]. by eexists _, _, _.
  - intros _. exact IH.
  - by intros _ r tr1 tr2 _ ->.
  - by intros e tr1 [=].
Qed.

(** [merge_rasters] does not raise, and when it returns [None] the only
    dataset it may have closed is the one it wrote. *)
Lemma gee_merge_rasters_yields raster_paths output_path :
  Eff.yields
    (fun r tr =>
       (exists a, r = Eff.Done a)
       /\ (r = Eff.Done None ->
           Forall (fun o : GeeDownload.occurrence =>
                     forall name, GeeDownload.closed_dataset o = Some name ->
                                  name = output_path) tr)
       /\ forall p, r = Eff.Done (Some p) -> p = output_path)
    (GeeDownload.merge_rasters out raster_paths output_path).
Proof.
  set (P := fun o : GeeDownload.occurrence =>
              forall name, GeeDownload.closed_dataset o = Some name ->
                           name = output_path).
  unfold GeeDownload.merge_rasters. intros s. unfold Eff.bind at 1.
  unfold GeeDownload.existing_rasters at 1.
  match goal with |- context [bool_decide (?v = [])] => generalize v end.
  intros valid. revert s.
  assert (Hnone : forall n,
    Eff.yields (fun r tr => r = Eff.Done (@None string) /\ Forall P tr)
      (Eff.bind (Eff.note_ n : GeeDownload.E unit) (fun _ => Eff.ret None))).
  { intros n s. eexists [Eff.Note n], _, _. split; [reflexivity|].
    split; [done|]. split; [done|]. by repeat constructor. }
  assert (Htail : forall srcs : list string,
    Eff.yields (fun r _ => r = Eff.Done (Some output_path))
      (Eff.bind (Eff.for_each srcs (fun src =>
                   Eff.lift out id (fun _ => emit (EvClose src))))
         (fun _ => Eff.bind (GeeDownload.logger_info
                               (GeeDownload.MergedRasterSaved output_path))
                     (fun _ => Eff.ret (Some output_path))))).
  { intros srcs.
    eapply (yields_bind (fun r _ => r = Eff.Done tt)
              (fun _ r _ => r = Eff.Done (Some output_path))).
    - apply close_sources_done.
    - intros _ s. by eexists _, _, _.
    - by intros _ r tr1 tr2 _ ->.
    - by intros e tr1 [=]. }
  set (Rbody := fun (r : Eff.outcome exn (option string))
                    (tr : list GeeDownload.occurrence) =>
                  r = Eff.Done (Some output_path)
                  \/ ((exists e, r = Eff.Thrown e) /\ Forall P tr)).
  assert (Hstep : forall {A} (m : GeeDownload.E A) (f : A -> GeeDownload.E (option string)),
    Eff.emits P m -> (forall a, Eff.yields Rbody (f a)) ->
    Eff.yields Rbody (Eff.bind m f)).
  { intros A m f Hm Hf.
    eapply (yields_bind (fun _ tr => Forall P tr) (fun _ => Rbody)).
    - by apply yields_emits.
    - exact Hf.
    - intros _ r tr1 tr2 H1 [->|[He H2]]; [by left|right].
      split; [done|by apply Forall_app].
    - intros e tr1 H1. right. eauto. }
  intros s. case_bool_decide as Hvalid.
  { destruct (Hnone (WARNING, GeeDownload.NoValidRasters) s)
      as (tr & s1 & r & Hrun & Htr & -> & HP).
    exists tr, s1, (Eff.Done None). split; [exact Hrun|]. split; [done|].
    split; [eauto|]. split; [done|]. by intros p [=]. }
  revert s. eapply (yields_try_except Rbody
    (fun _ r tr => r = Eff.Done (@None string) /\ Forall P tr)).
  - apply Hstep; [by apply open_all_emits|]. intros srcs.
    apply Hstep; [by emits_steps|]. intros _.
    apply Hstep.
    { apply emits_lift. intros oracle. unfold write_mosaic, create_file.
      inv_steps; subst P; cbn; intros name; congruence. }
    intros _. eapply yields_weaken; [|apply Htail]. intros r tr ->. by left.
  - intros e. apply Hnone.
  - intros a tr1 [[= ->]|[[e [=]] _]]. split; [eauto|].
    split; [done|]. by intros p [= <-].
  - intros e r tr1 tr2 [[=]|[_ H1]] [-> H2]. split; [eauto|].
    split; [intros _; by apply Forall_app|]. by intros p [=].
Qed.

End GeeDownloadRun.

(** X20: [process_region] of [GEE_download.py] removes no file before the
    masked raster is saved: in every run, unless the record that the
    masked raster was saved is among what the run adds to the trace,
    [os.remove] is not called, so the downloaded parts stay when the merge
    or the mask fails. *)
Theorem gee_download_removes_only_after_the_mask
    out collection band output_folder start_date end_date scale gdf_crs
    region_code region_geometry (s : GeeDownload.state) :
  exists tr s' r,
    GeeDownload.process_region out collection band output_folder start_date
      end_date scale gdf_crs region_code region_geometry s = (r, s')
    /\ Eff.trace s' = Eff.trace s ++ tr
    /\ (Forall (fun o => GeeDownload.is_masked_saved o = false) tr ->
        Forall (fun o => GeeDownload.is_removal o = false) tr).
Proof.
  apply (process_region_guarded out collection band output_folder start_date
           end_date scale gdf_crs region_code region_geometry s).
Qed.

(** X21: [merge_rasters] of [GEE_download.py] does not raise: it returns
    the output path or [None].  When it returns [None], none of the rasters
    it opened has been closed: the only dataset it may have closed is the
    output. *)
Theorem gee_download_merge_leaves_sources_open
    out raster_paths output_path (s : GeeDownload.state) :
  exists tr s' r,
    GeeDownload.merge_rasters out raster_paths output_path s = (Eff.Done r, s')
    /\ Eff.trace s' = Eff.trace s ++ tr
    /\ (r = None ->
        Forall (fun name => name = output_path)
          (omap GeeDownload.closed_dataset tr))
    /\ (forall p, r = Some p -> p = output_path).
Proof.
  destruct (gee_merge_rasters_yields out raster_paths output_path s)
    as (tr & s' & r & Hrun & Htr & [a ->] & Hnone & Hsome).
  exists tr, s', a. split; [done|]. split; [done|]. split.
  - intros ->. specialize (Hnone eq_refl). clear -Hnone.
    induction tr as [|o tr IH]; [constructor|].
    apply Forall_cons in Hnone as [Ho Hnone]. cbn [omap list_omap].
    destruct (GeeDownload.closed_dataset o) as [name|] eqn:Hname; [|by apply IH].
    constructor; [by apply Ho|by apply IH].
  - intros p ->. by apply Hsome.
Qed.

(** X22: in [download_gee_data_by_gdf] an [end_date] without a
    [start_date] is ignored: the run is the run without dates, with no date
    filter and [NO_DATE] in the file names. *)
Theorem gee_download_end_date_alone_is_ignored
    out gdf collection band output_folder start_date end_date scale max_workers
    gdf_crs :
  Py.truthy start_date = false ->
  GeeDownload.download_gee_data_by_gdf out gdf collection band output_folder
    start_date end_date scale max_workers gdf_crs
  = GeeDownload.download_gee_data_by_gdf out gdf collection band output_folder
      None None scale max_workers gdf_crs.
Proof.
  intros Hstart. destruct start_date as [[|c start]|]; [reflexivity|done|reflexivity].
Qed.

Lemma gee_download_end_date_alone_is_ignored_witness :
  GeeDownload.download_gee_data_by_gdf GeeDownload.fine
    [("ES", SinglePolygon unit_square)] "MODIS/061/MCD12Q1" "LC_Type1" "out"
    None (Some "2001-12-31") 500 5 "EPSG:4326"
  = GeeDownload.download_gee_data_by_gdf GeeDownload.fine
      [("ES", SinglePolygon unit_square)] "MODIS/061/MCD12Q1" "LC_Type1" "out"
      None None 500 5 "EPSG:4326".
Proof.
  apply (gee_download_end_date_alone_is_ignored GeeDownload.fine
           [("ES", SinglePolygon unit_square)] "MODIS/061/MCD12Q1" "LC_Type1" "out"
           None (Some "2001-12-31") 500 5 "EPSG:4326").
  reflexivity.
Defined.

(** ** [download_cds_dataset] *)

Section CdsRun.
Context (out : Cds.outside).
Context (urlparse_path : string -> string) (member_path joinpath : string -> string -> string).
Context (dataset archive_name archive_path : string) (max_retries retry_delay : Z).

(** An attempt whose [retrieve] raises. *)
Lemma attempt_download_refused e attempt (s : Cds.state) :
  (forall t, Eff.replies out t (Cds.retrieve dataset) = Eff.Failed e) ->
  (0 <= retry_delay)%Z ->
  Cds.attempt_download out dataset archive_name archive_path max_retries
    retry_delay attempt s
  = (if decide (Z.of_nat attempt < max_retries)%Z then Eff.Done None
     else Eff.Thrown e,
     {| Eff.files := Eff.files s;
        Eff.trace := Eff.trace s
          ++ Cds.failed_attempt dataset archive_name max_retries retry_delay
               e attempt |}).
Proof.
  intros Hrefused Hdelay.
  unfold Cds.attempt_download, Eff.try_except, Cds.retrieve_and_download.
  unfold Eff.bind at 1. unfold Cds.logger_info at 1, Eff.note_, Eff.occur.
  unfold Eff.bind at 1. unfold Eff.bind at 1, Eff.call_ at 1. rewrite Hrefused.
  cbn [Eff.files Eff.trace]. unfold Cds.failed_attempt, Cds.logger_warning,
    Cds.logger_info, Cds.logger_error, Cds.time_sleep, Eff.note_, Eff.sleep,
    Eff.occur, Eff.bind, Eff.throw, Eff.ret.
  cbn [Eff.files Eff.trace].
  destruct (decide (Z.of_nat attempt < max_retries)%Z).
  - destruct (decide (retry_delay < 0)%Z); [lia|].
    cbn [Eff.files Eff.trace]. by rewrite <- !app_assoc.
  - cbn [Eff.files Eff.trace]. by rewrite <- !app_assoc.
Qed.

(** The loop of lines 67-81 when every [retrieve] raises [e]: the last
    attempt raises again. *)
Lemma attempts_all_refused e n a (s : Cds.state) :
  (forall t, Eff.replies out t (Cds.retrieve dataset) = Eff.Failed e) ->
  (0 <= retry_delay)%Z ->
  Z.of_nat (a + n) = (max_retries + 1)%Z -> 0 < n ->
  Eff.for_return (seq a n)
    (Cds.attempt_download out dataset archive_name archive_path max_retries
       retry_delay) s
  = (Eff.Thrown e,
     {| Eff.files := Eff.files s;
        Eff.trace := Eff.trace s
          ++ flat_map (Cds.failed_attempt dataset archive_name max_retries
                         retry_delay e) (seq a n) |}).
Proof.
  intros Hrefused Hdelay. revert a s.
  induction n as [|n IH]; intros a s Han Hn; [lia|].
  cbn [seq Eff.for_return flat_map]. unfold Eff.bind at 1.
  rewrite (attempt_download_refused e) by done.
  destruct (decide (Z.of_nat a < max_retries)%Z) as [Hlt|Hge].
  - destruct n as [|n]; [lia|]. rewrite IH by lia.
    cbn [Eff.files Eff.trace]. by rewrite <- app_assoc.
  - assert (n = 0) as -> by lia. cbn [seq flat_map]. by rewrite app_nil_r.
Qed.

End CdsRun.

(** X23: when no download of [download_cds_dataset] gets through (every
    [client.retrieve] raises [e]) and the archive is not taken from disk,
    the function makes exactly [max_retries] attempts, waits [retry_delay]
    seconds after each but the last, logs every failure, and raises [e]
    again; nothing is extracted and the file system is unchanged. *)
Theorem cds_download_gives_up
    out urlparse_path member_path joinpath dataset archive_name output_dir
    files_to_extract extract_by_name extract_by_extension overwrite
    max_retries retry_delay e (s : Cds.state) :
  (forall t, Eff.replies out t (Cds.retrieve dataset) = Eff.Failed e) ->
  (0 < max_retries)%Z -> (0 <= retry_delay)%Z ->
  overwrite = true
  \/ Eff.files s !! joinpath output_dir (archive_name +:+ ".zip") = None ->
  Cds.download_cds_dataset out urlparse_path member_path joinpath dataset
    (Ok archive_name) output_dir files_to_extract extract_by_name
    extract_by_extension overwrite max_retries retry_delay s
  = (Eff.Thrown e,
     {| Eff.files := Eff.files s;
        Eff.trace := Eff.trace s
          ++ flat_map (Cds.failed_attempt dataset archive_name max_retries
                         retry_delay e) (seq 1 (Z.to_nat max_retries))
          ++ [Eff.Note (ERROR, Cds.ErrorAlDescargarOProcesar archive_name e)] |}).
Proof.
  intros Hrefused Hretries Hdelay Harchive.
  unfold Cds.download_cds_dataset, Eff.try_except.
  unfold Eff.bind at 1, Eff.ret at 1. unfold Cds.download_and_extract. cbv zeta.
  set (archive_path := joinpath output_dir (archive_name +:+ ".zip")) in *.
  assert (Hloop := attempts_all_refused out dataset archive_name archive_path
                     max_retries retry_delay e (Z.to_nat max_retries) 1).
  unfold Eff.bind at 1.
  assert (Hexists :
    (if negb overwrite
     then Eff.lift out Archive.Py (fun _ => os_path_exists archive_path)
     else Eff.ret false) s
    = (Eff.Done (negb overwrite && bool_decide (is_Some (Eff.files s !! archive_path))),
       s)).
  { destruct overwrite; [done|]. cbn [negb andb].
    apply lift_os_path_exists. }
  rewrite Hexists.
  assert (negb overwrite
          && (negb overwrite && bool_decide (is_Some (Eff.files s !! archive_path)))
          = false) as ->.
  { destruct Harchive as [->| ->]; [done|].
    rewrite bool_decide_eq_false_2 by (by intros [? ?]). by destruct overwrite. }
  unfold Eff.bind at 1 2. rewrite Hloop by (done || lia).
  unfold Cds.logger_error, Eff.note_, Eff.occur, Eff.bind, Eff.throw.
  cbn [Eff.files Eff.trace]. by rewrite <- app_assoc.
Qed.

Lemma cds_download_gives_up_witness :
  Cds.download_cds_dataset Cds.unreachable id (fun d n => d +:+ "/" +:+ n)
    (fun d n => d +:+ "/" +:+ n) "projections-cmip6"
    (Ok "projections-cmip6_2015_ssp1_2_6_monthly_tas") "data" Archive.NoFiles
    None (Some ".nc") false 2 5 Cds.nothing
  = (Eff.Thrown (Archive.Py (RequestException "timeout")),
     {| Eff.files := ∅;
        Eff.trace :=
          flat_map (Cds.failed_attempt "projections-cmip6"
                      "projections-cmip6_2015_ssp1_2_6_monthly_tas" 2 5
                      (Archive.Py (RequestException "timeout"))) (seq 1 2)
          ++ [Eff.Note (ERROR, Cds.ErrorAlDescargarOProcesar
                                 "projections-cmip6_2015_ssp1_2_6_monthly_tas"
                                 (Archive.Py (RequestException "timeout")))] |}).
Proof.
  apply (cds_download_gives_up Cds.unreachable id (fun d n => d +:+ "/" +:+ n)
           (fun d n => d +:+ "/" +:+ n) "projections-cmip6"
           "projections-cmip6_2015_ssp1_2_6_monthly_tas" "data" Archive.NoFiles
           None (Some ".nc") false 2 5 (Archive.Py (RequestException "timeout"))
           Cds.nothing).
  - reflexivity.
  - lia.
  - lia.
  - right. reflexivity.
Defined.

(** X24: when the request lacks one of the keys that the archive name is
    built from, [download_cds_dataset] does not raise the [KeyError]: its
    handler formats [archive_name], which is not bound yet, so what the
    caller gets is an [UnboundLocalError], a [NameError], on [archive_name];
    nothing is logged, requested or written. *)
Theorem cds_download_masks_the_error_of_the_request
    out urlparse_path member_path joinpath dataset e output_dir
    files_to_extract extract_by_name extract_by_extension overwrite
    max_retries retry_delay (s : Cds.state) :
  Cds.download_cds_dataset out urlparse_path member_path joinpath dataset
    (Raise e) output_dir files_to_extract extract_by_name extract_by_extension
    overwrite max_retries retry_delay s
  = (Eff.Thrown (Archive.Py (NameError "archive_name")), s).
Proof. reflexivity. Qed.
